(** * adafruit_rfm9x: the RFM95/6/7/8 LoRa driver, embedded and verified

    A shallow embedding of [adafruit_rfm9x.py].  The driver object and the
    chip behind the SPI bus form one explicit state; every method is a
    computation in a small state-and-exception monad, so that what a method
    has done to the chip by the time it raises is part of its result.

    Python integers are [Z] (unbounded, two's-complement bit operations),
    Python floats are the kernel's binary64 floats, dictionaries are [gmap].

    The chip is a register file that holds what was last written to each
    register, together with a log of the write transfers.  The bus carries
    bytes: a write transfer whose list holds a number outside 0..255 is
    refused by [pi.spi_xfer] with [ValueError] and nothing goes out.  What the chip
    and the clock do on their own while [send] polls for [tx_done] is a
    script carried in the state: the IRQ flags the chip shows at each poll
    and the readings [time.monotonic()] returns. *)

From Stdlib Require Import ZArith List Lia Bool String Sorted Floats Uint63.
From stdpp Require Import gmap.
Import ListNotations.

Set Warnings "-inexact-float".
Local Open Scope Z_scope.

(** ** Constants of the module *)

Definition _RH_RF95_REG_00_FIFO : Z := 0x00.
Definition _RH_RF95_REG_01_OP_MODE : Z := 0x01.
Definition _RH_RF95_REG_06_FRF_MSB : Z := 0x06.
Definition _RH_RF95_REG_07_FRF_MID : Z := 0x07.
Definition _RH_RF95_REG_08_FRF_LSB : Z := 0x08.
Definition _RH_RF95_REG_09_PA_CONFIG : Z := 0x09.
Definition _RH_RF95_REG_0D_FIFO_ADDR_PTR : Z := 0x0d.
Definition _RH_RF95_REG_10_FIFO_RX_CURRENT_ADDR : Z := 0x10.
Definition _RH_RF95_REG_12_IRQ_FLAGS : Z := 0x12.
Definition _RH_RF95_REG_13_RX_NB_BYTES : Z := 0x13.
Definition _RH_RF95_REG_19_PKT_SNR_VALUE : Z := 0x19.
Definition _RH_RF95_REG_1A_PKT_RSSI_VALUE : Z := 0x1a.
Definition _RH_RF95_REG_1D_MODEM_CONFIG1 : Z := 0x1d.
Definition _RH_RF95_REG_1E_MODEM_CONFIG2 : Z := 0x1e.
Definition _RH_RF95_REG_22_PAYLOAD_LENGTH : Z := 0x22.
Definition _RH_RF95_REG_40_DIO_MAPPING1 : Z := 0x40.
Definition _RH_RF95_REG_4D_PA_DAC : Z := 0x4d.

Definition _RH_RF95_MODE_RXCONTINUOUS : Z := 0x05.
Definition _RH_RF95_RX_DONE : Z := 0x40.
Definition _RH_RF95_TX_DONE : Z := 0x08.
Definition _RH_RF95_PA_DAC_DISABLE : Z := 0x04.
Definition _RH_RF95_PA_DAC_ENABLE : Z := 0x07.
Definition _RH_BROADCAST_ADDRESS : Z := 0xFF.

Definition _RH_RF95_FXOSC : float := 32000000.0%float.
Definition _RH_RF95_FSTEP : float := (_RH_RF95_FXOSC / 524288)%float.

Definition SLEEP_MODE : Z := 0.
Definition STANDBY_MODE : Z := 1.
Definition FS_TX_MODE : Z := 2.
Definition TX_MODE : Z := 3.
Definition FS_RX_MODE : Z := 4.
Definition RX_MODE : Z := 5.

Definition FLAGS_ACK : Z := 0x80.

(** ** Python values that reach the driver *)

(** An element of a [tx_header]: an integer, or [None] (what
    [receive_filter_address] holds when filtering is switched off). *)
Inductive value := Int (n : Z) | NoneVal.

#[global] Instance value_eq_dec : EqDecision value.
Proof. solve_decision. Defined.

#[global] Instance value_countable : Countable value.
Proof.
  refine (inj_countable'
            (fun v => match v with Int n => Some n | NoneVal => None end)
            (fun o => match o with Some n => Int n | None => NoneVal end) _).
  intros []; reflexivity.
Defined.

(** A header is handed over as a tuple (immutable) or as a list (mutable). *)
Inductive sequence := Tuple (items : list value) | List (items : list value).

Definition items_of (h : sequence) : list value :=
  match h with Tuple l | List l => l end.

(** The exceptions the methods raise.  [EnvExhausted] is not a Python
    exception: it marks a run that asks the environment script of the model
    for more readings than it holds. *)
Inductive exn :=
| AssertionError
| TypeError
| IndexError
| ValueError
| OverflowError
| StructError
| RuntimeError (msg : string)
| EnvExhausted.

Inductive outcome (A : Type) := Ok (a : A) | Raise (e : exn).
Arguments Ok {A} a.
Arguments Raise {A} e.

(** The [Packet] named tuple handed to the consumer. *)
Record Packet := mkPacket { data : list Z; rssi_of : Z; snr_of : float }.

(** ** The driver object and the chip it talks to *)

Record RFM9x := mkRFM9x {
  (* the chip, seen across the SPI bus *)
  regs : Z -> Z;                  (* the register file, by register address *)
  burst : Z -> nat -> list Z;     (* the bytes answered to a multi-byte read *)
  xfers : list (Z * list Z);      (* write transfers on the wire, latest first *)
  (* the environment *)
  monotonic : list float;         (* the readings time.monotonic() will give *)
  irq_events : list Z;            (* the IRQ flags the chip shows at each poll *)
  (* the attributes of the object *)
  high_power : bool;
  receive_filter_address : option Z;
  acks : bool;
  last_sent_id : gmap value Z;
  last_received_id : gmap Z Z
}.

Definition upd (f : Z -> Z) (a v : Z) : Z -> Z :=
  fun x => if x =? a then v else f x.

Definition with_bus (s : RFM9x) (r : Z -> Z) (x : list (Z * list Z)) : RFM9x :=
  mkRFM9x r (burst s) x (monotonic s) (irq_events s) (high_power s)
          (receive_filter_address s) (acks s) (last_sent_id s) (last_received_id s).

Definition with_env (s : RFM9x) (clk : list float) (ev : list Z) : RFM9x :=
  mkRFM9x (regs s) (burst s) (xfers s) clk ev (high_power s)
          (receive_filter_address s) (acks s) (last_sent_id s) (last_received_id s).

Definition with_last_sent_id (s : RFM9x) (m : gmap value Z) : RFM9x :=
  mkRFM9x (regs s) (burst s) (xfers s) (monotonic s) (irq_events s) (high_power s)
          (receive_filter_address s) (acks s) m (last_received_id s).

Definition with_last_received_id (s : RFM9x) (m : gmap Z Z) : RFM9x :=
  mkRFM9x (regs s) (burst s) (xfers s) (monotonic s) (irq_events s) (high_power s)
          (receive_filter_address s) (acks s) (last_sent_id s) m.

(** What the chip shows after it has been left alone: new register contents
    and FIFO answers, with the object's attributes untouched. *)
Definition with_chip (s : RFM9x) (r : Z -> Z) (b : Z -> nat -> list Z)
           (clk : list float) (ev : list Z) : RFM9x :=
  mkRFM9x r b (xfers s) clk ev (high_power s)
          (receive_filter_address s) (acks s) (last_sent_id s) (last_received_id s).

(** ** The monad of methods: state passing with exceptions *)

Definition M (A : Type) : Type := RFM9x -> outcome A * RFM9x.

Definition ret {A} (a : A) : M A := fun s => (Ok a, s).
Definition raise {A} (e : exn) : M A := fun s => (Raise e, s).
Definition bind {A B} (m : M A) (k : A -> M B) : M B :=
  fun s => match m s with
           | (Ok a, s') => k a s'
           | (Raise e, s') => (Raise e, s')
           end.
Definition gets {A} (f : RFM9x -> A) : M A := fun s => (Ok (f s), s).
Definition modify (f : RFM9x -> RFM9x) : M unit := fun s => (Ok tt, f s).

Notation "x <- m ;; k" := (bind m (fun x => k))
  (at level 100, m at next level, right associativity).
Notation "m ;;; k" := (bind m (fun _ => k))
  (at level 100, right associativity).

(** ** The SPI primitives *)

(** [_spi_read] with [length == 1], then [int(...)]: one register byte. *)
Definition _read_u8 (address : Z) : M Z := gets (fun s => regs s address).

(** What [_write_u8] accepts: an [int] or a [bytes] object. *)
Inductive payload := IntPayload (n : Z) | BytesPayload (bs : list Z).

(** A number [pi.spi_xfer] can put on the bus. *)
Definition is_byte (b : Z) : bool := (0 <=? b) && (b <=? 255).

(** [_write_u8]: the payload becomes a list and goes to [pi.spi_xfer]
    behind the register address with its write bit set.  [spi_xfer] turns
    the list into bytes: a payload element outside 0..255 raises
    [ValueError] and nothing is transferred.  (The register is one of the
    module's constants, all below 0x80.)  A one-byte payload lands in the
    register; a longer one is a burst into the FIFO and only shows on the
    wire. *)
Definition _write_u8 (register : Z) (p : payload) : M unit :=
  let bs := match p with IntPayload n => [n] | BytesPayload l => l end in
  if forallb is_byte bs then
    modify (fun s =>
      with_bus s
        (match bs with [b] => upd (regs s) register b | _ => regs s end)
        ((Z.lor register 0x80, bs) :: xfers s))
  else raise ValueError.

(** [_read_into]: [buf[0:] = packet].  A one-byte read comes back from
    [_spi_read] as an [int], the slice assignment raises [TypeError], and
    the handler leaves the buffer as it was. *)
Definition _read_into (address : Z) (buf : list Z) : M (list Z) :=
  gets (fun s =>
    if (length buf =? 1)%nat then buf else burst s address (length buf)).

(** ** [_RegisterBits] *)

Record RegisterBits := mkRegisterBits { _address : Z; _mask : Z; _offset : Z }.

(** The loop of [__init__]: [bits] times, shift left and set bit 0. *)
Fixpoint mask_loop (n : nat) (mask : Z) : Z :=
  match n with
  | O => mask
  | S n' => mask_loop n' (Z.lor (Z.shiftl mask 1) 1)
  end.

(** The three assertions of [__init__]. *)
Definition bits_ok (offset bits : Z) : bool :=
  (0 <=? offset) && (offset <=? 7) && (1 <=? bits) && (bits <=? 8)
  && (offset + bits <=? 8).

Definition new_RegisterBits (address offset bits : Z) : RegisterBits :=
  {| _address := address;
     _mask := Z.shiftl (mask_loop (Z.to_nat bits) 0) offset;
     _offset := offset |}.

Definition get_bits (f : RegisterBits) : M Z :=
  reg_value <- _read_u8 (_address f) ;;
  ret (Z.shiftr (Z.land reg_value (_mask f)) (_offset f)).

Definition set_bits (f : RegisterBits) (val : Z) : M unit :=
  reg_value <- _read_u8 (_address f) ;;
  let reg_value := Z.land reg_value (Z.lnot (_mask f)) in
  let reg_value := Z.lor reg_value (Z.shiftl (Z.land val 0xFF) (_offset f)) in
  _write_u8 (_address f) (IntPayload reg_value).

Definition operation_mode := new_RegisterBits _RH_RF95_REG_01_OP_MODE 0 3.
Definition low_frequency_mode := new_RegisterBits _RH_RF95_REG_01_OP_MODE 3 1.
Definition modulation_type := new_RegisterBits _RH_RF95_REG_01_OP_MODE 5 2.
Definition long_range_mode := new_RegisterBits _RH_RF95_REG_01_OP_MODE 7 1.
Definition output_power := new_RegisterBits _RH_RF95_REG_09_PA_CONFIG 0 4.
Definition max_power := new_RegisterBits _RH_RF95_REG_09_PA_CONFIG 4 3.
Definition pa_select := new_RegisterBits _RH_RF95_REG_09_PA_CONFIG 7 1.
Definition pa_dac := new_RegisterBits _RH_RF95_REG_4D_PA_DAC 0 3.
Definition dio0_mapping := new_RegisterBits _RH_RF95_REG_40_DIO_MAPPING1 6 2.
Definition tx_done := new_RegisterBits _RH_RF95_REG_12_IRQ_FLAGS 3 1.
Definition rx_done := new_RegisterBits _RH_RF95_REG_12_IRQ_FLAGS 6 1.
Definition crc_error := new_RegisterBits _RH_RF95_REG_12_IRQ_FLAGS 5 1.

Definition bw_bins : list Z :=
  [7800; 10400; 15600; 20800; 31250; 41700; 62500; 125000; 250000].

(** ** Modes *)

Definition idle : M unit := set_bits operation_mode STANDBY_MODE.

Definition sleep : M unit := set_bits operation_mode SLEEP_MODE.

Definition listen : M unit :=
  set_bits operation_mode RX_MODE ;;;
  set_bits dio0_mapping 0.

Definition transmit : M unit :=
  set_bits operation_mode TX_MODE ;;;
  _write_u8 _RH_RF95_REG_40_DIO_MAPPING1 (IntPayload 0x40).

(** ** Numbers: [int(x)], [round(x)] and the conversion of an [int] operand *)

(** [int(x)] of a float: the integer part, towards zero; [None] where Python
    raises (NaN, infinities). *)
Definition py_int (x : float) : option Z :=
  match Prim2SF x with
  | S754_zero _ => Some 0
  | S754_finite sign m e =>
      let magnitude := Z.shiftl (Z.pos m) e in
      Some (if sign then - magnitude else magnitude)
  | _ => None
  end.

(** [round(x)] of a float: the nearest integer, ties to the even one. *)
Definition py_round (x : float) : option Z :=
  match Prim2SF x with
  | S754_zero _ => Some 0
  | S754_finite sign m e =>
      let magnitude :=
        if 0 <=? e then Z.shiftl (Z.pos m) e
        else
          let q := Z.shiftr (Z.pos m) (- e) in
          let twice_rest := 2 * (Z.pos m - Z.shiftl q (- e)) in
          let unit := Z.shiftl 1 (- e) in
          if twice_rest <? unit then q
          else if unit <? twice_rest then q + 1
          else if Z.even q then q else q + 1 in
      Some (if sign then - magnitude else magnitude)
  | _ => None
  end.

(** An [int] operand of a float operation (exact below 2^53). *)
Definition float_of_int (n : Z) : float := PrimFloat.of_uint63 (Uint63.of_Z n).

(** A power level as the caller gives it: an [int] or a [float]. *)
Inductive number := IntNum (n : Z) | FloatNum (x : float).

(** [int(val)] of a number: an [int] as it is, a [float] cut towards zero;
    [ValueError] for NaN and [OverflowError] for an infinity. *)
Definition int_of_number (val : number) : exn + Z :=
  match val with
  | IntNum n => inr n
  | FloatNum x =>
      match py_int x with
      | Some n => inr n
      | None => inl (if PrimFloat.is_nan x then ValueError else OverflowError)
      end
  end.

(** ** Radio configuration *)

Definition preamble_length : M Z :=
  msb <- _read_u8 0x20 ;;
  lsb <- _read_u8 0x21 ;;
  ret (Z.land (Z.lor (Z.shiftl msb 8) lsb) 0xFFFF).

Definition set_preamble_length (val : Z) : M unit :=
  if negb ((0 <=? val) && (val <=? 65535)) then raise AssertionError else
  _write_u8 0x20 (IntPayload (Z.land (Z.shiftr val 8) 0xFF)) ;;;
  _write_u8 0x21 (IntPayload (Z.land val 0xFF)).

Definition frequency_mhz : M float :=
  msb <- _read_u8 _RH_RF95_REG_06_FRF_MSB ;;
  mid <- _read_u8 _RH_RF95_REG_07_FRF_MID ;;
  lsb <- _read_u8 _RH_RF95_REG_08_FRF_LSB ;;
  let frf := Z.land (Z.lor (Z.lor (Z.shiftl msb 16) (Z.shiftl mid 8)) lsb)
                    0xFFFFFF in
  ret ((float_of_int frf * _RH_RF95_FSTEP) / 1000000.0)%float.

(** The 24-bit FRF value the setter computes from its argument. *)
Definition frf_of (val : float) : option Z :=
  match py_int ((val * 1000000.0) / _RH_RF95_FSTEP)%float with
  | Some n => Some (Z.land n 0xFFFFFF)
  | None => None
  end.

Definition set_frequency_mhz (val : float) : M unit :=
  if (val <? 240)%float || (960 <? val)%float then
    raise (RuntimeError "frequency_mhz must be between 240 and 960")
  else
    match frf_of val with
    | None => raise ValueError
    | Some frf =>
        let msb := Z.shiftr frf 16 in
        let mid := Z.land (Z.shiftr frf 8) 0xFF in
        let lsb := Z.land frf 0xFF in
        _write_u8 _RH_RF95_REG_06_FRF_MSB (IntPayload msb) ;;;
        _write_u8 _RH_RF95_REG_07_FRF_MID (IntPayload mid) ;;;
        _write_u8 _RH_RF95_REG_08_FRF_LSB (IntPayload lsb)
    end.

(** The register value of the specification's words:
    [round(freq_MHz * 1e6 / (Fxosc / 2^19))]. *)
Definition frf_rounded (freq_MHz : float) : option Z :=
  py_round (freq_MHz * 1000000.0 / (32000000.0 / 524288))%float.

Definition tx_power : M Z :=
  hp <- gets high_power ;;
  p <- get_bits output_power ;;
  if hp then ret (p + 5) else ret (p - 1).

Definition set_tx_power (val : number) : M unit :=
  match int_of_number val with
  | inl e => raise e
  | inr val =>
  hp <- gets high_power ;;
  if hp then
    if (val <? 5) || (23 <? val) then
      raise (RuntimeError "tx_power must be between 5 and 23")
    else
      val' <- (if 20 <? val
               then set_bits pa_dac _RH_RF95_PA_DAC_ENABLE ;;; ret (val - 3)
               else set_bits pa_dac _RH_RF95_PA_DAC_DISABLE ;;; ret val) ;;
      set_bits pa_select 1 ;;;
      set_bits output_power (Z.land (val' - 5) 0x0F)
  else
    if negb ((-1 <=? val) && (val <=? 14)) then raise AssertionError else
    set_bits pa_select 0 ;;;
    set_bits max_power 7 ;;;
    set_bits output_power (Z.land (val + 1) 0x0F)
  end.

Definition rssi : M Z :=
  raw <- _read_u8 _RH_RF95_REG_1A_PKT_RSSI_VALUE ;;
  ret (raw - 137).

Definition snr : M float :=
  raw <- _read_u8 _RH_RF95_REG_19_PKT_SNR_VALUE ;;
  ret (float_of_int raw / 4)%float.

Definition signal_bandwidth : M Z :=
  reg <- _read_u8 _RH_RF95_REG_1D_MODEM_CONFIG1 ;;
  let bw_id := Z.shiftr (Z.land reg 0xf0) 4 in
  if Z.of_nat (length bw_bins) <=? bw_id then ret 500000
  else ret (nth (Z.to_nat bw_id) bw_bins 0).

(** The [for ... else] of the setter: the index of the first cutoff that is
    at least [val], counting from [bw_id]; [None] when the loop runs to its
    end without a [break]. *)
Fixpoint first_cutoff (val : Z) (bins : list Z) (bw_id : Z) : option Z :=
  match bins with
  | [] => None
  | cutoff :: rest =>
      if val <=? cutoff then Some bw_id else first_cutoff val rest (bw_id + 1)
  end.

Definition select_bw_id (val : Z) : Z :=
  match first_cutoff val bw_bins 0 with
  | Some bw_id => bw_id
  | None => 9
  end.

Definition set_signal_bandwidth (val : Z) : M unit :=
  let bw_id := select_bw_id val in
  reg <- _read_u8 _RH_RF95_REG_1D_MODEM_CONFIG1 ;;
  _write_u8 _RH_RF95_REG_1D_MODEM_CONFIG1
            (IntPayload (Z.lor (Z.land reg 0x0f) (Z.shiftl bw_id 4))).

Definition coding_rate : M Z :=
  reg <- _read_u8 _RH_RF95_REG_1D_MODEM_CONFIG1 ;;
  ret (Z.shiftr (Z.land reg 0x0e) 1 + 4).

Definition set_coding_rate (val : Z) : M unit :=
  let denominator := Z.min (Z.max val 5) 8 in
  let cr_id := denominator - 4 in
  reg <- _read_u8 _RH_RF95_REG_1D_MODEM_CONFIG1 ;;
  _write_u8 _RH_RF95_REG_1D_MODEM_CONFIG1
            (IntPayload (Z.lor (Z.land reg 0xf1) (Z.shiftl cr_id 1))).

Definition spreading_factor : M Z :=
  reg <- _read_u8 _RH_RF95_REG_1E_MODEM_CONFIG2 ;;
  ret (Z.shiftr (Z.land reg 0xf0) 4).

Definition set_spreading_factor (val : Z) : M unit :=
  let val := Z.min (Z.max val 6) 12 in
  _write_u8 0x31 (IntPayload (if val =? 6 then 0xc5 else 0xc3)) ;;;
  _write_u8 0x37 (IntPayload (if val =? 6 then 0x0c else 0x0a)) ;;;
  reg <- _read_u8 _RH_RF95_REG_1E_MODEM_CONFIG2 ;;
  _write_u8 _RH_RF95_REG_1E_MODEM_CONFIG2
            (IntPayload (Z.lor (Z.land reg 0x0f) (Z.land (Z.shiftl val 4) 0xf0))).

Definition enable_crc : M bool :=
  reg <- _read_u8 _RH_RF95_REG_1E_MODEM_CONFIG2 ;;
  ret (Z.land reg 0x04 =? 0x04).

Definition set_enable_crc (val : bool) : M unit :=
  reg <- _read_u8 _RH_RF95_REG_1E_MODEM_CONFIG2 ;;
  if val
  then _write_u8 _RH_RF95_REG_1E_MODEM_CONFIG2 (IntPayload (Z.lor reg 0x04))
  else _write_u8 _RH_RF95_REG_1E_MODEM_CONFIG2 (IntPayload (Z.land reg 0xfb)).

(** ** Sending *)

(** The id-allocation step of [send] (the body of [if tx_header[2] == 0]).
    Either branch of the inner [if] ends in an assignment to [tx_header[2]],
    which a tuple refuses with [TypeError]; on a list the id is stored in
    the list and in [last_sent_id].  The result is the header object as the
    step leaves it. *)
Definition allocate_id (tx_header : sequence) : M sequence :=
  match tx_header with
  | Tuple _ => raise TypeError
  | List items =>
      match items with
      | to :: _ =>
          sent <- gets last_sent_id ;;
          let id := match sent !! to with
                    | Some last => last + 1
                    | None => 1
                    end in
          (* Roll over at 254 *)
          let id := if id <? 254 then id else 1 in
          modify (fun s => with_last_sent_id s (<[to := id]> (last_sent_id s))) ;;;
          ret (List (<[2%nat := Int id]> items))
      | [] => raise IndexError
      end
  end.

(** [struct.pack("<BBBB", ...)]: four integers in [0, 255], or
    [struct.error]. *)
Definition pack_byte (v : value) : option Z :=
  match v with
  | Int n => if (0 <=? n) && (n <=? 255) then Some n else None
  | NoneVal => None
  end.

Definition struct_pack (items : list value) : option (list Z) :=
  match items with
  | [a; b; c; d] =>
      match pack_byte a, pack_byte b, pack_byte c, pack_byte d with
      | Some a', Some b', Some c', Some d' => Some [a'; b'; c'; d']
      | _, _, _, _ => None
      end
  | _ => None
  end.

(** [time.monotonic()]: the next reading of the clock. *)
Definition time_monotonic : M float :=
  fun s => match monotonic s with
           | [] => (Raise EnvExhausted, s)
           | now :: later => (Ok now, with_env s later (irq_events s))
           end.

(** Between two polls the chip is on its own: it shows its next IRQ flags. *)
Definition chip_tick : M unit :=
  fun s => match irq_events s with
           | [] => (Raise EnvExhausted, s)
           | flags :: later =>
               (Ok tt, mkRFM9x (upd (regs s) _RH_RF95_REG_12_IRQ_FLAGS flags)
                               (burst s) (xfers s) (monotonic s) later
                               (high_power s) (receive_filter_address s)
                               (acks s) (last_sent_id s) (last_received_id s))
           end.

(** The polling loop of [send],
    [while not timed_out and not self.tx_done: ...], by recursion on the
    clock readings still to come; the result is [timed_out]. *)
Fixpoint wait_tx_done (clock : list float) (start timeout : float) : M bool :=
  chip_tick ;;;
  done <- get_bits tx_done ;;
  if done =? 0 then
    match clock with
    | [] => raise EnvExhausted
    | now :: later =>
        modify (fun s => with_env s later (irq_events s)) ;;;
        if (timeout <=? now - start)%float then ret true
        else wait_tx_done later start timeout
    end
  else ret false.

(** [send] once the header is settled, up to and including
    [self.transmit()]: back to idle, the FIFO pointer reset, header and
    payload written to the FIFO, the length register set, transmit mode
    entered. *)
Definition load_fifo (data : list Z) (tx_header : sequence) : M sequence :=
  idle ;;;
  _write_u8 _RH_RF95_REG_0D_FIFO_ADDR_PTR (IntPayload 0x00) ;;;
  match struct_pack (items_of tx_header) with
  | None => raise StructError
  | Some header =>
      let payload := header ++ data in
      _write_u8 _RH_RF95_REG_00_FIFO (BytesPayload payload) ;;;
      _write_u8 _RH_RF95_REG_22_PAYLOAD_LENGTH
                (IntPayload (Z.of_nat (length payload))) ;;;
      transmit ;;;
      ret tx_header
  end.

(** [send] from its first line to [self.transmit()]: the two assertions,
    the id allocation when the id is 0, and the packet loaded into the
    FIFO.  The result is the header object as the call leaves it: a list
    passed by the caller is updated in place by the id allocation. *)
Definition send_load (data : list Z) (tx_header : sequence) : M sequence :=
  let len := Z.of_nat (length data) in
  if negb ((0 <? len) && (len <=? 252)) then raise AssertionError else
  if negb (length (items_of tx_header) =? 4)%nat then raise AssertionError else
  tx_header <- match items_of tx_header !! 2%nat with
               | Some (Int 0) => allocate_id tx_header   (* ID is not set *)
               | _ => ret tx_header
               end ;;
  load_fifo data tx_header.

(** [send] from [start = time.monotonic()] on: the wait for [tx_done], back
    to idle, the interrupt flags cleared, and the timeout raised last. *)
Definition send_wait (timeout : float) : M unit :=
  start <- time_monotonic ;;
  clock <- gets monotonic ;;
  timed_out <- wait_tx_done clock start timeout ;;
  idle ;;;
  _write_u8 _RH_RF95_REG_12_IRQ_FLAGS (IntPayload 0xFF) ;;;
  if timed_out : bool then raise (RuntimeError "Timeout during packet send")
  else ret tt.

Definition send (data : list Z) (timeout : float) (tx_header : sequence)
  : M sequence :=
  tx_header <- send_load data tx_header ;;
  send_wait timeout ;;;
  ret tx_header.

(** The default [tx_header] of [send], a tuple. *)
Definition default_tx_header : sequence :=
  Tuple [Int _RH_BROADCAST_ADDRESS; Int _RH_BROADCAST_ADDRESS; Int 0; Int 0].

(** [k] allocations in a row for one destination, each on a fresh list
    whose id is unset. *)
Fixpoint allocations (to : value) (k : nat) (s : RFM9x) : RFM9x :=
  match k with
  | O => s
  | S k' => snd (allocate_id (List [to; Int 0; Int 0; Int 0]) (allocations to k' s))
  end.

(** What the calls read from the environment, and the attributes of the
    object that [send] leaves alone. *)
Definition env (s : RFM9x) : list float * list Z :=
  (monotonic s, irq_events s).

Definition attributes (s : RFM9x)
  : bool * option Z * bool * gmap Z Z :=
  (high_power s, receive_filter_address s, acks s, last_received_id s).

(** A computation keeps an observation [obs] of the state when the state it
    leaves shows what the state it found showed, whatever it returns. *)
Definition keeps {A B} (obs : RFM9x -> B) (m : M A) : Prop :=
  forall s, obs (snd (m s)) = obs s.

(** An observation of the object's attributes only: it does not see the
    chip, the bus or the environment. *)
Definition attribute_only {B} (obs : RFM9x -> B) : Prop :=
  forall s r b x clk ev,
    obs (mkRFM9x r b x clk ev (high_power s) (receive_filter_address s)
                 (acks s) (last_sent_id s) (last_received_id s))
    = obs s.

(** ** Receiving *)

(** The header block of [receive_packet] either returns from the method
    ([Returned]) or goes on with the payload ([Payload]). *)
Inductive parsed := Returned | Payload (packet : list Z).

Definition receive_header (packet : list Z) : M parsed :=
  match packet with
  | header_to :: header_from :: header_id :: header_flags :: rest =>
      filter <- gets receive_filter_address ;;
      (* If filter is defined and this message does not match *)
      if match filter with
         | Some address => negb (header_to =? address)
         | None => false
         end
      then listen ;;; ret Returned
      else
        acks_on <- gets acks ;;
        (if acks_on && (Z.land header_flags FLAGS_ACK =? 0)
         then send [0x21] 2%float
                   (List [Int header_from;
                          match filter with Some a => Int a | None => NoneVal end;
                          Int header_id; Int FLAGS_ACK]) ;;; ret tt
         else ret tt) ;;;
        seen <- gets last_received_id ;;
        if bool_decide (seen !! header_from = Some header_id)
        then listen ;;; ret Returned
        else
          modify (fun s => with_last_received_id s
                             (<[header_from := header_id]> (last_received_id s))) ;;;
          ret (Payload rest)
  | _ => raise IndexError
  end.

(** [receive_packet].  What it prints ([debug], off by default) and the
    warning it issues on a CRC error change nothing in the state and are
    left out. *)
Definition receive_packet (with_header : bool) : M (option Packet) :=
  irq_flags <- _read_u8 _RH_RF95_REG_12_IRQ_FLAGS ;;
  mode <- get_bits operation_mode ;;
  if (mode =? _RH_RF95_MODE_RXCONTINUOUS)
     && negb (Z.land irq_flags _RH_RF95_RX_DONE =? 0)
  then
    crc_on <- enable_crc ;;
    crc_bad <- (if crc_on : bool then get_bits crc_error else ret 0) ;;
    if crc_on && negb (crc_bad =? 0) then
      _write_u8 _RH_RF95_REG_12_IRQ_FLAGS (IntPayload 0xff) ;;;
      ret None
    else
      packet_len <- _read_u8 _RH_RF95_REG_13_RX_NB_BYTES ;;
      current_addr <- _read_u8 _RH_RF95_REG_10_FIFO_RX_CURRENT_ADDR ;;
      _write_u8 _RH_RF95_REG_0D_FIFO_ADDR_PTR (IntPayload current_addr) ;;;
      packet <- _read_into _RH_RF95_REG_00_FIFO
                           (repeat 0 (Z.to_nat packet_len)) ;;
      rssi <- rssi ;;
      snr <- snr ;;
      _write_u8 _RH_RF95_REG_12_IRQ_FLAGS (IntPayload 0xff) ;;;
      after_header <- (if with_header && (4 <=? packet_len)
                       then receive_header packet
                       else ret (Payload packet)) ;;
      match after_header with
      | Returned => ret None
      | Payload packet =>
          (* ACK *)
          if with_header
             && match packet with [b] => b =? 0x21 | _ => false end
          then listen ;;; ret None
          else listen ;;; ret (Some (mkPacket packet rssi snr))
      end
  else ret None.

(** The chip holds a received packet that [receive_packet] parses and lets
    through its address filter: the mode field reads RxContinuous, RX_DONE
    is set, CRC checking is off or the CRC-error flag is clear, the byte
    count is at least 4, the FIFO answers with the header
    [to, from, id, flags] followed by the payload, and the filter is off or
    set to [to]. *)
Definition presents (s : RFM9x)
           (header_to header_from header_id header_flags : Z)
           (payload : list Z) : Prop :=
  fst (get_bits operation_mode s) = Ok _RH_RF95_MODE_RXCONTINUOUS
  /\ Z.land (regs s _RH_RF95_REG_12_IRQ_FLAGS) _RH_RF95_RX_DONE <> 0
  /\ (fst (enable_crc s) = Ok false \/ fst (get_bits crc_error s) = Ok 0)
  /\ 4 <= regs s _RH_RF95_REG_13_RX_NB_BYTES
  /\ burst s _RH_RF95_REG_00_FIFO
            (Z.to_nat (regs s _RH_RF95_REG_13_RX_NB_BYTES))
     = header_to :: header_from :: header_id :: header_flags :: payload
  /\ (receive_filter_address s = None
      \/ receive_filter_address s = Some header_to).

(** The acknowledgement [receive_header] sends back when [acks] is on and
    the packet is not itself an acknowledgement: the same step as there,
    under a name, for the lemmas about it. *)
Definition acknowledge (header_from header_id header_flags : Z) : M unit :=
  acks_on <- gets acks ;;
  filter <- gets receive_filter_address ;;
  if acks_on && (Z.land header_flags FLAGS_ACK =? 0)
  then send [0x21] 2%float
            (List [Int header_from;
                   match filter with Some a => Int a | None => NoneVal end;
                   Int header_id; Int FLAGS_ACK]) ;;; ret tt
  else ret tt.

(** The attributes [__init__] leaves behind with its default arguments, on a
    chip whose registers all read [r]. *)
Definition after_init (r : Z -> Z) : RFM9x :=
  mkRFM9x r (fun _ _ => []) [] [] [] true (Some _RH_BROADCAST_ADDRESS) false ∅ ∅.

(** The same object in front of a chip that never raises [tx_done]: the
    clock reads 10.0 when the wait starts, then 10.5 and 12.5, and the IRQ
    flags read 0 at both polls. *)
Definition never_done : RFM9x :=
  with_env (after_init (fun _ => 0)) [10.0; 10.5; 12.5]%float [0; 0].

(** A chip in RxContinuous with RX_DONE raised, CRC checking off, RSSI
    byte 100 and SNR byte 40, whose FIFO holds [packet]. *)
Definition rx_regs (packet : list Z) : Z -> Z :=
  fun a =>
    if a =? _RH_RF95_REG_01_OP_MODE then 0x85
    else if a =? _RH_RF95_REG_12_IRQ_FLAGS then 0x50
    else if a =? _RH_RF95_REG_13_RX_NB_BYTES then Z.of_nat (length packet)
    else if a =? _RH_RF95_REG_1A_PKT_RSSI_VALUE then 100
    else if a =? _RH_RF95_REG_19_PKT_SNR_VALUE then 40
    else if a =? _RH_RF95_REG_1E_MODEM_CONFIG2 then 0x70
    else 0.

Definition holding (packet : list Z) : RFM9x :=
  with_chip (after_init (fun _ => 0)) (rx_regs packet) (fun _ _ => packet) [] [].

(** What the chip answers to a register read is a byte. *)
Definition holds_byte (a : Z) (s : RFM9x) : Prop := 0 <= regs s a <= 255.

Definition byte_regs (s : RFM9x) : Prop :=
  forall a : Z, holds_byte a s.

(** Every id recorded in [last_sent_id] is one that [send] hands out: from
    1 to 253. *)
Definition valid_sent_ids (s : RFM9x) : Prop :=
  forall (to : value) (id : Z), last_sent_id s !! to = Some id -> 1 <= id <= 253.

(** A computation maintains a property of the state when the state it
    leaves has it whenever the state it found had it, whatever it
    returns. *)
Definition maintains {A} (P : RFM9x -> Prop) (m : M A) : Prop :=
  forall s, P s -> P (snd (m s)).

(** [_handle_interrupt], the callback on the rising edge of DIO0.  The
    packet queue is passed in and handed back: [put] appends to it. *)
Definition _handle_interrupt (packet_queue : list Packet) : M (list Packet) :=
  tx <- get_bits tx_done ;;
  if negb (tx =? 0) then ret packet_queue
  else
    rx <- get_bits rx_done ;;
    mode <- get_bits operation_mode ;;
    if negb (rx =? 0) && (mode =? RX_MODE) then
      packet <- receive_packet true ;;
      match packet with
      | Some p => ret (packet_queue ++ [p])
      | None => ret packet_queue
      end
    else ret packet_queue.

(** The bytes [receive_packet] holds after [_read_into]: what the FIFO
    answers, except for a count of one, where the buffer of one zero byte
    stays as it was made. *)
Definition fifo_bytes (s : RFM9x) : list Z :=
  let n := Z.to_nat (regs s _RH_RF95_REG_13_RX_NB_BYTES) in
  if (n =? 1)%nat then [0] else burst s _RH_RF95_REG_00_FIFO n.

(** The state after the two writes every reception that passes the CRC
    check makes first: the FIFO pointer, and 0xFF to the IRQ flags. *)
Definition fifo_read (s : RFM9x) : RFM9x :=
  snd (_write_u8 _RH_RF95_REG_12_IRQ_FLAGS (IntPayload 0xff)
         (snd (_write_u8 _RH_RF95_REG_0D_FIFO_ADDR_PTR
                 (IntPayload (regs s _RH_RF95_REG_10_FIFO_RX_CURRENT_ADDR))
                 s))).

(** ** The constructor *)

Definition _RH_RF95_REG_0E_FIFO_TX_BASE_ADDR : Z := 0x0e.
Definition _RH_RF95_REG_0F_FIFO_RX_BASE_ADDR : Z := 0x0f.
Definition _RH_RF95_REG_26_MODEM_CONFIG3 : Z := 0x26.
Definition _RH_RF95_REG_42_VERSION : Z := 0x42.

Definition with_high_power (s : RFM9x) (hp : bool) : RFM9x :=
  mkRFM9x (regs s) (burst s) (xfers s) (monotonic s) (irq_events s) hp
          (receive_filter_address s) (acks s) (last_sent_id s)
          (last_received_id s).

(** The last lines of [__init__]: the filter set to the broadcast address,
    acknowledgements off, both id tables empty. *)
Definition with_fresh_tables (s : RFM9x) : RFM9x :=
  mkRFM9x (regs s) (burst s) (xfers s) (monotonic s) (irq_events s)
          (high_power s) (Some _RH_BROADCAST_ADDRESS) false ∅ ∅.

(** [__init__], on the chip as the reset pulse leaves it.  The pin and
    callback set-up, [spi_open], [reset] and [time.sleep] put nothing on
    the SPI bus and are left out; [frequency] is a float, and
    [baudrate] and [channel] only reach [spi_open]. *)
Definition __init__ (frequency : float) (preamble_length : Z)
           (high_power : bool) : M unit :=
  modify (fun s => with_high_power s high_power) ;;;
  version <- _read_u8 _RH_RF95_REG_42_VERSION ;;
  if negb (version =? 18) then
    raise (RuntimeError
             "Failed to find rfm9x with expected version -- check wiring")
  else
    (* Set sleep mode and long range mode *)
    sleep ;;;
    set_bits long_range_mode 1 ;;;
    mode <- get_bits operation_mode ;;
    lora <- get_bits long_range_mode ;;
    if negb (mode =? SLEEP_MODE) || (lora =? 0) then
      raise (RuntimeError
               "Failed to configure radio for LoRa mode, check wiring!")
    else
      (* clear default setting for access to LF registers *)
      (if (525 <? frequency)%float then set_bits low_frequency_mode 0
       else ret tt) ;;;
      (* Setup entire 256 byte FIFO *)
      _write_u8 _RH_RF95_REG_0E_FIFO_TX_BASE_ADDR (IntPayload 0x00) ;;;
      _write_u8 _RH_RF95_REG_0F_FIFO_RX_BASE_ADDR (IntPayload 0x00) ;;;
      idle ;;;
      set_signal_bandwidth 125000 ;;;
      set_coding_rate 5 ;;;
      set_spreading_factor 7 ;;;
      set_enable_crc false ;;;
      _write_u8 _RH_RF95_REG_26_MODEM_CONFIG3 (IntPayload 0x00) ;;;
      set_preamble_length preamble_length ;;;
      set_frequency_mhz frequency ;;;
      set_tx_power (IntNum 13) ;;;
      modify with_fresh_tables.

(** * Bit fields *)

Lemma mask_loop_spec (n : nat) (m : Z) :
  mask_loop n m = Z.lor (Z.shiftl m (Z.of_nat n)) (Z.ones (Z.of_nat n)).
Proof.
  revert m. induction n as [|n IH]; intros m.
  - simpl. rewrite Z.shiftl_0_r. change (Z.ones 0) with 0. now rewrite Z.lor_0_r.
  - cbn [mask_loop]. rewrite IH. apply Z.bits_inj'. intros i Hi.
    rewrite !Z.lor_spec, !Z.testbit_ones by lia.
    rewrite !(Z.shiftl_spec _ _ i) by lia.
    destruct (Z.lt_trichotomy i (Z.of_nat n)) as [Hlt|[->|Hgt]].
    + rewrite !Z.testbit_neg_r by lia.
      destruct (Z.leb_spec 0 i), (Z.ltb_spec i (Z.of_nat n)),
        (Z.ltb_spec i (Z.of_nat (S n))); simpl; try reflexivity; lia.
    + rewrite Z.sub_diag, Z.lor_spec, (Z.testbit_neg_r m) by lia.
      change (Z.testbit 1 0) with true.
      destruct (Z.leb_spec 0 (Z.of_nat n)),
        (Z.ltb_spec (Z.of_nat n) (Z.of_nat (S n)));
        rewrite ?orb_true_r; simpl; try reflexivity; lia.
    + rewrite Z.lor_spec, Z.shiftl_spec by lia.
      replace (i - Z.of_nat n - 1) with (i - Z.of_nat (S n)) by lia.
      rewrite (Z.bits_above_log2 1 (i - Z.of_nat n)) by (simpl; lia).
      destruct (Z.ltb_spec i (Z.of_nat n)), (Z.ltb_spec i (Z.of_nat (S n)));
        try lia.
      now rewrite !andb_false_r, !orb_false_r.
Qed.

Lemma new_RegisterBits_mask (address offset bits : Z) :
  0 <= bits ->
  _mask (new_RegisterBits address offset bits) = Z.shiftl (Z.ones bits) offset.
Proof.
  intros Hb. cbn [new_RegisterBits _mask]. rewrite mask_loop_spec.
  rewrite Z.shiftl_0_l, Z.lor_0_l, Z2Nat.id by lia. reflexivity.
Qed.

(** Bit [i] belongs to the mask exactly when it lies in the field. *)
Lemma mask_testbit (offset bits i : Z) :
  0 <= offset -> 0 <= bits ->
  Z.testbit (Z.shiftl (Z.ones bits) offset) i
  = (offset <=? i) && (i <? offset + bits).
Proof.
  intros Ho Hb. destruct (Z.lt_ge_cases i 0) as [Hneg|Hi].
  - rewrite Z.testbit_neg_r by lia.
    replace (offset <=? i) with false by (symmetry; apply Z.leb_gt; lia).
    reflexivity.
  - rewrite Z.shiftl_spec, Z.testbit_ones by lia.
    destruct (Z.leb_spec offset i), (Z.leb_spec 0 (i - offset)),
      (Z.ltb_spec (i - offset) bits), (Z.ltb_spec i (offset + bits));
      simpl; try reflexivity; lia.
Qed.

Lemma bits_ok_spec (offset bits : Z) :
  bits_ok offset bits = true ->
  0 <= offset <= 7 /\ 1 <= bits <= 8 /\ offset + bits <= 8.
Proof. unfold bits_ok. rewrite !andb_true_iff, !Z.leb_le. lia. Qed.

(** A value that fits the field has no bit at or above the width. *)
Lemma in_width_testbit (bits v i : Z) :
  0 <= v < 2 ^ bits -> 0 <= bits -> bits <= i -> Z.testbit v i = false.
Proof.
  intros Hv Hb Hi. destruct (Z.eq_dec v 0) as [->|Hn].
  - apply Z.testbit_0_l.
  - apply Z.bits_above_log2; [lia|].
    assert (Z.log2 v < bits) by (apply Z.log2_lt_pow2; lia). lia.
Qed.

Lemma land_byte_in_width (bits v : Z) :
  0 <= v < 2 ^ bits -> 0 <= bits <= 8 -> Z.land v 0xFF = v.
Proof.
  intros Hv Hb. change 0xFF with (Z.ones 8). rewrite Z.land_ones by lia.
  apply Z.mod_small. split; [lia|].
  apply Z.lt_le_trans with (2 ^ bits); [lia|].
  apply Z.pow_le_mono_r; lia.
Qed.

(** ** Bytes on the bus *)

Lemma is_byte_true (b : Z) : is_byte b = true <-> 0 <= b <= 255.
Proof. unfold is_byte. rewrite andb_true_iff, !Z.leb_le. reflexivity. Qed.

Lemma is_byte_false (b : Z) : is_byte b = false <-> ~ 0 <= b <= 255.
Proof.
  rewrite <- is_byte_true. destruct (is_byte b); intuition congruence.
Qed.

(** A number that is not negative and has no bit from bit 8 up is a
    byte. *)
Lemma byte_of_bits (x : Z) :
  0 <= x -> (forall i, 8 <= i -> Z.testbit x i = false) -> 0 <= x <= 255.
Proof.
  intros Hpos Hhigh. split; [exact Hpos|].
  destruct (Z.le_gt_cases x 255) as [Hle|Hgt]; [exact Hle|].
  assert (Hlog : 8 <= Z.log2 x).
  { change 8 with (Z.log2 256). apply Z.log2_le_mono. lia. }
  pose proof (Z.bit_log2 x ltac:(lia)) as Hbit.
  rewrite (Hhigh _ Hlog) in Hbit. discriminate.
Qed.

Lemma byte_bits (x i : Z) : 0 <= x <= 255 -> 8 <= i -> Z.testbit x i = false.
Proof.
  intros Hx Hi. destruct (Z.eq_dec x 0) as [->|Hn]; [apply Z.testbit_0_l|].
  apply Z.bits_above_log2; [lia|].
  assert (Z.log2 x < 8) by (apply Z.log2_lt_pow2; simpl; lia). lia.
Qed.

(** Whatever the first operand, [land] with a byte is a byte. *)
Lemma land_byte (x m : Z) : 0 <= m <= 255 -> 0 <= Z.land x m <= 255.
Proof.
  intros Hm. apply byte_of_bits.
  - apply Z.land_nonneg. right. lia.
  - intros i Hi. rewrite Z.land_spec, (byte_bits m) by assumption.
    apply andb_false_r.
Qed.

Lemma lor_byte (x y : Z) :
  0 <= x <= 255 -> 0 <= y <= 255 -> 0 <= Z.lor x y <= 255.
Proof.
  intros Hx Hy. apply byte_of_bits.
  - apply Z.lor_nonneg. lia.
  - intros i Hi. now rewrite Z.lor_spec, !byte_bits by assumption.
Qed.

(** A write of one byte, and of one number that is not a byte. *)
Lemma _write_u8_int (register n : Z) (s : RFM9x) :
  0 <= n <= 255 ->
  _write_u8 register (IntPayload n) s
  = (Ok tt, with_bus s (upd (regs s) register n)
                     ((Z.lor register 0x80, [n]) :: xfers s)).
Proof.
  intros Hn. apply is_byte_true in Hn. unfold _write_u8. cbn [forallb].
  rewrite Hn. reflexivity.
Qed.

Lemma _write_u8_refused (register n : Z) (s : RFM9x) :
  ~ 0 <= n <= 255 ->
  _write_u8 register (IntPayload n) s = (Raise ValueError, s).
Proof.
  intros Hn. apply is_byte_false in Hn. unfold _write_u8. cbn [forallb].
  rewrite Hn. reflexivity.
Qed.

(** A write either goes through or leaves the state as it was; what it
    stores in a register is a byte. *)
Lemma _write_u8_cases (register : Z) (p : payload) (s : RFM9x) :
  let bs := match p with IntPayload n => [n] | BytesPayload l => l end in
  (forallb is_byte bs = true
   /\ _write_u8 register p s
      = (Ok tt,
         with_bus s
           (match bs with [b] => upd (regs s) register b | _ => regs s end)
           ((Z.lor register 0x80, bs) :: xfers s)))
  \/ (forallb is_byte bs = false
      /\ _write_u8 register p s = (Raise ValueError, s)).
Proof.
  cbv zeta. unfold _write_u8.
  destruct (forallb is_byte _); [left|right]; split; reflexivity.
Qed.

Lemma _write_u8_byte_regs (register : Z) (p : payload) (s : RFM9x) :
  byte_regs s -> byte_regs (snd (_write_u8 register p s)).
Proof.
  unfold byte_regs, holds_byte. intros Hs.
  destruct (_write_u8_cases register p s) as [[Hb ->]|[_ ->]];
    [|exact Hs].
  cbn [snd]. intros a. cbn [regs with_bus].
  destruct p as [n|[|b [|b' l]]]; cbn [forallb] in Hb |- *; try apply Hs.
  - unfold upd. destruct (a =? register); [|apply Hs].
    apply is_byte_true. now apply andb_true_iff in Hb as [Hb _].
  - unfold upd. destruct (a =? register); [|apply Hs].
    apply is_byte_true. now apply andb_true_iff in Hb as [Hb _].
Qed.

Section BitFieldAccess.

Variables (address offset bits : Z).
Hypothesis Hok : bits_ok offset bits = true.

Let f := new_RegisterBits address offset bits.

(** Reading a field right after replacing the register. *)
Lemma get_bits_upd (s : RFM9x) (x : Z) (l : list (Z * list Z)) :
  fst (get_bits f (with_bus s (upd (regs s) address x) l))
  = Ok (Z.shiftr (Z.land x (_mask f)) offset).
Proof.
  unfold get_bits, bind, _read_u8, gets, ret, upd. cbn.
  now rewrite Z.eqb_refl.
Qed.

(** The written byte, bit by bit, for an in-width value. *)
Lemma written_testbit (old v i : Z) :
  0 <= v < 2 ^ bits ->
  Z.testbit (Z.lor (Z.land old (Z.lnot (_mask f)))
                   (Z.shiftl (Z.land v 0xFF) offset)) i
  = if (offset <=? i) && (i <? offset + bits)
    then Z.testbit v (i - offset) else Z.testbit old i.
Proof.
  intros Hv. destruct (bits_ok_spec _ _ Hok) as (Ho & Hb & Hob).
  subst f. rewrite new_RegisterBits_mask by lia.
  rewrite (land_byte_in_width bits) by lia.
  destruct (Z.lt_ge_cases i 0) as [Hneg|Hi].
  - rewrite !Z.testbit_neg_r by lia.
    replace (offset <=? i) with false by (symmetry; apply Z.leb_gt; lia).
    reflexivity.
  - rewrite Z.lor_spec, Z.land_spec, Z.lnot_spec, mask_testbit,
      Z.shiftl_spec by lia.
    destruct (Z.leb_spec offset i), (Z.ltb_spec i (offset + bits)); simpl.
    + now rewrite andb_false_r.
    + rewrite andb_true_r, (in_width_testbit bits v) by lia.
      now rewrite orb_false_r.
    + rewrite andb_true_r, (Z.testbit_neg_r v) by lia. now rewrite orb_false_r.
    + rewrite andb_true_r, (Z.testbit_neg_r v) by lia. now rewrite orb_false_r.
Qed.

(** Over a register that holds a byte, an in-width value gives a byte to
    write. *)
Lemma written_byte (old v : Z) :
  0 <= old <= 255 ->
  0 <= v < 2 ^ bits ->
  0 <= Z.lor (Z.land old (Z.lnot (_mask f))) (Z.shiftl (Z.land v 0xFF) offset)
    <= 255.
Proof.
  intros Hold Hv. destruct (bits_ok_spec _ _ Hok) as (Ho & Hb & Hob).
  apply byte_of_bits.
  - apply Z.lor_nonneg. split.
    + apply Z.land_nonneg. left. lia.
    + apply Z.shiftl_nonneg. apply Z.land_nonneg. left. lia.
  - intros i Hi. rewrite written_testbit by exact Hv.
    destruct (Z.leb_spec offset i), (Z.ltb_spec i (offset + bits)); simpl;
      try lia; now apply byte_bits.
Qed.

Lemma set_bits_run (v : Z) (s : RFM9x) :
  0 <= regs s address <= 255 ->
  0 <= v < 2 ^ bits ->
  set_bits f v s =
  (Ok tt,
   let written := Z.lor (Z.land (regs s address) (Z.lnot (_mask f)))
                        (Z.shiftl (Z.land v 0xFF) offset) in
   with_bus s (upd (regs s) address written)
            ((Z.lor address 0x80, [written]) :: xfers s)).
Proof.
  intros Hold Hv. unfold set_bits, bind, _read_u8, gets. cbv zeta.
  now rewrite _write_u8_int by (apply written_byte; assumption).
Qed.

Lemma field_of_written (old v : Z) :
  0 <= v < 2 ^ bits ->
  Z.shiftr (Z.land (Z.lor (Z.land old (Z.lnot (_mask f)))
                          (Z.shiftl (Z.land v 0xFF) offset)) (_mask f)) offset
  = v.
Proof.
  intros Hv. destruct (bits_ok_spec _ _ Hok) as (Ho & Hb & Hob).
  apply Z.bits_inj'. intros i Hi.
  rewrite Z.shiftr_spec, Z.land_spec, written_testbit by lia.
  subst f. rewrite new_RegisterBits_mask, mask_testbit by lia.
  replace (i + offset - offset) with i by lia.
  destruct (Z.leb_spec offset (i + offset)); [|lia].
  destruct (Z.ltb_spec (i + offset) (offset + bits)); simpl.
  - now rewrite andb_true_r.
  - rewrite andb_false_r. symmetry. apply (in_width_testbit bits); lia.
Qed.

(** Another field of the same register whose bits lie apart from [f]. *)
Lemma other_field_of_written (old v offset' bits' : Z) :
  bits_ok offset' bits' = true ->
  offset' + bits' <= offset \/ offset + bits <= offset' ->
  0 <= v < 2 ^ bits ->
  let g := new_RegisterBits address offset' bits' in
  Z.shiftr (Z.land (Z.lor (Z.land old (Z.lnot (_mask f)))
                          (Z.shiftl (Z.land v 0xFF) offset)) (_mask g)) offset'
  = Z.shiftr (Z.land old (_mask g)) offset'.
Proof.
  intros Hok' Hapart Hv g.
  destruct (bits_ok_spec _ _ Hok) as (Ho & Hb & Hob).
  destruct (bits_ok_spec _ _ Hok') as (Ho' & Hb' & Hob').
  apply Z.bits_inj'. intros i Hi.
  rewrite !Z.shiftr_spec, !Z.land_spec, written_testbit by lia.
  subst g. rewrite new_RegisterBits_mask, mask_testbit by lia.
  destruct (Z.leb_spec offset' (i + offset')); [|lia].
  destruct (Z.ltb_spec (i + offset') (offset' + bits')); simpl.
  - destruct (Z.leb_spec offset (i + offset')),
      (Z.ltb_spec (i + offset') (offset + bits)); simpl;
      try reflexivity; lia.
  - now rewrite !andb_false_r.
Qed.

End BitFieldAccess.

(** C3.  For a field with [offset + bits <= 8] and a value that fits its
    width, over a register that reads as a byte, [set] followed by [get]
    gives the value back; [set] changes no bit of the register outside the
    field and no other register; and any other field of the same register
    whose bits lie apart reads as before. *)
Theorem RegisterBits_set_then_get (address offset bits v : Z) (s : RFM9x) :
  bits_ok offset bits = true ->
  0 <= v < 2 ^ bits ->
  0 <= regs s address <= 255 ->
  let f := new_RegisterBits address offset bits in
  let s' := snd (set_bits f v s) in
  fst (set_bits f v s) = Ok tt /\
  fst (get_bits f s') = Ok v /\
  (forall i, ~ (offset <= i < offset + bits) ->
             Z.testbit (regs s' address) i = Z.testbit (regs s address) i) /\
  (forall a, a <> address -> regs s' a = regs s a) /\
  (forall offset' bits',
      bits_ok offset' bits' = true ->
      offset' + bits' <= offset \/ offset + bits <= offset' ->
      fst (get_bits (new_RegisterBits address offset' bits') s')
      = fst (get_bits (new_RegisterBits address offset' bits') s)).
Proof.
  intros Hok Hv Hbyte f s'. subst s' f.
  rewrite set_bits_run by assumption. cbn [fst snd].
  split; [reflexivity|]. split.
  { rewrite get_bits_upd. f_equal. now apply field_of_written. }
  split.
  { intros i Hout. cbv zeta. cbn [regs with_bus]. unfold upd.
    rewrite Z.eqb_refl, written_testbit by assumption.
    destruct (Z.leb_spec offset i), (Z.ltb_spec i (offset + bits)); simpl;
      try reflexivity; lia. }
  split.
  { intros a Ha. cbv zeta. cbn [regs with_bus]. unfold upd.
    destruct (Z.eqb_spec a address); [contradiction|reflexivity]. }
  intros offset' bits' Hok' Hapart.
  rewrite get_bits_upd.
  unfold get_bits, bind, _read_u8, gets, ret. cbn [fst].
  f_equal. cbn [_offset new_RegisterBits].
  now apply (other_field_of_written address offset bits Hok).
Qed.

Lemma RegisterBits_set_then_get_witness :
  fst (get_bits output_power
         (snd (set_bits output_power 9 (after_init (fun _ => 0xCF))))) = Ok 9
  /\ fst (get_bits max_power
         (snd (set_bits output_power 9 (after_init (fun _ => 0xCF))))) = Ok 4
  /\ fst (get_bits pa_select
         (snd (set_bits output_power 9 (after_init (fun _ => 0xCF))))) = Ok 1.
Proof.
  pose proof (RegisterBits_set_then_get _RH_RF95_REG_09_PA_CONFIG 0 4 9
                (after_init (fun _ => 0xCF)) eq_refl ltac:(lia)
                ltac:(simpl; lia)) as H.
  cbv zeta in H. destruct H as (_ & Hget & _ & _ & Hother).
  split; [exact Hget|]. split.
  - exact (eq_trans (Hother 4 3 eq_refl ltac:(lia)) eq_refl).
  - exact (eq_trans (Hother 7 1 eq_refl ltac:(lia)) eq_refl).
Defined.

(** C4 (as amended).  [set] reads the register, clears the field's mask and
    ORs in the value cut to a byte and shifted -- [(val & 0xFF) << offset],
    not restricted to the mask.  If the result is a byte it is written back
    in one transfer; if it is not, [spi_xfer] raises [ValueError] and
    nothing is written.  For a value that fits the field's width the result
    is [(old & ~mask) | ((val << offset) & mask)], and it is a byte when
    the register read as one. *)
Theorem set_bits_writes_back (address offset bits v : Z) (s : RFM9x) :
  bits_ok offset bits = true ->
  let f := new_RegisterBits address offset bits in
  let old := regs s address in
  let written :=
    Z.lor (Z.land old (Z.lnot (_mask f))) (Z.shiftl (Z.land v 0xFF) offset) in
  (0 <= written <= 255 ->
   set_bits f v s
   = (Ok tt, with_bus s (upd (regs s) address written)
                      ((Z.lor address 0x80, [written]) :: xfers s)))
  /\ (~ 0 <= written <= 255 -> set_bits f v s = (Raise ValueError, s))
  /\ (0 <= v < 2 ^ bits ->
      written = Z.lor (Z.land old (Z.lnot (_mask f)))
                      (Z.land (Z.shiftl v offset) (_mask f))
      /\ (0 <= old <= 255 -> 0 <= written <= 255)).
Proof.
  intros Hok f old written. split; [|split].
  { intros Hbyte. unfold set_bits, bind, _read_u8, gets. cbv zeta.
    now rewrite _write_u8_int by exact Hbyte. }
  { intros Hbig. unfold set_bits, bind, _read_u8, gets. cbv zeta.
    now rewrite _write_u8_refused by exact Hbig. }
  intros Hv. destruct (bits_ok_spec _ _ Hok) as (Ho & Hb & Hob). split.
  - subst written. f_equal.
    rewrite (land_byte_in_width bits) by lia.
    subst f. rewrite new_RegisterBits_mask by lia.
    apply Z.bits_inj'. intros i Hi.
    rewrite Z.land_spec, mask_testbit, Z.shiftl_spec by lia.
    destruct (Z.leb_spec offset i), (Z.ltb_spec i (offset + bits)); simpl.
    + now rewrite andb_true_r.
    + rewrite andb_false_r. apply (in_width_testbit bits); lia.
    + rewrite andb_false_r. apply Z.testbit_neg_r. lia.
    + rewrite andb_false_r. apply Z.testbit_neg_r. lia.
  - intros Hold. now apply (written_byte address offset bits Hok).
Qed.

(** [listen]'s field over a register that reads 0x89, and
    [dio0_mapping = 4] over a register that reads 0: 256 is not a byte. *)
Lemma set_bits_writes_back_witness :
  (set_bits operation_mode RX_MODE (after_init (fun _ => 0x89))
   = (Ok tt, with_bus (after_init (fun _ => 0x89))
                      (upd (fun _ => 0x89) _RH_RF95_REG_01_OP_MODE 0x8D)
                      [(0x81, [0x8D])])
   /\ 0x8D = Z.lor (Z.land 0x89 (Z.lnot 7)) (Z.land (Z.shiftl RX_MODE 0) 7))
  /\ set_bits dio0_mapping 4 (after_init (fun _ => 0))
     = (Raise ValueError, after_init (fun _ => 0)).
Proof.
  pose proof (set_bits_writes_back _RH_RF95_REG_01_OP_MODE 0 3 RX_MODE
                (after_init (fun _ => 0x89)) eq_refl) as H.
  pose proof (set_bits_writes_back _RH_RF95_REG_40_DIO_MAPPING1 6 2 4
                (after_init (fun _ => 0)) eq_refl) as H4.
  cbv zeta in H, H4. destruct H as (Hrun & _ & Hfit).
  destruct H4 as (_ & Hrefused & _).
  split; [split|].
  - exact (Hrun ltac:(vm_compute; split; discriminate)).
  - exact (proj1 (Hfit ltac:(unfold RX_MODE; lia))).
  - exact (Hrefused ltac:(vm_compute; intros [_ Hle]; now apply Hle)).
Defined.

(** C4 as stated fails: writing 8 to the three-bit [operation_mode] over a
    register that reads 0 writes back 8, where
    [(old & ~mask) | ((8 << 0) & mask)] is 0; the stray bit is read back
    through the neighbouring [low_frequency_mode]. *)
Lemma set_bits_out_of_width :
  let s := after_init (fun _ => 0) in
  let s' := snd (set_bits operation_mode 8 s) in
  xfers s' = [(0x81, [8])]
  /\ regs s' _RH_RF95_REG_01_OP_MODE = 8
  /\ Z.lor (Z.land (regs s _RH_RF95_REG_01_OP_MODE)
                   (Z.lnot (_mask operation_mode)))
           (Z.land (Z.shiftl 8 (_offset operation_mode)) (_mask operation_mode))
     = 0
  /\ fst (get_bits low_frequency_mode s) = Ok 0
  /\ fst (get_bits low_frequency_mode s') = Ok 1.
Proof. repeat split; reflexivity. Qed.

(** * Running the primitives *)

Lemma get_bits_run (f : RegisterBits) (s : RFM9x) :
  get_bits f s
  = (Ok (Z.shiftr (Z.land (regs s (_address f)) (_mask f)) (_offset f)), s).
Proof. reflexivity. Qed.

Lemma set_bits_eq (f : RegisterBits) (v : Z) (s : RFM9x) :
  0 <= Z.lor (Z.land (regs s (_address f)) (Z.lnot (_mask f)))
             (Z.shiftl (Z.land v 0xFF) (_offset f)) <= 255 ->
  set_bits f v s
  = (Ok tt,
     with_bus s
       (upd (regs s) (_address f)
            (Z.lor (Z.land (regs s (_address f)) (Z.lnot (_mask f)))
                   (Z.shiftl (Z.land v 0xFF) (_offset f))))
       ((Z.lor (_address f) 0x80,
         [Z.lor (Z.land (regs s (_address f)) (Z.lnot (_mask f)))
                (Z.shiftl (Z.land v 0xFF) (_offset f))]) :: xfers s)).
Proof.
  intros Hbyte. unfold set_bits, bind, _read_u8, gets. cbv zeta.
  now rewrite _write_u8_int by exact Hbyte.
Qed.

(** [set] either goes through or leaves the state as it was. *)
Lemma set_bits_cases (f : RegisterBits) (v : Z) (s : RFM9x) :
  let written := Z.lor (Z.land (regs s (_address f)) (Z.lnot (_mask f)))
                       (Z.shiftl (Z.land v 0xFF) (_offset f)) in
  (0 <= written <= 255
   /\ set_bits f v s
      = (Ok tt, with_bus s (upd (regs s) (_address f) written)
                         ((Z.lor (_address f) 0x80, [written]) :: xfers s)))
  \/ (~ 0 <= written <= 255 /\ set_bits f v s = (Raise ValueError, s)).
Proof.
  cbv zeta.
  set (written := Z.lor _ _).
  destruct (is_byte written) eqn:Hb.
  - left. apply is_byte_true in Hb. split; [exact Hb|].
    now apply set_bits_eq.
  - right. apply is_byte_false in Hb. split; [exact Hb|].
    unfold set_bits, bind, _read_u8, gets. cbv zeta.
    now rewrite _write_u8_refused by exact Hb.
Qed.

Lemma set_bits_byte_regs (f : RegisterBits) (v : Z) (s : RFM9x) :
  byte_regs s -> byte_regs (snd (set_bits f v s)).
Proof.
  unfold byte_regs, holds_byte. intros Hs.
  destruct (set_bits_cases f v s) as [[Hb ->]|[_ ->]]; [|exact Hs].
  cbn [snd]. intros a. cbn [regs with_bus]. unfold upd.
  destruct (a =? _address f); [exact Hb|apply Hs].
Qed.

Lemma bind_run {A B} (m : M A) (k : A -> M B) (s s' : RFM9x) (a : A) :
  m s = (Ok a, s') -> bind m k s = k a s'.
Proof. intros H. unfold bind. now rewrite H. Qed.

Lemma bind_raise {A B} (m : M A) (k : A -> M B) (s s' : RFM9x) (e : exn) :
  m s = (Raise e, s') -> bind m k s = (Raise e, s').
Proof. intros H. unfold bind. now rewrite H. Qed.

(** A sequence that returns has run its first step to the end. *)
Lemma bind_ok_inv {A B} (m : M A) (k : A -> M B) (s s2 : RFM9x) (b : B) :
  bind m k s = (Ok b, s2) ->
  exists a s1, m s = (Ok a, s1) /\ k a s1 = (Ok b, s2).
Proof.
  unfold bind. destruct (m s) as [[a|e] s1]; [eauto|discriminate].
Qed.

(** * Bandwidth *)

Lemma first_cutoff_least (val : Z) (bins : list Z) :
  StronglySorted Z.le bins ->
  forall k i, first_cutoff val bins k = Some i ->
  exists cutoff,
    k <= i < k + Z.of_nat (length bins)
    /\ bins !! Z.to_nat (i - k) = Some cutoff
    /\ val <= cutoff
    /\ forall b, In b bins -> val <= b -> cutoff <= b.
Proof.
  induction 1 as [|c rest Hsorted IH Hall]; intros k i Hfind.
  - discriminate.
  - cbn [first_cutoff] in Hfind. destruct (Z.leb_spec val c) as [Hle|Hgt].
    + injection Hfind as <-. exists c. rewrite Z.sub_diag. cbn [length].
      repeat split; try lia.
      intros b [<-|Hin] _; [lia|].
      rewrite Forall_forall in Hall. apply Hall. now apply list_elem_of_In.
    + destruct (IH _ _ Hfind) as (cutoff & Hrange & Hat & Hval & Hleast).
      exists cutoff. cbn [length]. repeat split; try lia.
      * replace (Z.to_nat (i - k)) with (S (Z.to_nat (i - (k + 1)))) by lia.
        exact Hat.
      * intros b [<-|Hin] Hb; [lia|]. now apply Hleast.
Qed.

Lemma first_cutoff_none (val : Z) (bins : list Z) (k : Z) :
  first_cutoff val bins k = None -> forall b, In b bins -> b < val.
Proof.
  revert k. induction bins as [|c rest IH]; intros k Hnone b Hin.
  - destruct Hin.
  - cbn [first_cutoff] in Hnone. destruct (Z.leb_spec val c) as [Hle|Hgt].
    + discriminate.
    + destruct Hin as [<-|Hin]; [lia|]. now apply (IH (k + 1)).
Qed.

Lemma bw_bins_sorted : StronglySorted Z.le bw_bins.
Proof.
  unfold bw_bins.
  repeat (constructor; [|repeat (constructor; [lia|]); constructor]).
  constructor.
Qed.

Lemma select_bw_id_range (val : Z) : 0 <= select_bw_id val <= 9.
Proof.
  unfold select_bw_id.
  destruct (first_cutoff val bw_bins 0) as [i|] eqn:Hfind; [|lia].
  destruct (first_cutoff_least val bw_bins bw_bins_sorted 0 i Hfind)
    as (_ & Hrange & _).
  change (Z.of_nat (length bw_bins)) with 9 in Hrange. lia.
Qed.

(** The setter's write is a byte whatever the register held. *)
Lemma set_signal_bandwidth_run (val : Z) (s : RFM9x) :
  let written := Z.lor (Z.land (regs s _RH_RF95_REG_1D_MODEM_CONFIG1) 0x0f)
                       (Z.shiftl (select_bw_id val) 4) in
  set_signal_bandwidth val s
  = (Ok tt,
     with_bus s (upd (regs s) _RH_RF95_REG_1D_MODEM_CONFIG1 written)
              ((0x9d, [written]) :: xfers s)).
Proof.
  cbv zeta. unfold set_signal_bandwidth, bind, _read_u8, gets. cbv zeta.
  rewrite _write_u8_int; [reflexivity|].
  apply lor_byte; [apply land_byte; lia|].
  pose proof (select_bw_id_range val). rewrite Z.shiftl_mul_pow2 by lia.
  change (2 ^ 4) with 16. lia.
Qed.

(** The modem-config byte keeps its low nibble and takes [bw_id] as its
    high nibble. *)
Lemma high_nibble_read_back (old bw_id : Z) :
  0 <= bw_id < 16 ->
  Z.shiftr (Z.land (Z.lor (Z.land old 0x0f) (Z.shiftl bw_id 4)) 0xf0) 4 = bw_id.
Proof.
  intros Hid. apply Z.bits_inj'. intros i Hi.
  change 0xf0 with (Z.shiftl (Z.ones 4) 4). change 0x0f with (Z.ones 4).
  rewrite Z.shiftr_spec, Z.land_spec, Z.lor_spec, Z.land_spec,
    mask_testbit, Z.testbit_ones, Z.shiftl_spec by lia.
  replace (i + 4 - 4) with i by lia.
  destruct (Z.leb_spec 4 (i + 4)); [|lia].
  destruct (Z.ltb_spec (i + 4) (4 + 4)), (Z.ltb_spec (i + 4) 4),
    (Z.leb_spec 0 (i + 4)); try lia; simpl.
  - now rewrite andb_false_r, andb_true_r.
  - rewrite !andb_false_r. symmetry.
    apply (in_width_testbit 4); simpl; lia.
Qed.

(** C5.  The bandwidth setter writes, into the high nibble of the
    modem-config register, the index of the smallest bin of [bw_bins] that
    is at least the requested value, and 9 when the value is above every
    bin; the getter then reports that bin (500000 for index 9).  100000
    selects the 125000 bin and 1000000 the reserved index 9. *)
Theorem signal_bandwidth_selects_smallest_bin (val : Z) (s : RFM9x) :
  let bw_id := select_bw_id val in
  let old := regs s _RH_RF95_REG_1D_MODEM_CONFIG1 in
  let s' := snd (set_signal_bandwidth val s) in
  set_signal_bandwidth val s
  = (Ok tt,
     with_bus s
       (upd (regs s) _RH_RF95_REG_1D_MODEM_CONFIG1
            (Z.lor (Z.land old 0x0f) (Z.shiftl bw_id 4)))
       ((0x9d, [Z.lor (Z.land old 0x0f) (Z.shiftl bw_id 4)]) :: xfers s))
  /\ ((exists cutoff,
          0 <= bw_id < 9
          /\ bw_bins !! Z.to_nat bw_id = Some cutoff
          /\ val <= cutoff
          /\ (forall b, In b bw_bins -> val <= b -> cutoff <= b)
          /\ fst (signal_bandwidth s') = Ok cutoff)
      \/ (bw_id = 9
          /\ (forall b, In b bw_bins -> b < val)
          /\ fst (signal_bandwidth s') = Ok 500000))
  /\ select_bw_id 100000 = 7
  /\ bw_bins !! 7%nat = Some 125000
  /\ select_bw_id 1000000 = 9.
Proof.
  intros bw_id old s'. split; [apply set_signal_bandwidth_run|].
  split; [|repeat split; reflexivity].
  assert (Hget : forall i, 0 <= i < 16 ->
            bw_id = i ->
            fst (signal_bandwidth s')
            = Ok (if Z.of_nat (length bw_bins) <=? i then 500000
                  else nth (Z.to_nat i) bw_bins 0)).
  { intros i Hi Heq.
    assert (Hreg : Z.shiftr (Z.land (regs s' _RH_RF95_REG_1D_MODEM_CONFIG1)
                                    0xf0) 4 = i).
    { subst s'. rewrite set_signal_bandwidth_run.
      cbn [fst snd regs with_bus]. unfold upd.
      rewrite Z.eqb_refl. fold bw_id. rewrite Heq.
      now apply high_nibble_read_back. }
    unfold signal_bandwidth, bind, _read_u8, gets. rewrite Hreg.
    destruct (Z.of_nat (length bw_bins) <=? i); reflexivity. }
  subst bw_id. unfold select_bw_id in *.
  destruct (first_cutoff val bw_bins 0) as [i|] eqn:Hfind.
  - left.
    destruct (first_cutoff_least val bw_bins bw_bins_sorted 0 i Hfind)
      as (cutoff & Hrange & Hat & Hval & Hleast).
    rewrite Z.sub_0_r in Hat. change (Z.of_nat (length bw_bins)) with 9 in *.
    exists cutoff. repeat split; try lia; try assumption.
    rewrite (Hget i) by lia.
    destruct (Z.leb_spec 9 i); [lia|].
    f_equal. apply nth_lookup_Some with (d := 0) in Hat. exact Hat.
  - right. split; [reflexivity|]. split.
    + now apply first_cutoff_none with (k := 0).
    + now rewrite (Hget 9) by lia.
Qed.

(** * Transmit power *)

(** What a field reads after a write to it, and after a write to a field
    beside it, at the level of register bytes. *)
Lemma field_after_set (address offset bits v : Z) (s : RFM9x) :
  bits_ok offset bits = true ->
  0 <= v < 2 ^ bits ->
  0 <= regs s address <= 255 ->
  fst (get_bits (new_RegisterBits address offset bits)
         (snd (set_bits (new_RegisterBits address offset bits) v s)))
  = Ok v.
Proof.
  intros Hok Hv Hbyte. rewrite set_bits_run by assumption. cbn [snd]. cbv zeta.
  rewrite get_bits_upd. f_equal. now apply field_of_written.
Qed.

(** An in-width write over a byte goes through. *)
Lemma set_bits_ok (address offset bits v : Z) (s : RFM9x) :
  bits_ok offset bits = true ->
  0 <= v < 2 ^ bits ->
  0 <= regs s address <= 255 ->
  set_bits (new_RegisterBits address offset bits) v s
  = (Ok tt, snd (set_bits (new_RegisterBits address offset bits) v s)).
Proof.
  intros Hok Hv Hbyte. now rewrite set_bits_run by assumption.
Qed.

Lemma field_beside_set (address offset bits v offset' bits' : Z) (s : RFM9x) :
  bits_ok offset bits = true ->
  bits_ok offset' bits' = true ->
  offset' + bits' <= offset \/ offset + bits <= offset' ->
  0 <= v < 2 ^ bits ->
  fst (get_bits (new_RegisterBits address offset' bits')
         (snd (set_bits (new_RegisterBits address offset bits) v s)))
  = fst (get_bits (new_RegisterBits address offset' bits') s).
Proof.
  intros Hok Hok' Hapart Hv.
  destruct (set_bits_cases (new_RegisterBits address offset bits) v s)
    as [[_ ->]|[_ ->]]; [|reflexivity].
  cbn [snd _address _offset new_RegisterBits].
  rewrite get_bits_upd, get_bits_run. cbn [fst]. f_equal.
  cbn [_offset _address new_RegisterBits].
  now apply (other_field_of_written address offset bits Hok).
Qed.

Lemma field_elsewhere_set (f g : RegisterBits) (v : Z) (s : RFM9x) :
  _address g <> _address f ->
  fst (get_bits g (snd (set_bits f v s))) = fst (get_bits g s).
Proof.
  intros Hne. destruct (set_bits_cases f v s) as [[_ ->]|[_ ->]];
    [|reflexivity].
  rewrite !get_bits_run. cbn [fst snd regs with_bus].
  unfold upd. destruct (Z.eqb_spec (_address g) (_address f)); [contradiction|].
  reflexivity.
Qed.

Lemma regs_elsewhere_set (f : RegisterBits) (v : Z) (s : RFM9x) (a : Z) :
  a <> _address f -> regs (snd (set_bits f v s)) a = regs s a.
Proof.
  intros Hne. destruct (set_bits_cases f v s) as [[_ ->]|[_ ->]];
    [|reflexivity].
  cbn [snd regs with_bus]. unfold upd.
  destruct (Z.eqb_spec a (_address f)); [contradiction|reflexivity].
Qed.

Lemma set_bits_attributes (f : RegisterBits) (v : Z) (s : RFM9x) :
  high_power (snd (set_bits f v s)) = high_power s.
Proof. destruct (set_bits_cases f v s) as [[_ ->]|[_ ->]]; reflexivity. Qed.

Lemma tx_power_of_field (s : RFM9x) (p : Z) :
  fst (get_bits output_power s) = Ok p ->
  fst (tx_power s) = Ok (if high_power s then p + 5 else p - 1).
Proof.
  rewrite get_bits_run. cbn [fst]. intros [= <-].
  unfold tx_power, bind, gets. rewrite get_bits_run.
  destruct (high_power s); reflexivity.
Qed.

(** The three writes of the high-power branch, in sequence, for a level
    whose integer part is [n]. *)
Lemma set_tx_power_high_run (val : number) (n : Z) (s : RFM9x) :
  int_of_number val = inr n ->
  high_power s = true -> 5 <= n <= 23 ->
  byte_regs s ->
  set_tx_power val s
  = (Ok tt,
     snd (set_bits output_power
            (Z.land ((if 20 <? n then n - 3 else n) - 5) 0x0F)
            (snd (set_bits pa_select 1
               (snd (set_bits pa_dac
                       (if 20 <? n then _RH_RF95_PA_DAC_ENABLE
                        else _RH_RF95_PA_DAC_DISABLE) s)))))).
Proof.
  intros Hint Hhp Hn Hbytes. unfold set_tx_power. rewrite Hint.
  unfold bind at 1, gets. rewrite Hhp.
  destruct (Z.ltb_spec n 5); [lia|]. destruct (Z.ltb_spec 23 n); [lia|].
  cbn [orb].
  set (dac := if 20 <? n then _RH_RF95_PA_DAC_ENABLE
              else _RH_RF95_PA_DAC_DISABLE).
  set (level := Z.land ((if 20 <? n then n - 3 else n) - 5) 0x0F).
  assert (Hdac : 0 <= dac < 2 ^ 3).
  { subst dac. unfold _RH_RF95_PA_DAC_ENABLE, _RH_RF95_PA_DAC_DISABLE.
    destruct (20 <? n); simpl; lia. }
  assert (Hlevel : 0 <= level < 2 ^ 4).
  { subst level. change 0x0F with (Z.ones 4). rewrite Z.land_ones by lia.
    apply Z.mod_pos_bound. simpl. lia. }
  pose proof (set_bits_ok _RH_RF95_REG_4D_PA_DAC 0 3 dac s eq_refl Hdac
                (Hbytes _)) as Hrun1.
  pose proof (set_bits_byte_regs pa_dac dac s Hbytes) as Hbytes1.
  pose proof (set_bits_ok _RH_RF95_REG_09_PA_CONFIG 7 1 1 _ eq_refl
                ltac:(simpl; lia) (Hbytes1 _)) as Hrun2.
  pose proof (set_bits_byte_regs pa_select 1 _ Hbytes1) as Hbytes2.
  pose proof (set_bits_ok _RH_RF95_REG_09_PA_CONFIG 0 4 level _ eq_refl
                Hlevel (Hbytes2 _)) as Hrun3.
  fold pa_dac in Hrun1. fold pa_select in Hrun2. fold output_power in Hrun3.
  destruct (20 <? n); subst dac level;
    rewrite (bind_run _ _ _ _ _ (bind_run _ _ _ _ _ Hrun1));
    unfold ret; rewrite (bind_run _ _ _ _ _ Hrun2); exact Hrun3.
Qed.

(** C6 (as amended).  On a high-power board, the setter first cuts the
    level to its integer part [n = int(val)].  For [n] in [5, 23]: above 20
    it writes the PA-DAC enable value and stores [n - 3 - 5] in the four-bit
    output-power field, otherwise it writes the PA-DAC disable value and
    stores [n - 5]; the getter is the stored field plus 5.  So 23 enables
    the boost and stores 15, and 14 disables it and stores 9. *)
Theorem tx_power_high_power_encoding (val : number) (n : Z) (s : RFM9x) :
  int_of_number val = inr n ->
  high_power s = true ->
  5 <= n <= 23 ->
  byte_regs s ->
  let s' := snd (set_tx_power val s) in
  let stored := if 20 <? n then n - 3 - 5 else n - 5 in
  fst (set_tx_power val s) = Ok tt
  /\ fst (get_bits pa_dac s')
     = Ok (if 20 <? n then _RH_RF95_PA_DAC_ENABLE else _RH_RF95_PA_DAC_DISABLE)
  /\ fst (get_bits pa_select s') = Ok 1
  /\ fst (get_bits output_power s') = Ok stored
  /\ fst (tx_power s') = Ok (stored + 5).
Proof.
  intros Hint Hhp Hn Hbytes s' stored. subst s'.
  rewrite (set_tx_power_high_run val n s Hint Hhp Hn Hbytes). cbn [fst snd].
  set (dac := if 20 <? n then _RH_RF95_PA_DAC_ENABLE
              else _RH_RF95_PA_DAC_DISABLE).
  set (level := Z.land _ 0x0F).
  assert (Hlevel : level = stored /\ 0 <= stored < 2 ^ 4).
  { subst level stored. change 0x0F with (Z.ones 4).
    rewrite Z.land_ones by lia. change (2 ^ 4) with 16.
    destruct (Z.ltb_spec 20 n); (split; [apply Z.mod_small|]; lia). }
  destruct Hlevel as [-> Hstored].
  assert (Hdac : 0 <= dac < 2 ^ 3).
  { subst dac. unfold _RH_RF95_PA_DAC_ENABLE, _RH_RF95_PA_DAC_DISABLE.
    destruct (20 <? n); simpl; lia. }
  pose proof (set_bits_byte_regs pa_dac dac s Hbytes) as Hbytes1.
  pose proof (set_bits_byte_regs pa_select 1 _ Hbytes1) as Hbytes2.
  assert (Hout : fst (get_bits output_power
                   (snd (set_bits output_power stored
                      (snd (set_bits pa_select 1
                         (snd (set_bits pa_dac dac s))))))) = Ok stored).
  { apply (field_after_set _RH_RF95_REG_09_PA_CONFIG 0 4);
      [reflexivity|lia|apply Hbytes2]. }
  split; [reflexivity|]. split; [|split; [|split]].
  - rewrite field_elsewhere_set by (cbn; discriminate).
    rewrite field_elsewhere_set by (cbn; discriminate).
    apply (field_after_set _RH_RF95_REG_4D_PA_DAC 0 3);
      [reflexivity|exact Hdac|apply Hbytes].
  - unfold output_power, pa_select.
    rewrite (field_beside_set _RH_RF95_REG_09_PA_CONFIG 0 4 stored 7 1)
      by (try reflexivity; lia).
    apply (field_after_set _RH_RF95_REG_09_PA_CONFIG 7 1);
      [reflexivity|simpl; lia|apply Hbytes1].
  - exact Hout.
  - rewrite (tx_power_of_field _ stored Hout), !set_bits_attributes, Hhp.
    reflexivity.
Qed.

Lemma byte_regs_after_init (c : Z) :
  0 <= c <= 255 -> byte_regs (after_init (fun _ => c)).
Proof. intros Hc a. exact Hc. Qed.

(** 23, 14 and the 12.5 of the docstring, which is set as 12. *)
Lemma tx_power_high_power_encoding_witness :
  let s := after_init (fun _ => 0) in
  (fst (get_bits pa_dac (snd (set_tx_power (IntNum 23) s)))
   = Ok _RH_RF95_PA_DAC_ENABLE
   /\ fst (get_bits output_power (snd (set_tx_power (IntNum 23) s))) = Ok 15
   /\ fst (tx_power (snd (set_tx_power (IntNum 23) s))) = Ok 20)
  /\ (fst (get_bits pa_dac (snd (set_tx_power (IntNum 14) s)))
      = Ok _RH_RF95_PA_DAC_DISABLE
      /\ fst (get_bits output_power (snd (set_tx_power (IntNum 14) s))) = Ok 9
      /\ fst (tx_power (snd (set_tx_power (IntNum 14) s))) = Ok 14)
  /\ fst (tx_power (snd (set_tx_power (FloatNum 12.5) s))) = Ok 12.
Proof.
  intros s.
  assert (Hbytes : byte_regs s) by (apply byte_regs_after_init; lia).
  pose proof (tx_power_high_power_encoding (IntNum 23) 23 s eq_refl eq_refl
                ltac:(lia) Hbytes) as H23.
  pose proof (tx_power_high_power_encoding (IntNum 14) 14 s eq_refl eq_refl
                ltac:(lia) Hbytes) as H14.
  pose proof (tx_power_high_power_encoding (FloatNum 12.5) 12 s eq_refl
                eq_refl ltac:(lia) Hbytes) as H12.
  cbv zeta in H23, H14, H12.
  destruct H23 as (_ & Hdac23 & _ & Hout23 & Hget23).
  destruct H14 as (_ & Hdac14 & _ & Hout14 & Hget14).
  destruct H12 as (_ & _ & _ & _ & Hget12).
  split; [|split]; [split; [|split]|split; [|split]|]; assumption.
Defined.

(** C6 as stated fails: 20.5 lies in [5, 23] and is above 20, yet the
    setter cuts it to 20 first, so the boost stays off and the field holds
    20 - 5 = 15, where the claim has the boost on and 20.5 - 3 - 5. *)
Lemma tx_power_above_20_not_boosted :
  let s := after_init (fun _ => 0) in
  let s' := snd (set_tx_power (FloatNum 20.5) s) in
  (5 <=? 20.5)%float = true
  /\ (20.5 <=? 23)%float = true
  /\ (20 <? 20.5)%float = true
  /\ fst (set_tx_power (FloatNum 20.5) s) = Ok tt
  /\ fst (get_bits pa_dac s') = Ok _RH_RF95_PA_DAC_DISABLE
  /\ fst (get_bits output_power s') = Ok 15
  /\ fst (tx_power s') = Ok 20.
Proof. repeat split; reflexivity. Qed.

(** * Frequency *)

(** Comparisons of floats, read through their specification. *)
Lemma SFcompare_antisym (x y : spec_float) (c : comparison) :
  SFcompare x y = Some c -> SFcompare y x = Some (CompOpp c).
Proof.
  destruct x as [sx|sx| |sx mx ex], y as [sy|sy| |sy my ey];
    try destruct sx; try destruct sy; cbn [SFcompare];
    intros [= <-]; try reflexivity; f_equal;
    rewrite (Z.compare_antisym ex ey);
    destruct (ex ?= ey) eqn:He; cbn [CompOpp]; try reflexivity;
    change (Pos.compare_cont Eq mx my) with (Pos.compare mx my);
    change (Pos.compare_cont Eq my mx) with (Pos.compare my mx);
    rewrite (Pos.compare_antisym mx my); try reflexivity;
    now rewrite CompOpp_involutive.
Qed.

Lemma float_leb_not_ltb (x y : float) :
  (x <=? y)%float = true -> (y <? x)%float = false.
Proof.
  rewrite FloatAxioms.leb_spec, FloatAxioms.ltb_spec. unfold SFleb, SFltb.
  destruct (SFcompare (Prim2SF x) (Prim2SF y)) as [c|] eqn:Hc;
    [|discriminate].
  rewrite (SFcompare_antisym _ _ _ Hc).
  destruct c; try discriminate; reflexivity.
Qed.

(** The three bytes written by the setter put together again by the getter. *)
Lemma frf_bytes_recombine (n : Z) :
  let frf := Z.land n 0xFFFFFF in
  Z.land (Z.lor (Z.lor (Z.shiftl (Z.shiftr frf 16) 16)
                       (Z.shiftl (Z.land (Z.shiftr frf 8) 0xFF) 8))
                (Z.land frf 0xFF)) 0xFFFFFF
  = frf.
Proof.
  intros frf. subst frf. apply Z.bits_inj'. intros i Hi.
  change 0xFFFFFF with (Z.ones 24). change 0xFF with (Z.ones 8).
  rewrite !Z.land_spec, !Z.lor_spec, !Z.shiftl_spec, !Z.land_spec,
    !Z.testbit_ones by lia.
  destruct (Z.lt_ge_cases i 8) as [H8|H8];
    [|destruct (Z.lt_ge_cases i 16) as [H16|H16]].
  - rewrite !(Z.testbit_neg_r _ (i - 16)), !(Z.testbit_neg_r _ (i - 8)) by lia.
    destruct (Z.leb_spec 0 i), (Z.ltb_spec i 24), (Z.ltb_spec i 8); try lia.
    cbn [andb orb]. now rewrite !andb_true_r.
  - rewrite !(Z.testbit_neg_r _ (i - 16)) by lia.
    rewrite !Z.shiftr_spec, !Z.land_spec, !Z.testbit_ones by lia.
    replace (i - 8 + 8) with i by lia.
    destruct (Z.leb_spec 0 i), (Z.ltb_spec i 24), (Z.ltb_spec i 8),
      (Z.leb_spec 0 (i - 8)), (Z.ltb_spec (i - 8) 8); try lia.
    cbn [andb orb]. now rewrite !andb_true_r, !andb_false_r, !orb_false_r.
  - rewrite !Z.shiftr_spec, !Z.land_spec, !Z.testbit_ones by lia.
    replace (i - 16 + 16) with i by lia. replace (i - 8 + 8) with i by lia.
    destruct (Z.leb_spec 0 i), (Z.ltb_spec i 24), (Z.ltb_spec i 8),
      (Z.leb_spec 0 (i - 8)), (Z.ltb_spec (i - 8) 8); try lia;
      cbn [andb orb];
      now rewrite ?andb_true_r, ?andb_false_r, ?orb_false_r.
Qed.

Lemma frequency_mhz_run (s : RFM9x) :
  frequency_mhz s
  = (Ok (float_of_int
           (Z.land (Z.lor (Z.lor (Z.shiftl (regs s _RH_RF95_REG_06_FRF_MSB) 16)
                                 (Z.shiftl (regs s _RH_RF95_REG_07_FRF_MID) 8))
                          (regs s _RH_RF95_REG_08_FRF_LSB)) 0xFFFFFF)
         * _RH_RF95_FSTEP / 1000000.0)%float, s).
Proof. reflexivity. Qed.

(** The three bytes of a 24-bit number. *)
Lemma frf_bytes (n : Z) :
  let frf := Z.land n 0xFFFFFF in
  0 <= Z.shiftr frf 16 <= 255
  /\ 0 <= Z.land (Z.shiftr frf 8) 0xFF <= 255
  /\ 0 <= Z.land frf 0xFF <= 255.
Proof.
  cbv zeta. split; [|split; apply land_byte; lia].
  change 0xFFFFFF with (Z.ones 24). rewrite Z.land_ones by lia.
  rewrite Z.shiftr_div_pow2 by lia.
  change (2 ^ 24) with 16777216. change (2 ^ 16) with 65536.
  pose proof (Z.mod_pos_bound n 16777216 ltac:(lia)) as Hmod.
  split.
  - apply Z.div_pos; lia.
  - assert (n mod 16777216 / 65536 < 256); [|lia].
    apply Z.div_lt_upper_bound; lia.
Qed.

(** C7 (as amended).  For a frequency in [240, 960] the setter computes the
    register value as the integer part -- [int(...)], a truncation, not a
    rounding -- of [val * 1e6 / (Fxosc / 2^19)], keeps 24 bits of it, and
    writes its three bytes MSB, MID, LSB to registers 6, 7 and 8; the getter
    puts these three bytes together again and multiplies by the step. *)
Theorem frequency_mhz_set_then_get (val : float) (n : Z) (s : RFM9x) :
  (240 <=? val)%float = true ->
  (val <=? 960)%float = true ->
  py_int (val * 1000000.0 / _RH_RF95_FSTEP)%float = Some n ->
  let frf := Z.land n 0xFFFFFF in
  let msb := Z.shiftr frf 16 in
  let mid := Z.land (Z.shiftr frf 8) 0xFF in
  let lsb := Z.land frf 0xFF in
  let s' := snd (set_frequency_mhz val s) in
  set_frequency_mhz val s
  = (Ok tt,
     with_bus s
       (upd (upd (upd (regs s) _RH_RF95_REG_06_FRF_MSB msb)
                 _RH_RF95_REG_07_FRF_MID mid)
            _RH_RF95_REG_08_FRF_LSB lsb)
       ((0x88, [lsb]) :: (0x87, [mid]) :: (0x86, [msb]) :: xfers s))
  /\ frequency_mhz s'
     = (Ok (float_of_int frf * _RH_RF95_FSTEP / 1000000.0)%float, s').
Proof.
  intros Hlow Hhigh Hint frf msb mid lsb s'.
  assert (Hrun : set_frequency_mhz val s
                 = (Ok tt,
                    with_bus s
                      (upd (upd (upd (regs s) _RH_RF95_REG_06_FRF_MSB msb)
                                _RH_RF95_REG_07_FRF_MID mid)
                           _RH_RF95_REG_08_FRF_LSB lsb)
                      ((0x88, [lsb]) :: (0x87, [mid]) :: (0x86, [msb])
                                     :: xfers s))).
  { destruct (frf_bytes n) as (Hmsb & Hmid & Hlsb).
    unfold set_frequency_mhz, frf_of.
    rewrite (float_leb_not_ltb _ _ Hlow), (float_leb_not_ltb _ _ Hhigh), Hint.
    cbn [orb]. cbv zeta.
    rewrite (bind_run _ _ _ _ _ (_write_u8_int _ _ _ Hmsb)).
    rewrite (bind_run _ _ _ _ _ (_write_u8_int _ _ _ Hmid)).
    now rewrite (_write_u8_int _ _ _ Hlsb). }
  split; [exact Hrun|].
  subst s'. rewrite Hrun. cbn [snd]. rewrite frequency_mhz_run.
  apply (f_equal (fun z => (Ok (float_of_int z * _RH_RF95_FSTEP
                                / 1000000.0)%float, _))).
  exact (frf_bytes_recombine n).
Qed.

(** 915 MHz is stored as 0xE4C000 and read back exactly; 433.2 MHz is
    stored as 7097548 = 0x6C4CCC and read back one part of a step lower. *)
Lemma frequency_mhz_set_then_get_witness :
  let s := after_init (fun _ => 0) in
  (xfers (snd (set_frequency_mhz 915 s))
   = [(0x88, [0x00]); (0x87, [0xC0]); (0x86, [0xE4])]
   /\ fst (frequency_mhz (snd (set_frequency_mhz 915 s))) = Ok 915%float)
  /\ (xfers (snd (set_frequency_mhz 433.2 s))
      = [(0x88, [0xCC]); (0x87, [0x4C]); (0x86, [0x6C])]
      /\ fst (frequency_mhz (snd (set_frequency_mhz 433.2 s)))
         = Ok 433.199951171875%float).
Proof.
  intros s.
  pose proof (frequency_mhz_set_then_get 915 14991360 s
                eq_refl eq_refl eq_refl) as H915.
  pose proof (frequency_mhz_set_then_get 433.2 7097548 s
                eq_refl eq_refl eq_refl) as H433.
  cbv zeta in H915, H433.
  destruct H915 as [Hset915 Hget915]. destruct H433 as [Hset433 Hget433].
  split; split.
  - rewrite Hset915. reflexivity.
  - rewrite Hget915. reflexivity.
  - rewrite Hset433. reflexivity.
  - rewrite Hget433. reflexivity.
Defined.

(** C7 as stated fails: at 433.2 MHz the quotient is 7097548.8; the setter
    writes the bytes of 7097548, and rounding would give 7097549. *)
Lemma frequency_mhz_truncates_not_rounds :
  (240 <=? 433.2)%float = true
  /\ (433.2 <=? 960)%float = true
  /\ (433.2 * 1000000.0 / _RH_RF95_FSTEP)%float = 7097548.8%float
  /\ frf_rounded 433.2 = Some 7097549
  /\ frf_of 433.2 = Some 7097548
  /\ xfers (snd (set_frequency_mhz 433.2 (after_init (fun _ => 0))))
     = [(0x88, [Z.land 7097548 0xFF]);
        (0x87, [Z.land (Z.shiftr 7097548 8) 0xFF]);
        (0x86, [Z.shiftr 7097548 16])].
Proof. repeat split; reflexivity. Qed.

(** * Rejected inputs *)

Lemma send_load_bad_length (data : list Z) (tx_header : sequence) (s : RFM9x) :
  (length data = 0 \/ 252 < length data)%nat ->
  send_load data tx_header s = (Raise AssertionError, s).
Proof.
  intros Hlen. unfold send_load.
  destruct (Z.ltb_spec 0 (Z.of_nat (length data)));
    destruct (Z.leb_spec (Z.of_nat (length data)) 252);
    try reflexivity; lia.
Qed.

Lemma send_load_good_length (data : list Z) (tx_header : sequence) (s : RFM9x) :
  (0 < length data <= 252)%nat ->
  length (items_of tx_header) = 4%nat ->
  send_load data tx_header s
  = (tx_header <- match items_of tx_header !! 2%nat with
                  | Some (Int 0) => allocate_id tx_header
                  | _ => ret tx_header
                  end ;;
     load_fifo data tx_header) s.
Proof.
  intros Hlen Hfour. unfold send_load. rewrite Hfour.
  destruct (Z.ltb_spec 0 (Z.of_nat (length data))); [|lia].
  destruct (Z.leb_spec (Z.of_nat (length data)) 252); [|lia].
  reflexivity.
Qed.

(** C8 (as amended).  A frequency outside [240, 960], a power level whose
    integer part [int(val)] is outside [5, 23] on a high-power board or
    outside [-1, 14] on a low-power one, a power level that has no integer
    part, and a payload of length 0 or above 252 each make the call raise,
    and the state the call leaves -- registers, bus traffic, attributes --
    is the state it found. *)
Theorem invalid_input_rejected_before_any_write (s : RFM9x) :
  (forall val : float,
      (val <? 240)%float = true \/ (960 <? val)%float = true ->
      set_frequency_mhz val s
      = (Raise (RuntimeError "frequency_mhz must be between 240 and 960"), s))
  /\ (forall (val : number) (n : Z),
         int_of_number val = inr n ->
         high_power s = true -> n < 5 \/ 23 < n ->
         set_tx_power val s
         = (Raise (RuntimeError "tx_power must be between 5 and 23"), s))
  /\ (forall (val : number) (n : Z),
         int_of_number val = inr n ->
         high_power s = false -> n < -1 \/ 14 < n ->
         set_tx_power val s = (Raise AssertionError, s))
  /\ (forall (val : number) (e : exn),
         int_of_number val = inl e ->
         set_tx_power val s = (Raise e, s))
  /\ (forall (data : list Z) (timeout : float) (tx_header : sequence),
         (length data = 0 \/ 252 < length data)%nat ->
         send data timeout tx_header s = (Raise AssertionError, s)).
Proof.
  repeat split.
  - intros val Hout. unfold set_frequency_mhz.
    destruct Hout as [-> | ->]; [|rewrite orb_true_r]; reflexivity.
  - intros val n Hint Hhp Hout. unfold set_tx_power. rewrite Hint.
    unfold bind, gets. rewrite Hhp.
    destruct (Z.ltb_spec n 5), (Z.ltb_spec 23 n); try reflexivity; lia.
  - intros val n Hint Hhp Hout. unfold set_tx_power. rewrite Hint.
    unfold bind, gets. rewrite Hhp.
    destruct (Z.leb_spec (-1) n), (Z.leb_spec n 14); try reflexivity; lia.
  - intros val e Hint. unfold set_tx_power. now rewrite Hint.
  - intros data timeout tx_header Hlen. unfold send.
    apply bind_raise. now apply send_load_bad_length.
Qed.

(** C8 as stated fails: 23.5 is outside [5, 23], yet on a high-power
    board the setter cuts it to 23, raises nothing and makes its three
    writes; 4.5 is cut to 4 and refused, NaN has no integer part. *)
Lemma tx_power_just_above_range_accepted :
  let s := after_init (fun _ => 0) in
  let s' := snd (set_tx_power (FloatNum 23.5) s) in
  (23 <? 23.5)%float = true
  /\ high_power s = true
  /\ fst (set_tx_power (FloatNum 23.5) s) = Ok tt
  /\ xfers s' = [(0x89, [0x8F]); (0x89, [0x80]); (0xcd, [0x07])]
  /\ fst (tx_power s') = Ok 20
  /\ set_tx_power (FloatNum 4.5) s
     = (Raise (RuntimeError "tx_power must be between 5 and 23"), s)
  /\ set_tx_power (FloatNum nan) s = (Raise ValueError, s)
  /\ set_tx_power (FloatNum infinity) s = (Raise OverflowError, s).
Proof. repeat split; reflexivity. Qed.

(** * Sequence ids *)

(** C1 fails on the code at the default header: it is a tuple whose id is
    0, the allocation assigns into it, and [send] raises [TypeError] having
    allocated and stored nothing. *)
Theorem send_default_header_allocates_nothing (timeout : float) (s : RFM9x) :
  send [0x68; 0x69] timeout default_tx_header s = (Raise TypeError, s)
  /\ send [0x68; 0x69] timeout default_tx_header (after_init (fun _ => 0))
     = (Raise TypeError, after_init (fun _ => 0))
  /\ last_sent_id (after_init (fun _ => 0)) !! Int _RH_BROADCAST_ADDRESS = None.
Proof. repeat split. Qed.

(** On a list the allocation does what it is meant to: the next id after
    the last one used for the destination (1 for a new destination), back
    to 1 at 254, stored in the list and in [last_sent_id]. *)
Lemma allocate_id_list (to from id flags : value) (s : RFM9x) :
  let next := default 0 (last_sent_id s !! to) + 1 in
  let allocated := if next <? 254 then next else 1 in
  allocate_id (List [to; from; id; flags]) s
  = (Ok (List [to; from; Int allocated; flags]),
     with_last_sent_id s (<[to := allocated]> (last_sent_id s))).
Proof.
  unfold allocate_id, bind, gets, modify, ret.
  destruct (last_sent_id s !! to); reflexivity.
Qed.

(** X2.  Allocations in a row for a destination never sent to before: the
    [k]-th allocates [(k - 1) mod 253 + 1], so the first allocates 1, each
    next one the id after, and the 254th allocates 1 again. *)
Theorem allocations_last (to : value) (k : nat) (s : RFM9x) :
  last_sent_id s !! to = None ->
  (0 < k)%nat ->
  last_sent_id (allocations to k s) !! to
  = Some ((Z.of_nat k - 1) mod 253 + 1).
Proof.
  intros Hnew. induction k as [|k IH]; intros Hk; [lia|].
  cbn [allocations]. rewrite allocate_id_list. cbn [snd last_sent_id with_last_sent_id].
  rewrite lookup_insert_eq. f_equal.
  destruct k as [|k'].
  - cbn [allocations]. rewrite Hnew. reflexivity.
  - rewrite IH by lia. cbn [from_option id].
    set (j := Z.of_nat (S k')). replace (Z.of_nat (S (S k')) - 1) with j by lia.
    assert (Hj : 1 <= j) by lia. clearbody j.
    destruct (Z.ltb_spec ((j - 1) mod 253 + 1 + 1) 254);
      Z.to_euclidean_division_equations; lia.
Qed.

Lemma allocations_last_witness :
  last_sent_id (allocations (Int 9) 1 (after_init (fun _ => 0))) !! Int 9 = Some 1
  /\ last_sent_id (allocations (Int 9) 2 (after_init (fun _ => 0))) !! Int 9 = Some 2
  /\ last_sent_id (allocations (Int 9) 253 (after_init (fun _ => 0))) !! Int 9
     = Some 253
  /\ last_sent_id (allocations (Int 9) 254 (after_init (fun _ => 0))) !! Int 9
     = Some 1.
Proof.
  split; [|split; [|split]].
  - exact (allocations_last (Int 9) 1 (after_init (fun _ => 0)) eq_refl
             ltac:(lia)).
  - exact (allocations_last (Int 9) 2 (after_init (fun _ => 0)) eq_refl
             ltac:(lia)).
  - exact (allocations_last (Int 9) 253 (after_init (fun _ => 0)) eq_refl
             ltac:(lia)).
  - exact (allocations_last (Int 9) 254 (after_init (fun _ => 0)) eq_refl
             ltac:(lia)).
Defined.

(** * What a computation leaves alone *)

Lemma keeps_bind {A B C} (obs : RFM9x -> C) (m : M A) (k : A -> M B) :
  keeps obs m -> (forall a, keeps obs (k a)) -> keeps obs (bind m k).
Proof.
  intros Hm Hk s. unfold bind. specialize (Hm s).
  destruct (m s) as [[a|e] s1]; cbn [snd] in *.
  - now rewrite Hk.
  - exact Hm.
Qed.

Lemma keeps_ret {A C} (obs : RFM9x -> C) (a : A) : keeps obs (ret a).
Proof. intros s. reflexivity. Qed.

Lemma keeps_raise {A C} (obs : RFM9x -> C) (e : exn) :
  keeps obs (raise (A := A) e).
Proof. intros s. reflexivity. Qed.

Lemma keeps_gets {A C} (obs : RFM9x -> C) (f : RFM9x -> A) :
  keeps obs (gets f).
Proof. intros s. reflexivity. Qed.

(** A write changes the registers and the log of transfers, if anything. *)
Lemma _write_u8_keeps_bus {C} (obs : RFM9x -> C) (register : Z) (p : payload) :
  (forall s r x, obs (with_bus s r x) = obs s) ->
  keeps obs (_write_u8 register p).
Proof.
  intros Hobs s.
  destruct (_write_u8_cases register p s) as [[_ ->]|[_ ->]];
    [apply Hobs|reflexivity].
Qed.

Ltac keeps_step :=
  first
    [ apply keeps_ret
    | apply keeps_raise
    | apply keeps_gets
    | apply _write_u8_keeps_bus; solve [intros; reflexivity]
    | apply keeps_bind; [|intros ?]
    | match goal with
      | |- keeps _ (if ?b then _ else _) => destruct b
      | |- keeps _ (match ?x with _ => _ end) => destruct x
      end
    | solve [intros ?; reflexivity] ].

Ltac keeps_all := repeat keeps_step.

Lemma allocate_id_keeps {C} (obs : RFM9x -> C) (tx_header : sequence) :
  (forall s m, obs (with_last_sent_id s m) = obs s) ->
  keeps obs (allocate_id tx_header).
Proof.
  intros Hobs. unfold allocate_id. keeps_all.
  intros s. cbn. apply Hobs.
Qed.

Lemma send_load_keeps_env (data : list Z) (tx_header : sequence) :
  keeps env (send_load data tx_header).
Proof.
  unfold send_load. keeps_all.
  all: try (apply allocate_id_keeps; reflexivity).
Qed.

Lemma send_load_keeps_attributes (data : list Z) (tx_header : sequence) :
  keeps attributes (send_load data tx_header).
Proof.
  unfold send_load. keeps_all.
  all: try (apply allocate_id_keeps; reflexivity).
Qed.

Lemma attributes_attribute_only : attribute_only attributes.
Proof. intros s r b x clk ev. reflexivity. Qed.

Lemma last_sent_id_attribute_only : attribute_only last_sent_id.
Proof. intros s r b x clk ev. reflexivity. Qed.

Section AttributeOnly.

Context {B : Type} (obs : RFM9x -> B).
Hypothesis Hobs : attribute_only obs.

Lemma set_bits_keeps (f : RegisterBits) (v : Z) : keeps obs (set_bits f v).
Proof.
  intros s. destruct (set_bits_cases f v s) as [[_ ->]|[_ ->]];
    [apply Hobs|reflexivity].
Qed.

Lemma _write_u8_keeps (register : Z) (p : payload) :
  keeps obs (_write_u8 register p).
Proof. apply _write_u8_keeps_bus. intros s r x. apply Hobs. Qed.

Lemma chip_tick_keeps : keeps obs chip_tick.
Proof.
  intros s. unfold chip_tick. destruct (irq_events s); [reflexivity|apply Hobs].
Qed.

Lemma time_monotonic_keeps : keeps obs time_monotonic.
Proof.
  intros s. unfold time_monotonic.
  destruct (monotonic s); [reflexivity|apply Hobs].
Qed.

Lemma wait_tx_done_keeps (clock : list float) (start timeout : float) :
  keeps obs (wait_tx_done clock start timeout).
Proof.
  induction clock as [|now later IH]; cbn [wait_tx_done].
  - apply keeps_bind; [apply chip_tick_keeps|intros _].
    apply keeps_bind; [apply keeps_gets|intros done].
    destruct (done =? 0); [apply keeps_raise|apply keeps_ret].
  - apply keeps_bind; [apply chip_tick_keeps|intros _].
    apply keeps_bind; [apply keeps_gets|intros done].
    destruct (done =? 0); [|apply keeps_ret].
    apply keeps_bind; [intros s; apply Hobs|intros _].
    destruct (timeout <=? now - start)%float; [apply keeps_ret|exact IH].
Qed.

Lemma send_wait_keeps (timeout : float) : keeps obs (send_wait timeout).
Proof.
  unfold send_wait.
  apply keeps_bind; [apply time_monotonic_keeps|intros start].
  apply keeps_bind; [apply keeps_gets|intros clock].
  apply keeps_bind; [apply wait_tx_done_keeps|intros timed_out].
  apply keeps_bind; [apply set_bits_keeps|intros _].
  apply keeps_bind; [apply _write_u8_keeps|intros _].
  destruct timed_out; [apply keeps_raise|apply keeps_ret].
Qed.

Lemma load_fifo_keeps (data : list Z) (tx_header : sequence) :
  keeps obs (load_fifo data tx_header).
Proof.
  unfold load_fifo.
  apply keeps_bind; [apply set_bits_keeps|intros _].
  apply keeps_bind; [apply _write_u8_keeps|intros _].
  destruct (struct_pack _); [|apply keeps_raise].
  apply keeps_bind; [apply _write_u8_keeps|intros _].
  apply keeps_bind; [apply _write_u8_keeps|intros _].
  apply keeps_bind; [|intros _; apply keeps_ret].
  unfold transmit.
  apply keeps_bind; [apply set_bits_keeps|intros _; apply _write_u8_keeps].
Qed.

End AttributeOnly.

Lemma send_keeps_attributes (data : list Z) (timeout : float)
      (tx_header : sequence) :
  keeps attributes (send data timeout tx_header).
Proof.
  unfold send.
  apply keeps_bind; [apply send_load_keeps_attributes|intros h].
  apply keeps_bind; [|intros _; apply keeps_ret].
  apply send_wait_keeps, attributes_attribute_only.
Qed.

Lemma maintains_bind {A B} (P : RFM9x -> Prop) (m : M A) (k : A -> M B) :
  maintains P m -> (forall a, maintains P (k a)) -> maintains P (bind m k).
Proof.
  intros Hm Hk s HP. unfold bind. specialize (Hm s HP).
  destruct (m s) as [[a|e] s1]; cbn [snd] in *.
  - now apply Hk.
  - exact Hm.
Qed.

Lemma maintains_ret {A} (P : RFM9x -> Prop) (a : A) : maintains P (ret a).
Proof. intros s HP. exact HP. Qed.

Lemma maintains_raise {A} (P : RFM9x -> Prop) (e : exn) :
  maintains P (raise (A := A) e).
Proof. intros s HP. exact HP. Qed.

Lemma maintains_gets {A} (P : RFM9x -> Prop) (f : RFM9x -> A) :
  maintains P (gets f).
Proof. intros s HP. exact HP. Qed.

(** ** Bytes in the registers

    Whatever the driver stores in a register is a byte, and apart from
    the IRQ flags the chip is not seen to change a register on its own:
    a register that read as a byte still does after any method. *)

Section HoldsByte.

Variable a : Z.

Lemma _write_u8_holds_byte (register : Z) (p : payload) :
  maintains (holds_byte a) (_write_u8 register p).
Proof.
  intros s Hs. unfold holds_byte in *.
  destruct (_write_u8_cases register p s) as [[Hb ->]|[_ ->]]; [|exact Hs].
  cbn [snd regs with_bus].
  destruct p as [n|[|b [|b' l]]]; cbn [forallb] in Hb |- *; try exact Hs.
  - unfold upd. destruct (a =? register); [|exact Hs].
    apply is_byte_true. now apply andb_true_iff in Hb as [Hb _].
  - unfold upd. destruct (a =? register); [|exact Hs].
    apply is_byte_true. now apply andb_true_iff in Hb as [Hb _].
Qed.

Lemma set_bits_holds_byte (f : RegisterBits) (v : Z) :
  maintains (holds_byte a) (set_bits f v).
Proof.
  intros s Hs. unfold holds_byte in *.
  destruct (set_bits_cases f v s) as [[Hb ->]|[_ ->]]; [|exact Hs].
  cbn [snd regs with_bus]. unfold upd.
  destruct (a =? _address f); [exact Hb|exact Hs].
Qed.

Lemma allocate_id_holds_byte (tx_header : sequence) :
  maintains (holds_byte a) (allocate_id tx_header).
Proof.
  intros s Hs. unfold allocate_id.
  destruct tx_header as [l|[|to l]]; exact Hs.
Qed.

Lemma load_fifo_holds_byte (data : list Z) (tx_header : sequence) :
  maintains (holds_byte a) (load_fifo data tx_header).
Proof.
  unfold load_fifo, idle, transmit.
  apply maintains_bind; [apply set_bits_holds_byte|intros _].
  apply maintains_bind; [apply _write_u8_holds_byte|intros _].
  destruct (struct_pack _); [|apply maintains_raise].
  apply maintains_bind; [apply _write_u8_holds_byte|intros _].
  apply maintains_bind; [apply _write_u8_holds_byte|intros _].
  apply maintains_bind; [|intros _; apply maintains_ret].
  apply maintains_bind; [apply set_bits_holds_byte|intros _].
  apply _write_u8_holds_byte.
Qed.

Lemma send_load_holds_byte (data : list Z) (tx_header : sequence) :
  maintains (holds_byte a) (send_load data tx_header).
Proof.
  unfold send_load.
  destruct (negb _); [apply maintains_raise|].
  destruct (negb _); [apply maintains_raise|].
  apply maintains_bind; [|intros h; apply load_fifo_holds_byte].
  destruct (items_of tx_header !! 2%nat) as [[[| |]|]|];
    try apply maintains_ret.
  apply allocate_id_holds_byte.
Qed.

Hypothesis Hflags : a <> _RH_RF95_REG_12_IRQ_FLAGS.

Lemma chip_tick_holds_byte : maintains (holds_byte a) chip_tick.
Proof.
  intros s Hs. unfold chip_tick, holds_byte in *.
  destruct (irq_events s); [exact Hs|].
  cbn [snd regs]. unfold upd.
  destruct (Z.eqb_spec a _RH_RF95_REG_12_IRQ_FLAGS); [contradiction|exact Hs].
Qed.

Lemma time_monotonic_holds_byte : maintains (holds_byte a) time_monotonic.
Proof.
  intros s Hs. unfold time_monotonic.
  destruct (monotonic s); exact Hs.
Qed.

Lemma wait_tx_done_holds_byte (clock : list float) (start timeout : float) :
  maintains (holds_byte a) (wait_tx_done clock start timeout).
Proof.
  induction clock as [|now later IH]; cbn [wait_tx_done].
  - apply maintains_bind; [apply chip_tick_holds_byte|intros _].
    apply maintains_bind; [apply maintains_gets|intros done].
    destruct (done =? 0); [apply maintains_raise|apply maintains_ret].
  - apply maintains_bind; [apply chip_tick_holds_byte|intros _].
    apply maintains_bind; [apply maintains_gets|intros done].
    destruct (done =? 0); [|apply maintains_ret].
    apply maintains_bind; [intros s Hs; exact Hs|intros _].
    destruct (timeout <=? now - start)%float; [apply maintains_ret|exact IH].
Qed.

Lemma send_wait_holds_byte (timeout : float) :
  maintains (holds_byte a) (send_wait timeout).
Proof.
  unfold send_wait, idle.
  apply maintains_bind; [apply time_monotonic_holds_byte|intros start].
  apply maintains_bind; [apply maintains_gets|intros clock].
  apply maintains_bind; [apply wait_tx_done_holds_byte|intros timed_out].
  apply maintains_bind; [apply set_bits_holds_byte|intros _].
  apply maintains_bind; [apply _write_u8_holds_byte|intros _].
  destruct timed_out; [apply maintains_raise|apply maintains_ret].
Qed.

Lemma send_holds_byte (data : list Z) (timeout : float)
      (tx_header : sequence) :
  maintains (holds_byte a) (send data timeout tx_header).
Proof.
  unfold send.
  apply maintains_bind; [apply send_load_holds_byte|intros h].
  apply maintains_bind; [apply send_wait_holds_byte|intros _].
  apply maintains_ret.
Qed.

End HoldsByte.

(** * Loading the packet *)

Lemma struct_pack_four (items : list value) (header : list Z) :
  struct_pack items = Some header -> exists a b c d, header = [a; b; c; d].
Proof.
  unfold struct_pack.
  destruct items as [|a [|b [|c [|d [|? ?]]]]]; try discriminate.
  destruct (pack_byte a), (pack_byte b), (pack_byte c), (pack_byte d);
    try discriminate.
  intros [= <-]. eauto.
Qed.

Lemma mode_byte_low_bits (old v : Z) :
  0 <= v < 8 ->
  Z.land (Z.lor (Z.land old (Z.lnot (_mask operation_mode)))
                (Z.shiftl (Z.land v 0xFF) (_offset operation_mode))) 0x07
  = v.
Proof.
  intros Hv.
  pose proof (field_of_written _RH_RF95_REG_01_OP_MODE 0 3 eq_refl old v
                ltac:(simpl; lia)) as Hfield.
  rewrite Z.shiftr_0_r in Hfield. exact Hfield.
Qed.

(** The header step of [send_load] puts nothing on the bus. *)
Lemma header_step_bus (tx_header h : sequence) (s sa : RFM9x) :
  match items_of tx_header !! 2%nat with
  | Some (Int 0) => allocate_id tx_header
  | _ => ret tx_header
  end s = (Ok h, sa) ->
  xfers sa = xfers s /\ regs sa = regs s.
Proof.
  destruct (items_of tx_header !! 2%nat) as [[[| |]|]|];
    try (intros [= _ <-]; split; reflexivity).
  unfold allocate_id. destruct tx_header as [l|[|to l]]; try discriminate.
  unfold bind, gets, modify, ret. intros [= _ <-]. split; reflexivity.
Qed.

(** A mode written into the mode field of a register that holds a byte. *)
Lemma mode_set_run (v : Z) (s : RFM9x) :
  0 <= v < 8 ->
  0 <= regs s _RH_RF95_REG_01_OP_MODE <= 255 ->
  let written := Z.lor (Z.land (regs s _RH_RF95_REG_01_OP_MODE)
                               (Z.lnot (_mask operation_mode)))
                       (Z.shiftl (Z.land v 0xFF) (_offset operation_mode)) in
  set_bits operation_mode v s
  = (Ok tt, with_bus s (upd (regs s) _RH_RF95_REG_01_OP_MODE written)
                     ((0x81, [written]) :: xfers s))
  /\ 0 <= written <= 255
  /\ Z.land written 0x07 = v.
Proof.
  intros Hv Hbyte. cbv zeta.
  pose proof (written_byte _RH_RF95_REG_01_OP_MODE 0 3 eq_refl _ v Hbyte
                ltac:(simpl; lia)) as Hw.
  split; [|split].
  - exact (set_bits_eq operation_mode v s Hw).
  - exact Hw.
  - now apply mode_byte_low_bits.
Qed.

(** [load_fifo] returns only when each of its writes went through. *)
Lemma load_fifo_ok_inv (data : list Z) (tx_header h : sequence)
      (s s1 : RFM9x) :
  load_fifo data tx_header s = (Ok h, s1) ->
  exists (header : list Z) (standby tx : Z),
    h = tx_header
    /\ struct_pack (items_of tx_header) = Some header
    /\ forallb is_byte (header ++ data) = true
    /\ 0 <= Z.of_nat (length (header ++ data)) <= 255
    /\ xfers s1
       = (0xc0, [0x40]) :: (0x81, [tx])
           :: (0xa2, [Z.of_nat (length (header ++ data))])
           :: (0x80, header ++ data)
           :: (0x8d, [0]) :: (0x81, [standby]) :: xfers s
    /\ Z.land standby 0x07 = STANDBY_MODE
    /\ Z.land tx 0x07 = TX_MODE
    /\ regs s1 _RH_RF95_REG_01_OP_MODE = tx
    /\ 0 <= tx <= 255
    /\ 0 <= standby <= 255.
Proof.
  unfold load_fifo. intros Hrun.
  apply bind_ok_inv in Hrun as ([] & sa & Hidle & Hrun). unfold idle in Hidle.
  destruct (set_bits_cases operation_mode STANDBY_MODE s)
    as [[Hb1 Heq1]|[_ Heq1]]; rewrite Heq1 in Hidle; [|discriminate].
  injection Hidle as <-.
  apply bind_ok_inv in Hrun as ([] & sb & Hptr & Hrun).
  rewrite _write_u8_int in Hptr by lia. injection Hptr as <-.
  destruct (struct_pack (items_of tx_header)) as [header|] eqn:Hpack;
    [|discriminate].
  destruct (struct_pack_four _ _ Hpack) as (a & b & c & d & ->).
  apply bind_ok_inv in Hrun as ([] & sc & Hfifo & Hrun).
  match type of Hfifo with
  | _write_u8 ?r ?p ?st = _ =>
      destruct (_write_u8_cases r p st) as [[Hb2 Heq2]|[_ Heq2]];
        rewrite Heq2 in Hfifo; [|discriminate]
  end.
  injection Hfifo as <-.
  apply bind_ok_inv in Hrun as ([] & sd & Hlen & Hrun).
  match type of Hlen with
  | _write_u8 ?r ?p ?st = _ =>
      destruct (_write_u8_cases r p st) as [[Hb3 Heq3]|[_ Heq3]];
        rewrite Heq3 in Hlen; [|discriminate]
  end.
  injection Hlen as <-.
  apply bind_ok_inv in Hrun as ([] & se & Htx & Hrun). unfold transmit in Htx.
  apply bind_ok_inv in Htx as ([] & sf & Hmode & Hdio).
  match type of Hmode with
  | set_bits ?f ?v ?st = _ =>
      destruct (set_bits_cases f v st) as [[Hb4 Heq4]|[_ Heq4]];
        rewrite Heq4 in Hmode; [|discriminate]
  end.
  injection Hmode as <-.
  rewrite _write_u8_int in Hdio by lia. injection Hdio as <-.
  injection Hrun as <- <-.
  cbn [forallb] in Hb3. apply andb_true_iff in Hb3 as [Hb3 _].
  apply is_byte_true in Hb3.
  do 3 eexists.
  split; [reflexivity|]. split; [reflexivity|]. split; [exact Hb2|].
  split; [exact Hb3|]. split; [reflexivity|].
  split; [apply mode_byte_low_bits; unfold STANDBY_MODE; lia|].
  split; [apply mode_byte_low_bits; unfold TX_MODE; lia|].
  split; [reflexivity|]. split; [exact Hb4|exact Hb1].
Qed.

(** [send_load] returns only when the payload length was accepted, the
    header step returned and [load_fifo] returned. *)
Lemma send_load_ok_inv (data : list Z) (tx_header h : sequence)
      (s s1 : RFM9x) :
  send_load data tx_header s = (Ok h, s1) ->
  (0 < length data <= 252)%nat
  /\ exists (h' : sequence) (sa : RFM9x),
      xfers sa = xfers s /\ regs sa = regs s
      /\ load_fifo data h' sa = (Ok h, s1).
Proof.
  unfold send_load. intros Hrun.
  destruct (Z.ltb_spec 0 (Z.of_nat (length data))); [|discriminate].
  destruct (Z.leb_spec (Z.of_nat (length data)) 252); [|discriminate].
  cbn [andb negb] in Hrun.
  destruct (length (items_of tx_header) =? 4)%nat; [|discriminate].
  cbn [negb] in Hrun.
  apply bind_ok_inv in Hrun as (h' & sa & Hstep & Hrun).
  apply header_step_bus in Hstep as [Hx Hr].
  split; [lia|]. eauto.
Qed.

(** * The transmit timeout *)

(** The state after the chip has shown [flags] at a poll. *)
Lemma chip_tick_run (s : RFM9x) (flags : Z) (more : list Z) :
  irq_events s = flags :: more ->
  chip_tick s
  = (Ok tt, mkRFM9x (upd (regs s) _RH_RF95_REG_12_IRQ_FLAGS flags)
                    (burst s) (xfers s) (monotonic s) more
                    (high_power s) (receive_filter_address s)
                    (acks s) (last_sent_id s) (last_received_id s)).
Proof. intros H. unfold chip_tick. now rewrite H. Qed.

(** One turn of the loop in which [tx_done] reads 0. *)
Lemma wait_tx_done_turn (now : float) (later : list float)
      (start timeout : float) (flags : Z) (more : list Z) (s : RFM9x) :
  irq_events s = flags :: more ->
  Z.land flags _RH_RF95_TX_DONE = 0 ->
  wait_tx_done (now :: later) start timeout s
  = let s1 := mkRFM9x (upd (regs s) _RH_RF95_REG_12_IRQ_FLAGS flags)
                      (burst s) (xfers s) later more
                      (high_power s) (receive_filter_address s)
                      (acks s) (last_sent_id s) (last_received_id s) in
    if (timeout <=? now - start)%float then (Ok true, s1)
    else wait_tx_done later start timeout s1.
Proof.
  intros Hev Hclear. cbn [wait_tx_done].
  rewrite (bind_run _ _ _ _ _ (chip_tick_run s flags more Hev)).
  unfold bind at 1. rewrite get_bits_run. cbn [regs].
  unfold upd at 1. rewrite Z.eqb_refl.
  change (_mask tx_done) with _RH_RF95_TX_DONE. rewrite Hclear.
  change (Z.shiftr 0 (_offset tx_done) =? 0) with true. cbv iota.
  unfold bind at 1, modify. cbv zeta.
  destruct (timeout <=? now - start)%float; reflexivity.
Qed.

Lemma wait_tx_done_times_out (start timeout late : float) (rest : list float)
      (more : list Z) (quiet : list float) :
  forall (polls : list Z) (s : RFM9x),
    length polls = S (length quiet) ->
    Forall (fun flags => Z.land flags _RH_RF95_TX_DONE = 0) polls ->
    Forall (fun now => (timeout <=? now - start)%float = false) quiet ->
    (timeout <=? late - start)%float = true ->
    irq_events s = polls ++ more ->
    exists s',
      wait_tx_done (quiet ++ late :: rest) start timeout s = (Ok true, s')
      /\ env s' = (rest, more)
      /\ xfers s' = xfers s
      /\ (forall a, a <> _RH_RF95_REG_12_IRQ_FLAGS -> regs s' a = regs s a).
Proof.
  induction quiet as [|now quiet IH];
    intros polls s Hlen Hclear Hquiet Hlate Hev.
  - destruct polls as [|flags [|? ?]]; try discriminate.
    apply Forall_cons_1 in Hclear as [Hflags _].
    cbn [app] in *. rewrite (wait_tx_done_turn _ _ _ _ flags more) by assumption.
    cbv zeta. rewrite Hlate. eexists. split; [reflexivity|].
    repeat split. intros a Ha. cbn [regs]. unfold upd.
    destruct (Z.eqb_spec a _RH_RF95_REG_12_IRQ_FLAGS); [contradiction|reflexivity].
  - destruct polls as [|flags polls]; try discriminate.
    apply Forall_cons_1 in Hclear as [Hflags Hclear].
    apply Forall_cons_1 in Hquiet as [Hnow Hquiet].
    cbn [app] in *.
    rewrite (wait_tx_done_turn _ _ _ _ flags (polls ++ more)) by assumption.
    cbv zeta. rewrite Hnow.
    assert (Hlen' : length polls = S (length quiet))
      by (cbn [length] in Hlen; lia).
    match goal with
    | |- context [wait_tx_done _ _ _ ?st] =>
        destruct (IH polls st Hlen' Hclear Hquiet Hlate eq_refl)
          as (s' & Hrun & Henv & Hx & Hregs)
    end.
    exists s'. split; [exact Hrun|]. split; [exact Henv|].
    split; [exact Hx|]. intros a Ha. rewrite (Hregs a Ha). cbn [regs].
    unfold upd.
    destruct (Z.eqb_spec a _RH_RF95_REG_12_IRQ_FLAGS); [contradiction|reflexivity].
Qed.

(** The end of [send], once the wait is over: back to idle, the IRQ flags
    written, and the timeout raised if there was one. *)
Lemma send_wait_finish (timed_out : bool) (s2 : RFM9x) :
  0 <= regs s2 _RH_RF95_REG_01_OP_MODE <= 255 ->
  exists (s' : RFM9x) (mode_byte : Z),
    (idle ;;;
     _write_u8 _RH_RF95_REG_12_IRQ_FLAGS (IntPayload 0xFF) ;;;
     if timed_out : bool
     then raise (RuntimeError "Timeout during packet send")
     else ret tt) s2
    = (if timed_out then Raise (RuntimeError "Timeout during packet send")
       else Ok tt, s')
    /\ fst (get_bits operation_mode s') = Ok STANDBY_MODE
    /\ regs s' _RH_RF95_REG_12_IRQ_FLAGS = 0xFF
    /\ xfers s' = (0x92, [0xFF]) :: (0x81, [mode_byte]) :: xfers s2
    /\ Z.land mode_byte 0x07 = STANDBY_MODE
    /\ env s' = env s2
    /\ attributes s' = attributes s2
    /\ last_sent_id s' = last_sent_id s2.
Proof.
  intros Hbyte.
  destruct (mode_set_run STANDBY_MODE s2 ltac:(unfold STANDBY_MODE; lia) Hbyte)
    as (Hidle & Hw & Hlow).
  cbv zeta in Hidle, Hw, Hlow. unfold idle.
  rewrite (bind_run _ _ _ _ _ Hidle).
  rewrite (bind_run _ _ _ _ _ (_write_u8_int _ 0xFF _ ltac:(lia))).
  do 2 eexists. split; [destruct timed_out; reflexivity|].
  split.
  { rewrite get_bits_run. cbn [regs with_bus fst]. f_equal.
    exact (field_of_written _RH_RF95_REG_01_OP_MODE 0 3 eq_refl
             (regs s2 _RH_RF95_REG_01_OP_MODE) STANDBY_MODE
             ltac:(unfold STANDBY_MODE; simpl; lia)). }
  split; [reflexivity|]. split; [reflexivity|]. split; [exact Hlow|].
  repeat split.
Qed.

(** C9.  When [send] has loaded the packet and every poll of [tx_done] up
    to the first clock reading at or past the timeout reads 0, [send]
    raises 'Timeout during packet send'; by then it has written Standby
    into the mode field and 0xFF to the IRQ flags register, these being
    the last two transfers on the bus. *)
Theorem send_timeout_returns_to_idle
        (data : list Z) (timeout : float) (tx_header h : sequence)
        (s s1 : RFM9x) (start late : float) (quiet rest : list float)
        (polls more : list Z) :
  send_load data tx_header s = (Ok h, s1) ->
  monotonic s = start :: quiet ++ late :: rest ->
  irq_events s = polls ++ more ->
  length polls = S (length quiet) ->
  Forall (fun flags => Z.land flags _RH_RF95_TX_DONE = 0) polls ->
  Forall (fun now => (timeout <=? now - start)%float = false) quiet ->
  (timeout <=? late - start)%float = true ->
  exists s',
    send data timeout tx_header s
    = (Raise (RuntimeError "Timeout during packet send"), s')
    /\ fst (get_bits operation_mode s') = Ok STANDBY_MODE
    /\ regs s' _RH_RF95_REG_12_IRQ_FLAGS = 0xFF
    /\ (exists mode_byte,
           xfers s' = (0x92, [0xFF]) :: (0x81, [mode_byte]) :: xfers s1
           /\ Z.land mode_byte 0x07 = STANDBY_MODE)
    /\ env s' = (rest, more).
Proof.
  intros Hload Hclock Hev Hlen Hclear Hquiet Hlate.
  pose proof (send_load_keeps_env data tx_header s) as Henv.
  rewrite Hload in Henv. cbn [snd] in Henv. unfold env in Henv.
  injection Henv as Hclock1 Hev1. rewrite Hclock in Hclock1. rewrite Hev in Hev1.
  unfold send. rewrite (bind_run _ _ _ _ _ Hload).
  unfold send_wait, bind at 1, bind at 1, time_monotonic. rewrite Hclock1.
  unfold bind at 1, gets. cbn [monotonic with_env].
  destruct (wait_tx_done_times_out start timeout late rest more quiet polls
              (with_env s1 (quiet ++ late :: rest) (irq_events s1))
              Hlen Hclear Hquiet Hlate)
    as (s2 & Hwait & Henv2 & Hx2 & Hregs2); [exact Hev1|].
  unfold bind at 1. rewrite Hwait.
  destruct (send_load_ok_inv _ _ _ _ _ Hload) as (_ & h' & sa & _ & _ & Hfifo).
  destruct (load_fifo_ok_inv _ _ _ _ _ Hfifo)
    as (header & standby & tx & _ & _ & _ & _ & _ & _ & _ & Hmode1 & Htx & _).
  assert (Hbyte2 : 0 <= regs s2 _RH_RF95_REG_01_OP_MODE <= 255).
  { rewrite Hregs2 by discriminate. cbn [regs with_env]. now rewrite Hmode1. }
  destruct (send_wait_finish true s2 Hbyte2)
    as (s' & mode_byte & Hend & Hstandby & Hflags & Hx & Hlow & Henv' & _).
  exists s'. split; [now rewrite Hend|]. split; [exact Hstandby|].
  split; [exact Hflags|]. split.
  - exists mode_byte. split; [|exact Hlow]. now rewrite Hx, Hx2.
  - now rewrite Henv'.
Qed.

Lemma send_timeout_returns_to_idle_witness :
  exists s',
    send [0x68; 0x69] 2 (List [Int 2; Int 1; Int 0; Int 0]) never_done
    = (Raise (RuntimeError "Timeout during packet send"), s')
    /\ fst (get_bits operation_mode s') = Ok STANDBY_MODE
    /\ regs s' _RH_RF95_REG_12_IRQ_FLAGS = 0xFF
    /\ (exists mode_byte,
           xfers s'
           = (0x92, [0xFF]) :: (0x81, [mode_byte])
               :: xfers (snd (send_load [0x68; 0x69]
                                (List [Int 2; Int 1; Int 0; Int 0]) never_done))
           /\ Z.land mode_byte 0x07 = STANDBY_MODE)
    /\ env s' = ([], []).
Proof.
  apply (send_timeout_returns_to_idle
           [0x68; 0x69] 2 (List [Int 2; Int 1; Int 0; Int 0])
           (List [Int 2; Int 1; Int 1; Int 0]) never_done
           (snd (send_load [0x68; 0x69]
                   (List [Int 2; Int 1; Int 0; Int 0]) never_done))
           10 12.5 [10.5%float] [] [0; 0] []).
  - reflexivity.
  - reflexivity.
  - reflexivity.
  - reflexivity.
  - repeat constructor.
  - repeat constructor.
  - reflexivity.
Defined.

(** * Tuple headers *)

(** C2 (as amended).  When the payload length is in [1, 252] and the header
    is a tuple of four with id 0 -- the default header among them -- [send]
    raises [TypeError] at the assignment into the tuple and leaves the
    state as it found it: no mode change, no bus write, no id stored.  The
    allocation step completes on lists only, and on a list of four it does
    complete. *)
Theorem send_tuple_unset_id_raises
        (data : list Z) (items : list value) (timeout : float) (s : RFM9x) :
  (0 < length data <= 252)%nat ->
  length items = 4%nat ->
  items !! 2%nat = Some (Int 0) ->
  send data timeout (Tuple items) s = (Raise TypeError, s)
  /\ (forall (h h' : sequence) (s0 s' : RFM9x),
         allocate_id h s0 = (Ok h', s') -> exists l, h = List l)
  /\ (forall (to from flags : value) (s0 : RFM9x),
         exists h' s', allocate_id (List [to; from; Int 0; flags]) s0 = (Ok h', s')).
Proof.
  intros Hlen Hfour Hid. split; [|split].
  - unfold send. apply bind_raise.
    rewrite send_load_good_length by assumption.
    cbn [items_of]. rewrite Hid. apply bind_raise. reflexivity.
  - intros h h' s0 s' Halloc. destruct h as [l|l]; [discriminate|].
    now exists l.
  - intros to from flags s0. rewrite allocate_id_list. eauto.
Qed.

Lemma send_tuple_unset_id_raises_witness :
  send [0x68; 0x69] 2 default_tx_header never_done = (Raise TypeError, never_done)
  /\ xfers never_done = []
  /\ last_sent_id never_done = ∅.
Proof.
  split; [|split; reflexivity].
  exact (proj1 (send_tuple_unset_id_raises
                  [0x68; 0x69]
                  [Int _RH_BROADCAST_ADDRESS; Int _RH_BROADCAST_ADDRESS;
                   Int 0; Int 0]
                  2 never_done ltac:(simpl; lia) eq_refl eq_refl)).
Defined.

(** C2 as stated fails: with an empty payload and the default header the
    first assertion fails before the id allocation is reached, and the call
    raises [AssertionError], not [TypeError]. *)
Lemma send_empty_payload_default_header :
  send [] 2 default_tx_header never_done = (Raise AssertionError, never_done)
  /\ items_of default_tx_header !! 2%nat = Some (Int 0).
Proof. split; reflexivity. Qed.

(** * Duplicate suppression *)

Lemma listen_run (s : RFM9x) :
  holds_byte _RH_RF95_REG_01_OP_MODE s ->
  holds_byte _RH_RF95_REG_40_DIO_MAPPING1 s ->
  listen s
  = (Ok tt, snd (set_bits dio0_mapping 0 (snd (set_bits operation_mode RX_MODE s)))).
Proof.
  intros Hmode Hdio. unfold listen.
  pose proof (set_bits_ok _RH_RF95_REG_01_OP_MODE 0 3 RX_MODE s eq_refl
                ltac:(unfold RX_MODE; simpl; lia) Hmode) as Hrun1.
  pose proof (set_bits_holds_byte _RH_RF95_REG_40_DIO_MAPPING1 operation_mode
                RX_MODE s Hdio) as Hdio1.
  pose proof (set_bits_ok _RH_RF95_REG_40_DIO_MAPPING1 6 2 0 _ eq_refl
                ltac:(simpl; lia) Hdio1) as Hrun2.
  fold operation_mode in Hrun1. fold dio0_mapping in Hrun2.
  rewrite (bind_run _ _ _ _ _ Hrun1). exact Hrun2.
Qed.

Lemma listen_ok (s : RFM9x) :
  holds_byte _RH_RF95_REG_01_OP_MODE s ->
  holds_byte _RH_RF95_REG_40_DIO_MAPPING1 s ->
  listen s = (Ok tt, snd (listen s)).
Proof. intros Hmode Hdio. now rewrite listen_run by assumption. Qed.

Lemma listen_keeps_attributes : keeps attributes listen.
Proof.
  unfold listen.
  apply keeps_bind;
    [|intros _]; apply set_bits_keeps, attributes_attribute_only.
Qed.

Lemma listen_holds_byte (a : Z) : maintains (holds_byte a) listen.
Proof.
  unfold listen.
  apply maintains_bind; [|intros _]; apply set_bits_holds_byte.
Qed.

Lemma listen_enters_rx (s : RFM9x) :
  holds_byte _RH_RF95_REG_01_OP_MODE s ->
  holds_byte _RH_RF95_REG_40_DIO_MAPPING1 s ->
  fst (get_bits operation_mode (snd (listen s))) = Ok RX_MODE
  /\ fst (get_bits dio0_mapping (snd (listen s))) = Ok 0
  /\ attributes (snd (listen s)) = attributes s.
Proof.
  intros Hmode Hdio. split; [|split; [|apply listen_keeps_attributes]].
  - rewrite listen_run by assumption. cbn [snd].
    rewrite field_elsewhere_set by (cbn; discriminate).
    apply (field_after_set _RH_RF95_REG_01_OP_MODE 0 3);
      [reflexivity|unfold RX_MODE; simpl; lia|exact Hmode].
  - rewrite listen_run by assumption. cbn [snd].
    apply (field_after_set _RH_RF95_REG_40_DIO_MAPPING1 6 2);
      [reflexivity|simpl; lia|].
    now apply set_bits_holds_byte.
Qed.

Lemma acknowledge_keeps_attributes (header_from header_id header_flags : Z) :
  keeps attributes (acknowledge header_from header_id header_flags).
Proof.
  unfold acknowledge.
  apply keeps_bind; [apply keeps_gets|intros acks_on].
  apply keeps_bind; [apply keeps_gets|intros filter].
  destruct (acks_on && _); [|apply keeps_ret].
  apply keeps_bind; [apply send_keeps_attributes|intros _; apply keeps_ret].
Qed.

Lemma acknowledge_holds_byte (a header_from header_id header_flags : Z) :
  a <> _RH_RF95_REG_12_IRQ_FLAGS ->
  maintains (holds_byte a) (acknowledge header_from header_id header_flags).
Proof.
  intros Ha. unfold acknowledge.
  apply maintains_bind; [apply maintains_gets|intros acks_on].
  apply maintains_bind; [apply maintains_gets|intros filter].
  destruct (acks_on && _); [|apply maintains_ret].
  apply maintains_bind; [now apply send_holds_byte|intros _].
  apply maintains_ret.
Qed.

(** The header block, with the acknowledgement as one step. *)
Lemma receive_header_run
      (header_to header_from header_id header_flags : Z) (rest : list Z)
      (s : RFM9x) :
  receive_filter_address s = None \/ receive_filter_address s = Some header_to ->
  holds_byte _RH_RF95_REG_01_OP_MODE s ->
  holds_byte _RH_RF95_REG_40_DIO_MAPPING1 s ->
  receive_header (header_to :: header_from :: header_id :: header_flags :: rest) s
  = match acknowledge header_from header_id header_flags s with
    | (Raise e, s1) => (Raise e, s1)
    | (Ok _, s1) =>
        if bool_decide (last_received_id s1 !! header_from = Some header_id)
        then (Ok Returned, snd (listen s1))
        else (Ok (Payload rest),
              with_last_received_id s1
                (<[header_from := header_id]> (last_received_id s1)))
    end.
Proof.
  intros Hfilter Hmode Hdio.
  assert (Hpass : match receive_filter_address s with
                  | Some address => negb (header_to =? address)
                  | None => false
                  end = false).
  { destruct Hfilter as [-> | ->]; [reflexivity|]. now rewrite Z.eqb_refl. }
  pose proof (acknowledge_holds_byte _RH_RF95_REG_01_OP_MODE
                header_from header_id header_flags
                ltac:(cbv; discriminate) s Hmode) as Hmode1.
  pose proof (acknowledge_holds_byte _RH_RF95_REG_40_DIO_MAPPING1
                header_from header_id header_flags
                ltac:(cbv; discriminate) s Hdio) as Hdio1.
  change (acknowledge header_from header_id header_flags s)
    with ((if acks s && (Z.land header_flags FLAGS_ACK =? 0)
           then send [0x21] 2%float
                     (List [Int header_from;
                            match receive_filter_address s with
                            | Some a => Int a
                            | None => NoneVal
                            end;
                            Int header_id; Int FLAGS_ACK]) ;;; ret tt
           else ret tt) s) in Hmode1, Hdio1 |- *.
  unfold receive_header. unfold bind at 1, gets at 1. rewrite Hpass.
  unfold bind at 1, gets at 1.
  set (ack := if acks s && _ then _ else _) in *.
  unfold bind at 1.
  destruct (ack s) as [[[]|e] s1]; [|reflexivity].
  cbn [snd] in Hmode1, Hdio1.
  unfold bind at 1, gets at 1.
  destruct (bool_decide _); [|reflexivity].
  now rewrite (bind_run _ _ _ _ _ (listen_ok s1 Hmode1 Hdio1)).
Qed.

(** With CRC checking off, or the CRC-error flag clear, the CRC branch is
    not taken. *)
Lemma crc_check_passes {A} (bad good : M A) (s : RFM9x) :
  fst (enable_crc s) = Ok false \/ fst (get_bits crc_error s) = Ok 0 ->
  (crc_on <- enable_crc ;;
   crc_bad <- (if crc_on : bool then get_bits crc_error else ret 0) ;;
   if crc_on && negb (crc_bad =? 0) then bad else good) s
  = good s.
Proof.
  intros Hcrc. unfold bind at 1.
  destruct (enable_crc s) as [[crc_on|e] s0] eqn:Hon.
  - assert (s0 = s) as -> by (now inversion Hon).
    destruct crc_on.
    + destruct Hcrc as [Hoff|Hclear]; [discriminate|].
      unfold bind. destruct (get_bits crc_error s) as [[v|e] s1] eqn:Hv.
      * rewrite get_bits_run in Hv. injection Hv as <- <-.
        cbn [fst] in Hclear. injection Hclear as ->. reflexivity.
      * discriminate.
    + reflexivity.
  - discriminate.
Qed.

(** The two writes every reception that passes the CRC check makes
    first, on a chip whose current-address register reads as a byte. *)
Lemma fifo_read_eq (s : RFM9x) :
  holds_byte _RH_RF95_REG_10_FIFO_RX_CURRENT_ADDR s ->
  fifo_read s
  = with_bus s
      (upd (upd (regs s) _RH_RF95_REG_0D_FIFO_ADDR_PTR
                (regs s _RH_RF95_REG_10_FIFO_RX_CURRENT_ADDR))
           _RH_RF95_REG_12_IRQ_FLAGS 0xff)
      ((0x92, [0xff])
         :: (0x8d, [regs s _RH_RF95_REG_10_FIFO_RX_CURRENT_ADDR]) :: xfers s).
Proof.
  intros Hcur. unfold fifo_read.
  rewrite (_write_u8_int _ _ s Hcur). cbn [snd].
  rewrite _write_u8_int by lia. reflexivity.
Qed.

(** [receive_packet] on a chip that presents a packet: the FIFO pointer is
    set, the IRQ flags are written, and the header block runs on the bytes
    the FIFO answers with. *)
Lemma receive_packet_run
      (header_to header_from header_id header_flags : Z) (payload : list Z)
      (s : RFM9x) :
  presents s header_to header_from header_id header_flags payload ->
  holds_byte _RH_RF95_REG_10_FIFO_RX_CURRENT_ADDR s ->
  receive_packet true s
  = match
      receive_header
        (header_to :: header_from :: header_id :: header_flags :: payload)
        (fifo_read s)
    with
    | (Raise e, s1) => (Raise e, s1)
    | (Ok Returned, s1) => (Ok None, s1)
    | (Ok (Payload packet), s1) =>
        if match packet with [b] => b =? 0x21 | _ => false end
        then match listen s1 with
             | (Ok _, s2) => (Ok None, s2)
             | (Raise e, s2) => (Raise e, s2)
             end
        else match listen s1 with
             | (Ok _, s2) =>
                 (Ok (Some (mkPacket packet
                              (regs s _RH_RF95_REG_1A_PKT_RSSI_VALUE - 137)
                              (float_of_int (regs s _RH_RF95_REG_19_PKT_SNR_VALUE)
                               / 4)%float)), s2)
             | (Raise e, s2) => (Raise e, s2)
             end
    end.
Proof.
  intros (Hmode & Hdone & Hcrc & Hlen & Hfifo & _) Hcur.
  assert (Hmode' : Z.shiftr (Z.land (regs s (_address operation_mode))
                                    (_mask operation_mode))
                            (_offset operation_mode)
                   = _RH_RF95_MODE_RXCONTINUOUS).
  { rewrite get_bits_run in Hmode. cbn [fst] in Hmode.
    exact (f_equal (fun o => match o with Ok v => v | Raise _ => 0 end) Hmode). }
  unfold receive_packet.
  erewrite bind_run by reflexivity. cbv beta.
  erewrite bind_run by apply get_bits_run. cbv beta.
  rewrite Hmode', Z.eqb_refl.
  destruct (Z.eqb_spec (Z.land (regs s _RH_RF95_REG_12_IRQ_FLAGS)
                               _RH_RF95_RX_DONE) 0) as [Hz|_];
    [contradiction|].
  cbn [andb negb]. rewrite crc_check_passes by assumption.
  rewrite (fifo_read_eq s Hcur).
  erewrite bind_run by reflexivity. cbv beta.
  erewrite bind_run by reflexivity. cbv beta.
  rewrite (bind_run _ _ _ _ _ (_write_u8_int _ _ s Hcur)).
  erewrite bind_run by reflexivity. cbv beta.
  erewrite bind_run by reflexivity. cbv beta.
  erewrite bind_run by reflexivity. cbv beta.
  rewrite (bind_run _ _ _ _ _ (_write_u8_int _ 0xff _ ltac:(lia))).
  destruct (Z.leb_spec 4 (regs s _RH_RF95_REG_13_RX_NB_BYTES)); [|lia].
  cbn [andb]. rewrite repeat_length.
  assert (Hnot1 : (Z.to_nat (regs s _RH_RF95_REG_13_RX_NB_BYTES) =? 1)%nat = false)
    by (apply Nat.eqb_neq; lia).
  rewrite Hnot1. cbn [burst with_bus]. rewrite Hfifo.
  cbn [regs with_bus]. unfold upd at 1 2 3 4.
  cbn [Z.eqb Pos.eqb _RH_RF95_REG_1A_PKT_RSSI_VALUE
       _RH_RF95_REG_19_PKT_SNR_VALUE _RH_RF95_REG_0D_FIFO_ADDR_PTR].
  match goal with
  | |- _ ?st1 = (let (_, _) := receive_header _ ?st2 in _) =>
      change st1 with st2
  end.
  unfold bind at 1.
  match goal with
  | |- context [receive_header ?p ?st] =>
      destruct (receive_header p st) as [[[|packet]|e] s1]
  end; try reflexivity.
  cbn [andb]. destruct (match packet with [b] => b =? 0x21 | _ => false end);
    unfold bind, ret; destruct (listen s1) as [[[]|e] s2]; reflexivity.
Qed.

Lemma attributes_inv (s s' : RFM9x) :
  attributes s' = attributes s ->
  receive_filter_address s' = receive_filter_address s
  /\ acks s' = acks s
  /\ last_received_id s' = last_received_id s.
Proof. unfold attributes. intros [= _ Hf Ha Hl]. auto. Qed.

Lemma acknowledge_skipped (header_from header_id header_flags : Z) (s : RFM9x) :
  acks s = false \/ Z.land header_flags FLAGS_ACK <> 0 ->
  acknowledge header_from header_id header_flags s = (Ok tt, s).
Proof.
  intros Hskip. unfold acknowledge, bind, gets.
  destruct Hskip as [-> | Hflag]; [reflexivity|].
  destruct (Z.eqb_spec (Z.land header_flags FLAGS_ACK) 0); [contradiction|].
  now rewrite andb_false_r.
Qed.

Lemma not_pure_ack (payload : list Z) :
  payload <> [0x21] ->
  match payload with [b] => b =? 0x21 | _ => false end = false.
Proof.
  intros Hne. destruct payload as [|b [|? ?]]; try reflexivity.
  apply Z.eqb_neq. intros ->. now apply Hne.
Qed.

(** What the state after the first two writes keeps of the state before
    them. *)
Lemma fifo_read_frame (s : RFM9x) :
  attributes (fifo_read s) = attributes s
  /\ last_sent_id (fifo_read s) = last_sent_id s
  /\ env (fifo_read s) = env s
  /\ (forall a, a <> _RH_RF95_REG_12_IRQ_FLAGS -> holds_byte a s ->
                holds_byte a (fifo_read s)).
Proof.
  unfold fifo_read.
  split; [|split; [|split]].
  - rewrite !(_write_u8_keeps attributes attributes_attribute_only).
    reflexivity.
  - rewrite !(_write_u8_keeps last_sent_id last_sent_id_attribute_only).
    reflexivity.
  - rewrite !(_write_u8_keeps_bus env) by reflexivity. reflexivity.
  - intros a _ Ha. now apply _write_u8_holds_byte, _write_u8_holds_byte.
Qed.

(** Where the header block of a packet that is presented ends up: the
    state after the acknowledgement step, from which [listen] will go
    through. *)
Lemma receive_packet_header_step
      (header_to header_from header_id header_flags : Z) (payload : list Z)
      (s : RFM9x) :
  presents s header_to header_from header_id header_flags payload ->
  byte_regs s ->
  exists (o : outcome unit) (sa : RFM9x),
    acknowledge header_from header_id header_flags (fifo_read s) = (o, sa)
    /\ attributes sa = attributes s
    /\ holds_byte _RH_RF95_REG_01_OP_MODE sa
    /\ holds_byte _RH_RF95_REG_40_DIO_MAPPING1 sa
    /\ receive_packet true s
       = match o with
         | Raise e => (Raise e, sa)
         | Ok _ =>
             if bool_decide (last_received_id s !! header_from = Some header_id)
             then (Ok None, snd (listen sa))
             else
               let sb := with_last_received_id sa
                           (<[header_from := header_id]> (last_received_id s)) in
               if match payload with [b] => b =? 0x21 | _ => false end
               then (Ok None, snd (listen sb))
               else (Ok (Some (mkPacket payload
                                 (regs s _RH_RF95_REG_1A_PKT_RSSI_VALUE - 137)
                                 (float_of_int
                                    (regs s _RH_RF95_REG_19_PKT_SNR_VALUE)
                                  / 4)%float)),
                     snd (listen sb))
         end.
Proof.
  intros Hpresents Hbytes.
  rewrite (receive_packet_run _ _ _ _ _ _ Hpresents (Hbytes _)).
  destruct Hpresents as (_ & _ & _ & _ & _ & Hfilter).
  destruct (fifo_read_frame s) as (Hattr0 & _ & _ & Hbyte0).
  pose proof (Hbyte0 _RH_RF95_REG_01_OP_MODE ltac:(cbv; discriminate)
                (Hbytes _)) as Hmode0.
  pose proof (Hbyte0 _RH_RF95_REG_40_DIO_MAPPING1 ltac:(cbv; discriminate)
                (Hbytes _)) as Hdio0.
  rewrite receive_header_run; try assumption.
  2:{ apply attributes_inv in Hattr0 as (-> & _ & _). exact Hfilter. }
  pose proof (acknowledge_keeps_attributes header_from header_id header_flags
                (fifo_read s)) as Hattr.
  pose proof (acknowledge_holds_byte _RH_RF95_REG_01_OP_MODE
                header_from header_id header_flags
                ltac:(cbv; discriminate) _ Hmode0) as Hmode1.
  pose proof (acknowledge_holds_byte _RH_RF95_REG_40_DIO_MAPPING1
                header_from header_id header_flags
                ltac:(cbv; discriminate) _ Hdio0) as Hdio1.
  destruct (acknowledge header_from header_id header_flags (fifo_read s))
    as [o sa].
  cbn [snd] in Hattr, Hmode1, Hdio1. rewrite Hattr0 in Hattr.
  exists o, sa. split; [reflexivity|]. split; [exact Hattr|].
  split; [exact Hmode1|]. split; [exact Hdio1|].
  destruct o as [[]|e]; [|reflexivity].
  apply attributes_inv in Hattr as (_ & _ & Hseen). rewrite Hseen.
  destruct (bool_decide _); [reflexivity|].
  cbv zeta.
  rewrite (listen_ok (with_last_received_id sa
                        (<[header_from := header_id]> (last_received_id s))))
    by assumption.
  destruct (match payload with [b] => b =? 0x21 | _ => false end);
    reflexivity.
Qed.

(** The first of the two calls: a packet from a source whose last recorded
    id is another one. *)
Lemma receive_packet_fresh
      (header_to header_from header_id header_flags : Z) (payload : list Z)
      (s : RFM9x) (r1 : option Packet) (s1 : RFM9x) :
  presents s header_to header_from header_id header_flags payload ->
  byte_regs s ->
  last_received_id s !! header_from <> Some header_id ->
  payload <> [0x21] ->
  receive_packet true s = (Ok r1, s1) ->
  r1 = Some (mkPacket payload
               (regs s _RH_RF95_REG_1A_PKT_RSSI_VALUE - 137)
               (float_of_int (regs s _RH_RF95_REG_19_PKT_SNR_VALUE) / 4)%float)
  /\ last_received_id s1 = <[header_from := header_id]> (last_received_id s).
Proof.
  intros Hpresents Hbytes Hnew Hdata Hrun.
  destruct (receive_packet_header_step _ _ _ _ _ _ Hpresents Hbytes)
    as (o & sa & _ & Hattr & Hmode & Hdio & Heq).
  rewrite Heq in Hrun. destruct o as [[]|e]; [|discriminate].
  rewrite bool_decide_eq_false_2 in Hrun by exact Hnew.
  cbv zeta in Hrun. rewrite not_pure_ack in Hrun by assumption.
  injection Hrun as <- <-. split; [reflexivity|].
  pose proof (listen_keeps_attributes
                (with_last_received_id sa
                   (<[header_from := header_id]> (last_received_id s))))
    as Hkeep.
  apply attributes_inv in Hkeep as (_ & _ & Hl). exact Hl.
Qed.

(** The second of the two calls: the source's last recorded id is the
    packet's. *)
Lemma receive_packet_duplicate
      (header_to header_from header_id header_flags : Z) (payload : list Z)
      (s : RFM9x) (r2 : option Packet) (s3 : RFM9x) :
  presents s header_to header_from header_id header_flags payload ->
  byte_regs s ->
  last_received_id s !! header_from = Some header_id ->
  receive_packet true s = (Ok r2, s3) ->
  r2 = None
  /\ fst (get_bits operation_mode s3) = Ok RX_MODE
  /\ fst (get_bits dio0_mapping s3) = Ok 0
  /\ last_received_id s3 = last_received_id s.
Proof.
  intros Hpresents Hbytes Hseen0 Hrun.
  destruct (receive_packet_header_step _ _ _ _ _ _ Hpresents Hbytes)
    as (o & sa & _ & Hattr & Hmode & Hdio & Heq).
  rewrite Heq in Hrun. destruct o as [[]|e]; [|discriminate].
  rewrite bool_decide_eq_true_2 in Hrun by exact Hseen0.
  injection Hrun as <- <-. split; [reflexivity|].
  destruct (listen_enters_rx sa Hmode Hdio) as (Hrx & Hdio0 & Hkeep).
  apply attributes_inv in Hkeep as (_ & _ & Hl).
  apply attributes_inv in Hattr as (_ & _ & Hl0).
  repeat split; [exact Hrx|exact Hdio0|]. now rewrite Hl.
Qed.

(** With acknowledgements off, or for a packet that is flagged as one, the
    call sends nothing and returns. *)
Lemma receive_packet_returns
      (header_to header_from header_id header_flags : Z) (payload : list Z)
      (s : RFM9x) :
  presents s header_to header_from header_id header_flags payload ->
  byte_regs s ->
  acks s = false \/ Z.land header_flags FLAGS_ACK <> 0 ->
  exists r s', receive_packet true s = (Ok r, s').
Proof.
  intros Hpresents Hbytes Hskip.
  destruct (receive_packet_header_step _ _ _ _ _ _ Hpresents Hbytes)
    as (o & sa & Hack & _ & _ & _ & ->).
  rewrite acknowledge_skipped in Hack.
  2:{ destruct (fifo_read_frame s) as (Hattr0 & _).
      apply attributes_inv in Hattr0 as (_ & -> & _). exact Hskip. }
  injection Hack as <- _.
  destruct (bool_decide _); [eauto|]. cbv zeta.
  destruct (match payload with [b] => b =? 0x21 | _ => false end); eauto.
Qed.

(** C10 (as amended).  Take two consecutive calls of [receive_packet] that
    each parse a header with the same [(from, id)] and pass the address
    filter, on a chip whose registers read as bytes, where before the
    first call the id recorded for [from] is not [id] and the first payload
    is not the single byte 0x21.  Whenever the calls raise nothing (they
    cannot with acknowledgements off): the first records
    [last_received_id[from] = id] and returns the packet, and the second
    returns nothing, leaves the chip in listen mode and the table as it
    was. *)
Theorem duplicate_packet_delivered_once
        (s : RFM9x) (header_to header_from header_id header_flags : Z)
        (payload : list Z) :
  presents s header_to header_from header_id header_flags payload ->
  byte_regs s ->
  last_received_id s !! header_from <> Some header_id ->
  payload <> [0x21] ->
  (acks s = false \/ Z.land header_flags FLAGS_ACK <> 0 ->
   exists r1 s1, receive_packet true s = (Ok r1, s1))
  /\ forall (r1 : option Packet) (s1 : RFM9x),
      receive_packet true s = (Ok r1, s1) ->
      r1 = Some (mkPacket payload
                   (regs s _RH_RF95_REG_1A_PKT_RSSI_VALUE - 137)
                   (float_of_int (regs s _RH_RF95_REG_19_PKT_SNR_VALUE) / 4)%float)
      /\ last_received_id s1 = <[header_from := header_id]> (last_received_id s)
      /\ forall (r : Z -> Z) (b : Z -> nat -> list Z)
                (clk : list float) (ev : list Z)
                (header_to' header_flags' : Z) (payload' : list Z),
          presents (with_chip s1 r b clk ev)
                   header_to' header_from header_id header_flags' payload' ->
          byte_regs (with_chip s1 r b clk ev) ->
          (acks s = false \/ Z.land header_flags' FLAGS_ACK <> 0 ->
           exists r2 s3,
             receive_packet true (with_chip s1 r b clk ev) = (Ok r2, s3))
          /\ forall (r2 : option Packet) (s3 : RFM9x),
              receive_packet true (with_chip s1 r b clk ev) = (Ok r2, s3) ->
              r2 = None
              /\ fst (get_bits operation_mode s3) = Ok RX_MODE
              /\ fst (get_bits dio0_mapping s3) = Ok 0
              /\ last_received_id s3 = last_received_id s1.
Proof.
  intros Hpresents Hbytes Hnew Hdata. split.
  { now apply (receive_packet_returns header_to header_from header_id
                 header_flags payload). }
  intros r1 s1 Hfirst.
  destruct (receive_packet_fresh _ _ _ _ _ _ _ _ Hpresents Hbytes Hnew Hdata
              Hfirst) as [Hr1 Hs1].
  split; [exact Hr1|]. split; [exact Hs1|].
  intros r b clk ev header_to' header_flags' payload' Hagain Hbytes'. split.
  { intros Hskip.
    apply (receive_packet_returns header_to' header_from header_id
             header_flags' payload'); [exact Hagain|exact Hbytes'|].
    destruct Hskip as [Hoff|Hflag]; [left|now right].
    pose proof (receive_packet_header_step _ _ _ _ _ _ Hpresents Hbytes)
      as (o & sa & _ & Hattr & Hmode & Hdio & Heq).
    rewrite Hfirst in Heq. apply attributes_inv in Hattr as (_ & Hacks & _).
    cbn [acks with_chip]. rewrite <- Hoff, <- Hacks.
    destruct o as [[]|e]; [|discriminate].
    destruct (bool_decide _);
      [|cbv zeta in Heq;
        destruct (match payload with [b] => b =? 0x21 | _ => false end)];
      injection Heq as _ ->;
      match goal with
      | |- acks (snd (listen ?st)) = _ =>
          pose proof (listen_keeps_attributes st) as Hl;
          apply attributes_inv in Hl as (_ & Hl & _); exact Hl
      end. }
  intros r2 s3 Hsecond.
  apply (receive_packet_duplicate _ _ _ _ _ _ _ _ Hagain Hbytes');
    [|exact Hsecond].
  cbn [last_received_id with_chip]. rewrite Hs1. apply lookup_insert_eq.
Qed.

Lemma byte_regs_holding (packet : list Z) :
  (length packet <= 255)%nat -> byte_regs (holding packet).
Proof.
  intros Hlen a. unfold holds_byte, holding, rx_regs. cbn [regs with_chip].
  repeat match goal with
         | |- context [if ?c then _ else _] => destruct c
         end; lia.
Qed.

(** A packet from 5 with id 7 and payload "hi", twice: delivered once. *)
Lemma duplicate_packet_delivered_once_witness :
  let packet := [255; 5; 7; 0; 0x68; 0x69] in
  let s1 := snd (receive_packet true (holding packet)) in
  let s2 := with_chip s1 (rx_regs packet) (fun _ _ => packet) [] [] in
  fst (receive_packet true (holding packet))
  = Ok (Some (mkPacket [0x68; 0x69] (-37) 10))
  /\ last_received_id s1 = {[ 5 := 7 ]}
  /\ fst (receive_packet true s2) = Ok None
  /\ fst (get_bits operation_mode (snd (receive_packet true s2))) = Ok RX_MODE.
Proof.
  intros packet s1 s2.
  assert (Hholds : presents (holding packet) 255 5 7 0 [0x68; 0x69]).
  { repeat split; try reflexivity; try discriminate. now left. now right. }
  assert (Hbytes : byte_regs (holding packet))
    by (apply byte_regs_holding; simpl; lia).
  destruct (duplicate_packet_delivered_once (holding packet) 255 5 7 0
              [0x68; 0x69] Hholds Hbytes ltac:(discriminate)
              ltac:(discriminate))
    as [_ Hpair].
  destruct (Hpair (Some (mkPacket [0x68; 0x69] (-37) 10)) s1 eq_refl)
    as (Hr1 & Hs1 & Hnext).
  assert (Hagain : presents s2 255 5 7 0 [0x68; 0x69]).
  { repeat split; try reflexivity; try discriminate. now left. now right. }
  assert (Hbytes2 : byte_regs s2)
    by (exact (byte_regs_holding packet ltac:(simpl; lia))).
  destruct (Hnext (rx_regs packet) (fun _ _ => packet) [] [] 255 0
                  [0x68; 0x69] Hagain Hbytes2) as [_ Hdup].
  destruct (Hdup None (snd (receive_packet true s2)) eq_refl)
    as (_ & Hmode & _ & _).
  split; [reflexivity|]. split; [exact Hs1|]. split; [reflexivity|exact Hmode].
Defined.

(** C10 as stated fails: two consecutive calls that both parse the header
    (to 255, from 5, id 7) of a packet whose payload is the single byte
    0x21 pass the filter, and neither returns a packet: the first records
    the id and drops the packet as a pure acknowledgement, the second drops
    it as a duplicate. *)
Lemma pure_ack_pair_delivers_nothing :
  let packet := [255; 5; 7; 0x80; 0x21] in
  let s := holding packet in
  let s1 := snd (receive_packet true s) in
  let s2 := with_chip s1 (rx_regs packet) (fun _ _ => packet) [] [] in
  (presents s 255 5 7 0x80 [0x21] /\ last_received_id s = ∅)
  /\ fst (receive_packet true s) = Ok None
  /\ last_received_id s1 !! 5 = Some 7
  /\ presents s2 255 5 7 0x80 [0x21]
  /\ fst (receive_packet true s2) = Ok None.
Proof.
  intros packet s s1 s2.
  repeat split; try reflexivity; try discriminate; try (now left); now right.
Qed.

(** * Sequence ids on a list header *)

Lemma load_fifo_returns_header (data : list Z) (tx_header h : sequence)
      (s s' : RFM9x) :
  load_fifo data tx_header s = (Ok h, s') -> h = tx_header.
Proof.
  intros Hrun.
  now destruct (load_fifo_ok_inv _ _ _ _ _ Hrun) as (? & ? & ? & -> & _).
Qed.

(** X1.  With a list header of four whose id is 0, [send] allocates the next id
    for the destination -- one more than the last id used for it, 1 for a
    new destination, and 1 again where the increment reaches 254 -- and
    whatever happens to the transmission the id stays in [last_sent_id]; a
    call that returns has left that id in the caller's list. *)
Theorem send_list_header_allocates_id
        (data : list Z) (timeout : float) (to from flags : value) (s : RFM9x) :
  (0 < length data <= 252)%nat ->
  let next := default 0 (last_sent_id s !! to) + 1 in
  let allocated := if next <? 254 then next else 1 in
  last_sent_id (snd (send data timeout (List [to; from; Int 0; flags]) s))
  = <[to := allocated]> (last_sent_id s)
  /\ forall (h : sequence) (s' : RFM9x),
      send data timeout (List [to; from; Int 0; flags]) s = (Ok h, s') ->
      h = List [to; from; Int allocated; flags].
Proof.
  intros Hlen next allocated.
  set (sa := with_last_sent_id s (<[to := allocated]> (last_sent_id s))).
  assert (Hload : send_load data (List [to; from; Int 0; flags]) s
                  = load_fifo data (List [to; from; Int allocated; flags]) sa).
  { rewrite send_load_good_length by (assumption || reflexivity).
    cbn [items_of].
    change ([to; from; Int 0; flags] !! 2%nat) with (Some (Int 0)).
    erewrite bind_run by apply allocate_id_list. reflexivity. }
  assert (Hsend : send data timeout (List [to; from; Int 0; flags]) s
                  = (h <- load_fifo data (List [to; from; Int allocated; flags]) ;;
                     send_wait timeout ;;; ret h) sa).
  { unfold send, bind at 1. rewrite Hload. reflexivity. }
  rewrite Hsend. clear Hsend Hload.
  pose proof (load_fifo_keeps last_sent_id last_sent_id_attribute_only data
                (List [to; from; Int allocated; flags]) sa) as Hfill.
  unfold bind, ret.
  destruct (load_fifo data _ sa) as [[h1|e] s1] eqn:Hrun; cbn [snd] in Hfill.
  - apply load_fifo_returns_header in Hrun as ->.
    pose proof (send_wait_keeps last_sent_id last_sent_id_attribute_only
                  timeout s1) as Hwait.
    destruct (send_wait timeout s1) as [[[]|e] s2];
      cbn [snd] in Hwait |- *;
      (split; [etransitivity; [exact Hwait|exact Hfill]|]).
    + intros h s' Heq. now inversion Heq.
    + discriminate.
  - cbn [snd]. split; [exact Hfill|discriminate].
Qed.

Lemma send_list_header_allocates_id_witness :
  last_sent_id
    (snd (send [0x68; 0x69] 2 (List [Int 2; Int 1; Int 0; Int 0]) never_done))
  = {[ Int 2 := 1 ]}.
Proof.
  exact (proj1 (send_list_header_allocates_id
                  [0x68; 0x69] 2 (Int 2) (Int 1) (Int 0) never_done
                  ltac:(simpl; lia))).
Defined.

(** * Bytes, bit by bit *)

Lemma byte_high_bit (c n : Z) : 0 <= c < 256 -> 8 <= n -> Z.testbit c n = false.
Proof. intros Hc Hn. apply (in_width_testbit 8); simpl; lia. Qed.

Ltac close_consts :=
  repeat match goal with
  | |- context [Z.shiftl (Z.pos ?p) (Z.pos ?q)] =>
      let v := eval vm_compute in (Z.shiftl (Z.pos p) (Z.pos q)) in
      change (Z.shiftl (Z.pos p) (Z.pos q)) with v
  | |- context [Z.land (Z.pos ?p) (Z.pos ?q)] =>
      let v := eval vm_compute in (Z.land (Z.pos p) (Z.pos q)) in
      change (Z.land (Z.pos p) (Z.pos q)) with v
  end.

Ltac const_testbits :=
  repeat match goal with
  | |- context [Z.testbit (Z.pos ?p) ?n] =>
      let b := eval vm_compute in (Z.testbit (Z.pos p) n) in
      lazymatch b with
      | true => change (Z.testbit (Z.pos p) n) with true
      | false => change (Z.testbit (Z.pos p) n) with false
      end
  | |- context [Z.testbit 0 ?n] => rewrite (Z.testbit_0_l n)
  end.

Ltac high_testbits :=
  repeat match goal with
  | |- context [Z.testbit (Z.pos ?p) ?n] =>
      rewrite (byte_high_bit (Z.pos p) n) by lia
  | |- context [Z.testbit 0 ?n] => rewrite (Z.testbit_0_l n)
  end.

Ltac var_testbits :=
  repeat match goal with
  | |- context [Z.testbit ?r ?n] => is_var r; destruct (Z.testbit r n)
  end.

(** An equation between bytes built from one unknown integer and byte
    constants with [land], [lor] and [shiftr]: bits 0 to 7 one by one, and
    all the bits from 8 up at once. *)
Ltac byte_blast :=
  close_consts;
  apply Z.bits_inj';
  let i := fresh "i" in
  let Hi := fresh "Hi" in
  intros i Hi;
  repeat rewrite ?Z.shiftr_spec, ?Z.land_spec, ?Z.lor_spec by lia;
  let H := fresh "H" in
  destruct (Z.lt_ge_cases i 8) as [H|H];
  [ assert (i = 0 \/ i = 1 \/ i = 2 \/ i = 3 \/ i = 4 \/ i = 5 \/ i = 6 \/ i = 7)
      as [->|[->|[->|[->|[->|[->|[->| ->]]]]]]] by lia;
    simpl Z.add; const_testbits; var_testbits; reflexivity
  | high_testbits;
    rewrite ?andb_false_r, ?orb_false_r, ?andb_false_l; reflexivity ].

(** * The modem configuration registers *)

Lemma coding_rate_field (r c : Z) :
  1 <= c <= 4 ->
  Z.shiftr (Z.land (Z.lor (Z.land r 0xf1) (Z.shiftl c 1)) 0x0e) 1 = c.
Proof.
  intros Hc.
  assert (c = 1 \/ c = 2 \/ c = 3 \/ c = 4) as [->|[->|[->| ->]]] by lia;
    byte_blast.
Qed.

Lemma coding_rate_beside_bandwidth (r c : Z) :
  1 <= c <= 4 ->
  Z.shiftr (Z.land (Z.lor (Z.land r 0xf1) (Z.shiftl c 1)) 0xf0) 4
  = Z.shiftr (Z.land r 0xf0) 4.
Proof.
  intros Hc.
  assert (c = 1 \/ c = 2 \/ c = 3 \/ c = 4) as [->|[->|[->| ->]]] by lia;
    byte_blast.
Qed.

Lemma bandwidth_beside_coding_rate (r b : Z) :
  0 <= b <= 9 ->
  Z.shiftr (Z.land (Z.lor (Z.land r 0x0f) (Z.shiftl b 4)) 0x0e) 1
  = Z.shiftr (Z.land r 0x0e) 1.
Proof.
  intros Hb.
  assert (b = 0 \/ b = 1 \/ b = 2 \/ b = 3 \/ b = 4 \/ b = 5 \/ b = 6 \/ b = 7
          \/ b = 8 \/ b = 9)
    as [->|[->|[->|[->|[->|[->|[->|[->|[->| ->]]]]]]]]] by lia;
    byte_blast.
Qed.

(** X3.  The coding-rate setter clamps its argument to [5, 8]: the getter
    then reads the clamped denominator, and the bandwidth held in the same
    register reads as before. *)
Lemma set_coding_rate_run (val : Z) (s : RFM9x) :
  let written := Z.lor (Z.land (regs s _RH_RF95_REG_1D_MODEM_CONFIG1) 0xf1)
                       (Z.shiftl (Z.min (Z.max val 5) 8 - 4) 1) in
  set_coding_rate val s
  = (Ok tt,
     with_bus s (upd (regs s) _RH_RF95_REG_1D_MODEM_CONFIG1 written)
              ((0x9d, [written]) :: xfers s)).
Proof.
  cbv zeta. unfold set_coding_rate, bind, _read_u8, gets. cbv zeta.
  rewrite _write_u8_int; [reflexivity|].
  apply lor_byte; [apply land_byte; lia|].
  rewrite Z.shiftl_mul_pow2 by lia. change (2 ^ 1) with 2. lia.
Qed.

Theorem coding_rate_set_then_get (val : Z) (s : RFM9x) :
  let s' := snd (set_coding_rate val s) in
  fst (set_coding_rate val s) = Ok tt
  /\ fst (coding_rate s') = Ok (Z.min (Z.max val 5) 8)
  /\ fst (signal_bandwidth s') = fst (signal_bandwidth s)
  /\ (forall a, a <> _RH_RF95_REG_1D_MODEM_CONFIG1 -> regs s' a = regs s a).
Proof.
  intros s'. subst s'.
  set (c := Z.min (Z.max val 5) 8 - 4).
  assert (Hc : 1 <= c <= 4) by (subst c; lia).
  assert (Hreg : regs (snd (set_coding_rate val s)) _RH_RF95_REG_1D_MODEM_CONFIG1
                 = Z.lor (Z.land (regs s _RH_RF95_REG_1D_MODEM_CONFIG1) 0xf1)
                         (Z.shiftl c 1))
    by (rewrite set_coding_rate_run; cbn [snd regs with_bus]; unfold upd;
        now rewrite Z.eqb_refl).
  split; [now rewrite set_coding_rate_run|]. split; [|split].
  - unfold coding_rate, bind, _read_u8, gets, ret. cbn [fst].
    rewrite Hreg, coding_rate_field by exact Hc. f_equal. subst c. lia.
  - unfold signal_bandwidth, bind, _read_u8, gets. cbn [fst].
    rewrite Hreg, coding_rate_beside_bandwidth by exact Hc.
    destruct (_ <=? _); reflexivity.
  - intros a Ha. rewrite set_coding_rate_run. cbn [snd regs with_bus].
    unfold upd.
    destruct (Z.eqb_spec a _RH_RF95_REG_1D_MODEM_CONFIG1); [contradiction|].
    reflexivity.
Qed.

(** X4.  The bandwidth setter leaves the coding rate, held in the same
    register, as it reads. *)
Theorem signal_bandwidth_keeps_coding_rate (val : Z) (s : RFM9x) :
  fst (coding_rate (snd (set_signal_bandwidth val s))) = fst (coding_rate s).
Proof.
  rewrite set_signal_bandwidth_run.
  unfold coding_rate, bind, _read_u8, gets, ret.
  cbn [fst snd regs with_bus]. unfold upd. rewrite Z.eqb_refl.
  now rewrite bandwidth_beside_coding_rate by apply select_bw_id_range.
Qed.

Lemma spreading_factor_field (r v : Z) :
  6 <= v <= 12 ->
  Z.shiftr (Z.land (Z.lor (Z.land r 0x0f) (Z.land (Z.shiftl v 4) 0xf0)) 0xf0) 4
  = v.
Proof.
  intros Hv.
  assert (v = 6 \/ v = 7 \/ v = 8 \/ v = 9 \/ v = 10 \/ v = 11 \/ v = 12)
    as [->|[->|[->|[->|[->|[->| ->]]]]]] by lia;
    byte_blast.
Qed.

Lemma spreading_factor_beside_low_nibble (r v : Z) :
  6 <= v <= 12 ->
  Z.land (Z.lor (Z.land r 0x0f) (Z.land (Z.shiftl v 4) 0xf0)) 0x0f
  = Z.land r 0x0f.
Proof.
  intros Hv.
  assert (v = 6 \/ v = 7 \/ v = 8 \/ v = 9 \/ v = 10 \/ v = 11 \/ v = 12)
    as [->|[->|[->|[->|[->|[->| ->]]]]]] by lia;
    byte_blast.
Qed.

Lemma crc_bit_of_low_nibble (r r' : Z) :
  Z.land r' 0x0f = Z.land r 0x0f -> Z.land r' 0x04 = Z.land r 0x04.
Proof.
  intros Hlow.
  replace (Z.land r' 0x04) with (Z.land (Z.land r' 0x0f) 0x04)
    by (rewrite <- Z.land_assoc; reflexivity).
  rewrite Hlow, <- Z.land_assoc. reflexivity.
Qed.

(** X5.  The spreading-factor setter clamps its argument to [6, 12]: the
    getter then reads the clamped value, the detection registers 0x31 and
    0x37 hold 0xc5 and 0x0c when it is 6 and 0xc3 and 0x0a otherwise, and
    the low nibble of the register -- the CRC switch with it -- is as
    before. *)
Lemma set_spreading_factor_run (val : Z) (s : RFM9x) :
  let sf := Z.min (Z.max val 6) 12 in
  let detect := if sf =? 6 then 0xc5 else 0xc3 in
  let threshold := if sf =? 6 then 0x0c else 0x0a in
  let regs2 := upd (upd (regs s) 0x31 detect) 0x37 threshold in
  let written := Z.lor (Z.land (regs2 _RH_RF95_REG_1E_MODEM_CONFIG2) 0x0f)
                       (Z.land (Z.shiftl sf 4) 0xf0) in
  set_spreading_factor val s
  = (Ok tt,
     with_bus s (upd regs2 _RH_RF95_REG_1E_MODEM_CONFIG2 written)
              ((0x9e, [written]) :: (0xb7, [threshold]) :: (0xb1, [detect])
               :: xfers s)).
Proof.
  cbv zeta. unfold set_spreading_factor. cbv zeta.
  erewrite bind_run
    by (apply _write_u8_int; destruct (_ =? 6); lia).
  erewrite bind_run
    by (apply _write_u8_int; destruct (_ =? 6); lia).
  unfold bind, _read_u8, gets.
  rewrite _write_u8_int; [reflexivity|].
  apply lor_byte; apply land_byte; lia.
Qed.

Theorem spreading_factor_set_then_get (val : Z) (s : RFM9x) :
  let sf := Z.min (Z.max val 6) 12 in
  let s' := snd (set_spreading_factor val s) in
  fst (set_spreading_factor val s) = Ok tt
  /\ fst (spreading_factor s') = Ok sf
  /\ regs s' 0x31 = (if sf =? 6 then 0xc5 else 0xc3)
  /\ regs s' 0x37 = (if sf =? 6 then 0x0c else 0x0a)
  /\ Z.land (regs s' _RH_RF95_REG_1E_MODEM_CONFIG2) 0x0f
     = Z.land (regs s _RH_RF95_REG_1E_MODEM_CONFIG2) 0x0f
  /\ fst (enable_crc s') = fst (enable_crc s).
Proof.
  intros sf s'.
  assert (Hsf : 6 <= sf <= 12) by (subst sf; lia).
  assert (Hreg : regs s' _RH_RF95_REG_1E_MODEM_CONFIG2
                 = Z.lor (Z.land (regs s _RH_RF95_REG_1E_MODEM_CONFIG2) 0x0f)
                         (Z.land (Z.shiftl sf 4) 0xf0))
    by (subst s'; rewrite set_spreading_factor_run; reflexivity).
  assert (Hlow : Z.land (regs s' _RH_RF95_REG_1E_MODEM_CONFIG2) 0x0f
                 = Z.land (regs s _RH_RF95_REG_1E_MODEM_CONFIG2) 0x0f)
    by (rewrite Hreg; now apply spreading_factor_beside_low_nibble).
  split; [now rewrite set_spreading_factor_run|].
  split; [|split; [|split; [|split]]].
  - unfold spreading_factor, bind, _read_u8, gets, ret. cbn [fst].
    now rewrite Hreg, spreading_factor_field.
  - subst s'. rewrite set_spreading_factor_run. reflexivity.
  - subst s'. rewrite set_spreading_factor_run. reflexivity.
  - exact Hlow.
  - unfold enable_crc, bind, _read_u8, gets, ret. cbn [fst].
    now rewrite (crc_bit_of_low_nibble _ _ Hlow).
Qed.

Lemma crc_on_bit (r : Z) : Z.land (Z.lor r 0x04) 0x04 = 0x04.
Proof. byte_blast. Qed.

Lemma crc_off_bit (r : Z) : Z.land (Z.land r 0xfb) 0x04 = 0.
Proof. byte_blast. Qed.

Lemma crc_on_beside_spreading_factor (r : Z) :
  Z.shiftr (Z.land (Z.lor r 0x04) 0xf0) 4 = Z.shiftr (Z.land r 0xf0) 4.
Proof. byte_blast. Qed.

Lemma crc_off_beside_spreading_factor (r : Z) :
  Z.shiftr (Z.land (Z.land r 0xfb) 0xf0) 4 = Z.shiftr (Z.land r 0xf0) 4.
Proof. byte_blast. Qed.

Lemma set_enable_crc_run (val : bool) (s : RFM9x) :
  (val = true -> holds_byte _RH_RF95_REG_1E_MODEM_CONFIG2 s) ->
  let reg := regs s _RH_RF95_REG_1E_MODEM_CONFIG2 in
  let written := if val then Z.lor reg 0x04 else Z.land reg 0xfb in
  set_enable_crc val s
  = (Ok tt,
     with_bus s (upd (regs s) _RH_RF95_REG_1E_MODEM_CONFIG2 written)
              ((0x9e, [written]) :: xfers s)).
Proof.
  unfold holds_byte. intros Hreg. cbv zeta.
  unfold set_enable_crc, bind, _read_u8, gets.
  destruct val.
  - specialize (Hreg eq_refl).
    rewrite _write_u8_int; [reflexivity|]. apply lor_byte; lia.
  - rewrite _write_u8_int; [reflexivity|]. apply land_byte; lia.
Qed.

(** X6.  The CRC switch reads back as it was set, and setting it leaves
    the spreading factor, held in the same register, and every other
    register as they read.  Switching it off always goes through;
    switching it on does on a chip whose configuration register 0x1E
    reads as a byte. *)
Theorem enable_crc_set_then_get (val : bool) (s : RFM9x) :
  (val = true -> holds_byte _RH_RF95_REG_1E_MODEM_CONFIG2 s) ->
  let s' := snd (set_enable_crc val s) in
  fst (set_enable_crc val s) = Ok tt
  /\ fst (enable_crc s') = Ok val
  /\ fst (spreading_factor s') = fst (spreading_factor s)
  /\ (forall a, a <> _RH_RF95_REG_1E_MODEM_CONFIG2 -> regs s' a = regs s a).
Proof.
  intros Hbyte s'. subst s'. rewrite (set_enable_crc_run val s Hbyte).
  unfold enable_crc, spreading_factor, bind, _read_u8, gets, ret.
  destruct val; cbn [fst snd regs with_bus]; unfold upd;
    rewrite ?Z.eqb_refl.
  - rewrite crc_on_bit, crc_on_beside_spreading_factor.
    repeat split. intros a Ha.
    destruct (Z.eqb_spec a _RH_RF95_REG_1E_MODEM_CONFIG2); [contradiction|].
    reflexivity.
  - rewrite crc_off_bit, crc_off_beside_spreading_factor.
    repeat split. intros a Ha.
    destruct (Z.eqb_spec a _RH_RF95_REG_1E_MODEM_CONFIG2); [contradiction|].
    reflexivity.
Qed.

Lemma enable_crc_set_then_get_witness :
  fst (enable_crc (snd (set_enable_crc true (after_init (fun _ => 0x70)))))
  = Ok true
  /\ fst (enable_crc (snd (set_enable_crc false (after_init (fun _ => 0x74)))))
     = Ok false
  /\ fst (spreading_factor
            (snd (set_enable_crc true (after_init (fun _ => 0x70)))))
     = Ok 7.
Proof.
  pose proof (enable_crc_set_then_get true (after_init (fun _ => 0x70))
                (fun _ => byte_regs_after_init 0x70 ltac:(lia) _))
    as (_ & Hon & Hsf & _).
  pose proof (enable_crc_set_then_get false (after_init (fun _ => 0x74))
                ltac:(discriminate))
    as (_ & Hoff & _).
  split; [exact Hon|]. split; [exact Hoff|]. rewrite Hsf. reflexivity.
Defined.

(** * Preamble length *)

Lemma preamble_bytes_recombine (val : Z) :
  0 <= val <= 65535 ->
  Z.land (Z.lor (Z.shiftl (Z.land (Z.shiftr val 8) 0xFF) 8) (Z.land val 0xFF))
         0xFFFF
  = val.
Proof.
  intros Hval. apply Z.bits_inj'. intros i Hi.
  change 0xFFFF with (Z.ones 16). change 0xFF with (Z.ones 8).
  rewrite Z.land_spec, Z.lor_spec, Z.shiftl_spec, !Z.land_spec,
    !Z.testbit_ones by lia.
  destruct (Z.lt_ge_cases i 8) as [H8|H8];
    [|destruct (Z.lt_ge_cases i 16) as [H16|H16]].
  - rewrite !(Z.testbit_neg_r _ (i - 8)) by lia.
    destruct (Z.leb_spec 0 i), (Z.ltb_spec i 16), (Z.ltb_spec i 8); try lia.
    cbn [andb orb]. now rewrite !andb_true_r.
  - rewrite Z.shiftr_spec by lia. replace (i - 8 + 8) with i by lia.
    destruct (Z.leb_spec 0 i), (Z.ltb_spec i 16), (Z.ltb_spec i 8),
      (Z.leb_spec 0 (i - 8)), (Z.ltb_spec (i - 8) 8); try lia.
    cbn [andb orb]. now rewrite !andb_true_r, !andb_false_r, !orb_false_r.
  - rewrite (in_width_testbit 16 val i) by (simpl; lia).
    destruct (Z.ltb_spec i 16); [lia|]. now rewrite !andb_false_r.
Qed.

Lemma set_preamble_length_run (val : Z) (s : RFM9x) :
  0 <= val <= 65535 ->
  let msb := Z.land (Z.shiftr val 8) 0xFF in
  let lsb := Z.land val 0xFF in
  set_preamble_length val s
  = (Ok tt,
     with_bus s (upd (upd (regs s) 0x20 msb) 0x21 lsb)
              ((0xa1, [lsb]) :: (0xa0, [msb]) :: xfers s)).
Proof.
  intros Hval. cbv zeta. unfold set_preamble_length.
  destruct (Z.leb_spec 0 val); [|lia]. destruct (Z.leb_spec val 65535); [|lia].
  cbn [andb negb].
  erewrite bind_run by (apply _write_u8_int, land_byte; lia).
  rewrite _write_u8_int by (apply land_byte; lia). reflexivity.
Qed.

(** X7.  A preamble length in [0, 65535] is written as two bytes to
    registers 0x20 and 0x21 and read back as it was; any other value fails
    the assertion with nothing written. *)
Theorem preamble_length_round_trip (val : Z) (s : RFM9x) :
  let s' := snd (set_preamble_length val s) in
  (0 <= val <= 65535 ->
   fst (set_preamble_length val s) = Ok tt
   /\ xfers s' = (0xa1, [Z.land val 0xFF])
                   :: (0xa0, [Z.land (Z.shiftr val 8) 0xFF]) :: xfers s
   /\ fst (preamble_length s') = Ok val)
  /\ (val < 0 \/ 65535 < val ->
      set_preamble_length val s = (Raise AssertionError, s)).
Proof.
  intros s'. subst s'. split.
  - intros Hval. rewrite (set_preamble_length_run val s Hval).
    split; [reflexivity|]. split; [reflexivity|].
    unfold preamble_length, bind, _read_u8, gets, ret.
    cbn [fst snd regs with_bus]. f_equal.
    exact (preamble_bytes_recombine val Hval).
  - intros Hout. unfold set_preamble_length.
    destruct (Z.leb_spec 0 val), (Z.leb_spec val 65535); try lia; reflexivity.
Qed.

Lemma preamble_length_round_trip_witness :
  fst (preamble_length (snd (set_preamble_length 8 (after_init (fun _ => 0xAA)))))
  = Ok 8
  /\ set_preamble_length 65536 (after_init (fun _ => 0xAA))
     = (Raise AssertionError, after_init (fun _ => 0xAA)).
Proof.
  pose proof (preamble_length_round_trip 8 (after_init (fun _ => 0xAA))) as H8.
  pose proof (preamble_length_round_trip 65536 (after_init (fun _ => 0xAA)))
    as Hbig.
  cbv zeta in H8, Hbig. split.
  - exact (proj2 (proj2 (proj1 H8 ltac:(lia)))).
  - exact (proj2 Hbig ltac:(lia)).
Defined.

(** * Transmit power on a low-power board *)

(** X8.  On a low-power board whose PA configuration register reads as a
    byte, for a level whose integer part [n = int(val)] is in [-1, 14], the
    setter clears [pa_select], sets [max_power] to 7 and stores [n + 1] in
    the output-power field, so that the getter reads [n]; the PA-DAC
    register is not touched. *)
Theorem tx_power_low_power_round_trip (val : number) (n : Z) (s : RFM9x) :
  int_of_number val = inr n ->
  high_power s = false ->
  -1 <= n <= 14 ->
  holds_byte _RH_RF95_REG_09_PA_CONFIG s ->
  let s' := snd (set_tx_power val s) in
  fst (set_tx_power val s) = Ok tt
  /\ fst (get_bits pa_select s') = Ok 0
  /\ fst (get_bits max_power s') = Ok 7
  /\ fst (get_bits output_power s') = Ok (n + 1)
  /\ fst (tx_power s') = Ok n
  /\ (forall a, a <> _RH_RF95_REG_09_PA_CONFIG -> regs s' a = regs s a).
Proof.
  intros Hint Hlp Hn Hbyte s'.
  assert (Hlevel : Z.land (n + 1) 0x0F = n + 1).
  { change 0x0F with (Z.ones 4). rewrite Z.land_ones by lia.
    apply Z.mod_small. change (2 ^ 4) with 16. lia. }
  pose proof (set_bits_holds_byte _RH_RF95_REG_09_PA_CONFIG pa_select 0 s
                Hbyte) as Hbyte1.
  pose proof (set_bits_holds_byte _RH_RF95_REG_09_PA_CONFIG max_power 7 _
                Hbyte1) as Hbyte2.
  pose proof (set_bits_ok _RH_RF95_REG_09_PA_CONFIG 7 1 0 s eq_refl
                ltac:(simpl; lia) Hbyte) as Hrun1.
  pose proof (set_bits_ok _RH_RF95_REG_09_PA_CONFIG 4 3 7 _ eq_refl
                ltac:(simpl; lia) Hbyte1) as Hrun2.
  pose proof (set_bits_ok _RH_RF95_REG_09_PA_CONFIG 0 4 (n + 1) _ eq_refl
                ltac:(change (2 ^ 4) with 16; lia) Hbyte2) as Hrun3.
  fold pa_select in Hrun1. fold max_power in Hrun2.
  fold output_power in Hrun3.
  assert (Hrun : set_tx_power val s
                 = (Ok tt,
                    snd (set_bits output_power (n + 1)
                      (snd (set_bits max_power 7
                         (snd (set_bits pa_select 0 s))))))).
  { unfold set_tx_power. rewrite Hint. unfold bind at 1, gets. rewrite Hlp.
    destruct (Z.leb_spec (-1) n); [|lia].
    destruct (Z.leb_spec n 14); [|lia]. cbn [andb negb].
    rewrite (bind_run _ _ _ _ _ Hrun1), (bind_run _ _ _ _ _ Hrun2), Hlevel.
    exact Hrun3. }
  subst s'. rewrite Hrun. cbn [fst snd].
  assert (Hout : fst (get_bits output_power
                   (snd (set_bits output_power (n + 1)
                      (snd (set_bits max_power 7
                         (snd (set_bits pa_select 0 s))))))) = Ok (n + 1)).
  { apply (field_after_set _RH_RF95_REG_09_PA_CONFIG 0 4);
      [reflexivity|change (2 ^ 4) with 16; lia|exact Hbyte2]. }
  split; [reflexivity|]. split; [|split; [|split; [|split]]].
  - unfold output_power, max_power, pa_select.
    rewrite (field_beside_set _RH_RF95_REG_09_PA_CONFIG 0 4 (n + 1) 7 1)
      by (try reflexivity; change (2 ^ 4) with 16; lia).
    rewrite (field_beside_set _RH_RF95_REG_09_PA_CONFIG 4 3 7 7 1)
      by (try reflexivity; simpl; lia).
    apply (field_after_set _RH_RF95_REG_09_PA_CONFIG 7 1);
      first [reflexivity|exact Hbyte|simpl; lia].
  - unfold output_power, max_power.
    rewrite (field_beside_set _RH_RF95_REG_09_PA_CONFIG 0 4 (n + 1) 4 3)
      by (try reflexivity; change (2 ^ 4) with 16; lia).
    apply (field_after_set _RH_RF95_REG_09_PA_CONFIG 4 3);
      first [reflexivity|exact Hbyte1|simpl; lia].
  - exact Hout.
  - rewrite (tx_power_of_field _ (n + 1) Hout), !set_bits_attributes, Hlp.
    f_equal. lia.
  - intros a Ha. rewrite !regs_elsewhere_set by exact Ha. reflexivity.
Qed.

Lemma tx_power_low_power_round_trip_witness :
  let s := mkRFM9x (fun _ => 0) (fun _ _ => []) [] [] [] false
                   (Some _RH_BROADCAST_ADDRESS) false ∅ ∅ in
  fst (tx_power (snd (set_tx_power (IntNum 13) s))) = Ok 13
  /\ fst (tx_power (snd (set_tx_power (FloatNum 0.5) s))) = Ok 0
  /\ fst (tx_power (snd (set_tx_power (IntNum (-1)) s))) = Ok (-1).
Proof.
  intros s.
  assert (Hbyte : holds_byte _RH_RF95_REG_09_PA_CONFIG s)
    by (unfold holds_byte; simpl; lia).
  split; [|split].
  - exact (proj1 (proj2 (proj2 (proj2 (proj2
             (tx_power_low_power_round_trip (IntNum 13) 13 s eq_refl eq_refl
                ltac:(lia) Hbyte)))))).
  - exact (proj1 (proj2 (proj2 (proj2 (proj2
             (tx_power_low_power_round_trip (FloatNum 0.5) 0 s eq_refl
                eq_refl ltac:(lia) Hbyte)))))).
  - exact (proj1 (proj2 (proj2 (proj2 (proj2
             (tx_power_low_power_round_trip (IntNum (-1)) (-1) s eq_refl
                eq_refl ltac:(lia) Hbyte)))))).
Defined.

(** * Mode changes *)

Lemma mode_set_beside (v : Z) (s : RFM9x) :
  0 <= v < 8 ->
  holds_byte _RH_RF95_REG_01_OP_MODE s ->
  fst (get_bits operation_mode (snd (set_bits operation_mode v s))) = Ok v
  /\ fst (get_bits long_range_mode (snd (set_bits operation_mode v s)))
     = fst (get_bits long_range_mode s)
  /\ fst (get_bits low_frequency_mode (snd (set_bits operation_mode v s)))
     = fst (get_bits low_frequency_mode s)
  /\ fst (get_bits modulation_type (snd (set_bits operation_mode v s)))
     = fst (get_bits modulation_type s).
Proof.
  intros Hv Hbyte. split; [|split; [|split]].
  - apply (field_after_set _RH_RF95_REG_01_OP_MODE 0 3);
      first [reflexivity|exact Hbyte|simpl; lia].
  - apply (field_beside_set _RH_RF95_REG_01_OP_MODE 0 3 v 7 1);
      try reflexivity; simpl; lia.
  - apply (field_beside_set _RH_RF95_REG_01_OP_MODE 0 3 v 3 1);
      try reflexivity; simpl; lia.
  - apply (field_beside_set _RH_RF95_REG_01_OP_MODE 0 3 v 5 2);
      try reflexivity; simpl; lia.
Qed.

Lemma transmit_run (s : RFM9x) :
  holds_byte _RH_RF95_REG_01_OP_MODE s ->
  transmit s
  = (Ok tt,
     snd (_write_u8 _RH_RF95_REG_40_DIO_MAPPING1 (IntPayload 0x40)
            (snd (set_bits operation_mode TX_MODE s)))).
Proof.
  intros Hmode. unfold transmit.
  pose proof (set_bits_ok _RH_RF95_REG_01_OP_MODE 0 3 TX_MODE s eq_refl
                ltac:(unfold TX_MODE; simpl; lia) Hmode) as Hrun.
  fold operation_mode in Hrun. rewrite (bind_run _ _ _ _ _ Hrun).
  now rewrite _write_u8_int by lia.
Qed.

(** X9.  On a chip whose mode and mapping registers read as bytes, [idle],
    [sleep], [listen] and [transmit] put Standby, Sleep, RxContinuous and
    Tx in the mode field and leave the other fields of the mode register
    -- LoRa mode, low-frequency mode, modulation type -- as they read.
    [listen] clears the DIO0 mapping and keeps the other bits of the
    mapping register; [transmit] overwrites that register with 0x40. *)
Theorem mode_methods_keep_other_fields (s : RFM9x) :
  holds_byte _RH_RF95_REG_01_OP_MODE s ->
  holds_byte _RH_RF95_REG_40_DIO_MAPPING1 s ->
  let others := fun t => (fst (get_bits long_range_mode t),
                          fst (get_bits low_frequency_mode t),
                          fst (get_bits modulation_type t)) in
  (fst (idle s) = Ok tt
   /\ fst (get_bits operation_mode (snd (idle s))) = Ok STANDBY_MODE
   /\ others (snd (idle s)) = others s)
  /\ (fst (sleep s) = Ok tt
      /\ fst (get_bits operation_mode (snd (sleep s))) = Ok SLEEP_MODE
      /\ others (snd (sleep s)) = others s)
  /\ (fst (listen s) = Ok tt
      /\ fst (get_bits operation_mode (snd (listen s))) = Ok RX_MODE
      /\ others (snd (listen s)) = others s
      /\ fst (get_bits dio0_mapping (snd (listen s))) = Ok 0
      /\ forall i, ~ (6 <= i < 8) ->
           Z.testbit (regs (snd (listen s)) _RH_RF95_REG_40_DIO_MAPPING1) i
           = Z.testbit (regs s _RH_RF95_REG_40_DIO_MAPPING1) i)
  /\ (fst (transmit s) = Ok tt
      /\ fst (get_bits operation_mode (snd (transmit s))) = Ok TX_MODE
      /\ others (snd (transmit s)) = others s
      /\ regs (snd (transmit s)) _RH_RF95_REG_40_DIO_MAPPING1 = 0x40
      /\ fst (get_bits dio0_mapping (snd (transmit s))) = Ok 1).
Proof.
  intros Hbyte Hdio others.
  assert (Hmode : forall v, 0 <= v < 8 ->
            fst (set_bits operation_mode v s) = Ok tt
            /\ fst (get_bits operation_mode (snd (set_bits operation_mode v s)))
               = Ok v
            /\ others (snd (set_bits operation_mode v s)) = others s).
  { intros v Hv.
    destruct (mode_set_beside v s Hv Hbyte) as (Hm & H1 & H2 & H3).
    split; [|split; [exact Hm|]].
    - unfold operation_mode.
      now rewrite (set_bits_ok _RH_RF95_REG_01_OP_MODE 0 3 v s eq_refl)
        by (try exact Hbyte; simpl; lia).
    - subst others. cbv beta. now rewrite H1, H2, H3. }
  pose proof (set_bits_holds_byte _RH_RF95_REG_40_DIO_MAPPING1 operation_mode
                RX_MODE s Hdio) as Hdio1.
  split; [|split; [|split]].
  - apply Hmode. unfold STANDBY_MODE. lia.
  - apply Hmode. unfold SLEEP_MODE. lia.
  - destruct (Hmode RX_MODE ltac:(unfold RX_MODE; lia)) as (_ & Hm & Ho).
    destruct (listen_enters_rx s Hbyte Hdio) as (Hrx & Hdio0 & _).
    split; [now rewrite listen_run by assumption|].
    split; [exact Hrx|]. split; [|split; [exact Hdio0|]].
    + rewrite <- Ho, listen_run by assumption. cbn [snd]. subst others.
      cbv beta.
      now rewrite !(field_elsewhere_set dio0_mapping)
        by (cbv; discriminate).
    + intros i Hout. rewrite listen_run by assumption. cbn [snd].
      rewrite (set_bits_run _RH_RF95_REG_40_DIO_MAPPING1 6 2 eq_refl)
        by (try exact Hdio1; simpl; lia).
      cbv zeta. cbn [snd regs with_bus]. unfold upd at 1.
      rewrite Z.eqb_refl.
      rewrite (written_testbit _RH_RF95_REG_40_DIO_MAPPING1 6 2 eq_refl)
        by (simpl; lia).
      rewrite regs_elsewhere_set by (cbv; discriminate).
      destruct (Z.leb_spec 6 i), (Z.ltb_spec i (6 + 2)); simpl;
        try reflexivity; lia.
  - destruct (Hmode TX_MODE ltac:(unfold TX_MODE; lia)) as (_ & Hm & Ho).
    rewrite (transmit_run s Hbyte), _write_u8_int by lia.
    cbn [fst snd]. split; [reflexivity|]. split; [|split; [|split]].
    + rewrite <- Hm, !get_bits_run. cbn [fst regs with_bus]. unfold upd.
      reflexivity.
    + rewrite <- Ho. subst others. cbv beta. rewrite !get_bits_run.
      cbn [fst regs with_bus]. unfold upd. reflexivity.
    + cbn [regs with_bus]. unfold upd. reflexivity.
    + rewrite get_bits_run. cbn [fst regs with_bus]. unfold upd.
      reflexivity.
Qed.

Lemma mode_methods_keep_other_fields_witness :
  let s := after_init (fun _ => 0x80) in
  fst (get_bits operation_mode (snd (listen s))) = Ok RX_MODE
  /\ fst (get_bits long_range_mode (snd (listen s))) = Ok 1
  /\ regs (snd (transmit s)) _RH_RF95_REG_40_DIO_MAPPING1 = 0x40.
Proof.
  intros s.
  pose proof (mode_methods_keep_other_fields s
                (byte_regs_after_init 0x80 ltac:(lia) _)
                (byte_regs_after_init 0x80 ltac:(lia) _))
    as (_ & _ & (_ & Hrx & Hothers & _) & (_ & _ & _ & Hmap & _)).
  cbv beta in Hothers. split; [exact Hrx|]. split; [|exact Hmap].
  exact (f_equal (fun p => fst (fst p)) Hothers).
Defined.

(** * The packet on the wire *)

Lemma load_fifo_unpacked (data : list Z) (tx_header : sequence) (s : RFM9x) :
  struct_pack (items_of tx_header) = None ->
  holds_byte _RH_RF95_REG_01_OP_MODE s ->
  load_fifo data tx_header s
  = (Raise StructError,
     snd (_write_u8 _RH_RF95_REG_0D_FIFO_ADDR_PTR (IntPayload 0x00)
            (snd (idle s)))).
Proof.
  intros Hpack Hbyte. unfold load_fifo, idle.
  pose proof (set_bits_ok _RH_RF95_REG_01_OP_MODE 0 3 STANDBY_MODE s eq_refl
                ltac:(unfold STANDBY_MODE; simpl; lia) Hbyte) as Hrun.
  fold operation_mode in Hrun. rewrite (bind_run _ _ _ _ _ Hrun).
  rewrite (bind_run _ _ _ _ _ (_write_u8_int _ 0 _ ltac:(lia))), Hpack.
  now rewrite _write_u8_int by lia.
Qed.

Lemma pack_byte_byte (v : value) (n : Z) :
  pack_byte v = Some n -> is_byte n = true.
Proof.
  destruct v as [m|]; [|discriminate]. unfold pack_byte, is_byte.
  destruct ((0 <=? m) && (m <=? 255)) eqn:Hm; [|discriminate].
  now intros [= <-].
Qed.

Lemma struct_pack_bytes (items : list value) (header : list Z) :
  struct_pack items = Some header -> forallb is_byte header = true.
Proof.
  unfold struct_pack.
  destruct items as [|a [|b [|c [|d [|? ?]]]]]; try discriminate.
  destruct (pack_byte a) eqn:Ha, (pack_byte b) eqn:Hb,
           (pack_byte c) eqn:Hc, (pack_byte d) eqn:Hd; try discriminate.
  intros [= <-]. cbn [forallb].
  now rewrite (pack_byte_byte _ _ Ha), (pack_byte_byte _ _ Hb),
    (pack_byte_byte _ _ Hc), (pack_byte_byte _ _ Hd).
Qed.

(** [load_fifo] on a header that packs, a payload of at most 251 bytes and
    a chip whose mode register reads as a byte: the six transfers go
    through. *)
Lemma load_fifo_run (data : list Z) (tx_header : sequence) (header : list Z)
      (s : RFM9x) :
  struct_pack (items_of tx_header) = Some header ->
  holds_byte _RH_RF95_REG_01_OP_MODE s ->
  forallb is_byte data = true ->
  (length data <= 251)%nat ->
  exists (s1 : RFM9x) (standby tx : Z),
    load_fifo data tx_header s = (Ok tx_header, s1)
    /\ xfers s1
       = (0xc0, [0x40]) :: (0x81, [tx])
           :: (0xa2, [Z.of_nat (length (header ++ data))])
           :: (0x80, header ++ data)
           :: (0x8d, [0]) :: (0x81, [standby]) :: xfers s
    /\ Z.land standby 0x07 = STANDBY_MODE
    /\ Z.land tx 0x07 = TX_MODE
    /\ holds_byte _RH_RF95_REG_01_OP_MODE s1.
Proof.
  intros Hpack Hbyte Hdata Hlen. unfold load_fifo, idle.
  destruct (mode_set_run STANDBY_MODE s ltac:(unfold STANDBY_MODE; lia) Hbyte)
    as (Hidle & Hsb & Hlow1).
  cbv zeta in Hidle, Hsb, Hlow1.
  set (standby := Z.lor (Z.land _ _) _) in Hidle, Hsb, Hlow1.
  rewrite (bind_run _ _ _ _ _ Hidle).
  rewrite (bind_run _ _ _ _ _ (_write_u8_int _ 0 _ ltac:(lia))).
  rewrite Hpack. cbv zeta.
  assert (Hall : forallb is_byte (header ++ data) = true)
    by (rewrite forallb_app, (struct_pack_bytes _ _ Hpack), Hdata;
        reflexivity).
  destruct (struct_pack_four _ _ Hpack) as (a & b & c & d & ->).
  assert (Hfifo : forall st,
             _write_u8 _RH_RF95_REG_00_FIFO
                       (BytesPayload ([a; b; c; d] ++ data)) st
             = (Ok tt, with_bus st (regs st)
                         ((0x80, [a; b; c; d] ++ data) :: xfers st))).
  { intros st. unfold _write_u8. cbv zeta. rewrite Hall. reflexivity. }
  rewrite (bind_run _ _ _ _ _ (Hfifo _)).
  assert (Hcount : 0 <= Z.of_nat (length ([a; b; c; d] ++ data)) <= 255)
    by (rewrite length_app; cbn [length]; lia).
  rewrite (bind_run _ _ _ _ _ (_write_u8_int _ _ _ Hcount)).
  cbn [regs xfers with_bus].
  match goal with
  | |- context [bind transmit _ ?st] =>
      assert (Hbyte3 : holds_byte _RH_RF95_REG_01_OP_MODE st) by exact Hsb;
      destruct (mode_set_run TX_MODE st ltac:(unfold TX_MODE; lia) Hbyte3)
        as (Htx & Htxb & Hlow2)
  end.
  cbv zeta in Htx, Htxb, Hlow2.
  set (tx := Z.lor (Z.land _ _) _) in Htx, Htxb, Hlow2.
  unfold transmit, bind. rewrite Htx. cbv beta iota.
  rewrite _write_u8_int by lia.
  unfold ret. eexists. exists standby, tx.
  split; [reflexivity|]. split; [reflexivity|].
  split; [exact Hlow1|]. split; [exact Hlow2|exact Htxb].
Qed.

(** X10.  Whenever [send] gets as far as [self.transmit()], the bus has
    carried, in this order: Standby into the mode register, 0 into the FIFO
    pointer, one burst into the FIFO made of the four header bytes
    followed by the payload, the payload length plus 4 into the length
    register, Tx into the mode register and 0x40 into the DIO mapping
    register; and the payload length was between 1 and 252. *)
Theorem send_load_frame_on_wire
        (data : list Z) (tx_header h : sequence) (s s1 : RFM9x) :
  send_load data tx_header s = (Ok h, s1) ->
  exists (header : list Z) (standby tx : Z),
    struct_pack (items_of h) = Some header
    /\ (0 < length data <= 252)%nat
    /\ xfers s1
       = (0xc0, [0x40]) :: (0x81, [tx])
           :: (0xa2, [Z.of_nat (length data) + 4])
           :: (0x80, header ++ data)
           :: (0x8d, [0]) :: (0x81, [standby]) :: xfers s
    /\ Z.land standby 0x07 = STANDBY_MODE
    /\ Z.land tx 0x07 = TX_MODE.
Proof.
  intros Hrun.
  destruct (send_load_ok_inv _ _ _ _ _ Hrun) as (Hlen & h' & sa & Hx & _ & Hload).
  destruct (load_fifo_ok_inv _ _ _ _ _ Hload)
    as (header & standby & tx & -> & Hpack & _ & _ & Hxfers & Hsb & Htx & _).
  exists header, standby, tx.
  split; [exact Hpack|]. split; [exact Hlen|]. split; [|split; assumption].
  rewrite Hxfers, Hx.
  destruct (struct_pack_four _ _ Hpack) as (a & b & c & d & ->).
  replace (Z.of_nat (length ([a; b; c; d] ++ data)))
    with (Z.of_nat (length data) + 4)
    by (rewrite length_app; cbn [length]; lia).
  reflexivity.
Qed.

(** * A transmission that completes *)

Lemma tx_done_reads_zero (flags : Z) :
  Z.shiftr (Z.land flags _RH_RF95_TX_DONE) 3 = 0 ->
  Z.land flags _RH_RF95_TX_DONE = 0.
Proof.
  intros Hzero. apply Z.bits_inj'. intros i Hi.
  rewrite Z.bits_0, Z.land_spec.
  change _RH_RF95_TX_DONE with (2 ^ 3). rewrite Z.pow2_bits_eqb by lia.
  destruct (Z.eqb_spec 3 i) as [<-|Hne]; [|apply andb_false_r].
  rewrite andb_true_r.
  apply (f_equal (fun z => Z.testbit z 0)) in Hzero.
  rewrite Z.shiftr_spec, Z.land_spec, Z.bits_0 in Hzero by lia.
  change (Z.testbit _RH_RF95_TX_DONE (0 + 3)) with true in Hzero.
  now rewrite andb_true_r in Hzero.
Qed.

(** The turn of the loop in which [tx_done] reads 1: the loop ends, not
    timed out, and the clock is not read. *)
Lemma wait_tx_done_last_turn (clock : list float) (start timeout : float)
      (flags : Z) (more : list Z) (s : RFM9x) :
  irq_events s = flags :: more ->
  Z.land flags _RH_RF95_TX_DONE <> 0 ->
  wait_tx_done clock start timeout s
  = (Ok false,
     mkRFM9x (upd (regs s) _RH_RF95_REG_12_IRQ_FLAGS flags)
             (burst s) (xfers s) (monotonic s) more
             (high_power s) (receive_filter_address s)
             (acks s) (last_sent_id s) (last_received_id s)).
Proof.
  intros Hev Hset.
  assert (Hone : (Z.shiftr (Z.land flags _RH_RF95_TX_DONE) 3 =? 0) = false).
  { apply Z.eqb_neq. intros Hzero. now apply Hset, tx_done_reads_zero. }
  destruct clock as [|now later]; cbn [wait_tx_done];
    rewrite (bind_run _ _ _ _ _ (chip_tick_run s flags more Hev));
    unfold bind at 1; rewrite get_bits_run; cbn [regs];
    unfold upd at 1; rewrite Z.eqb_refl;
    change (_mask tx_done) with _RH_RF95_TX_DONE;
    change (_offset tx_done) with 3;
    rewrite Hone; reflexivity.
Qed.

Lemma wait_tx_done_completes (start timeout : float) (rest : list float)
      (done : Z) (more : list Z) (quiet : list float) :
  forall (polls : list Z) (s : RFM9x),
    length polls = length quiet ->
    Forall (fun flags => Z.land flags _RH_RF95_TX_DONE = 0) polls ->
    Forall (fun now => (timeout <=? now - start)%float = false) quiet ->
    Z.land done _RH_RF95_TX_DONE <> 0 ->
    irq_events s = polls ++ done :: more ->
    monotonic s = quiet ++ rest ->
    exists s',
      wait_tx_done (quiet ++ rest) start timeout s = (Ok false, s')
      /\ env s' = (rest, more)
      /\ xfers s' = xfers s
      /\ (forall a, a <> _RH_RF95_REG_12_IRQ_FLAGS -> regs s' a = regs s a).
Proof.
  induction quiet as [|now quiet IH];
    intros polls s Hlen Hclear Hquiet Hdone Hev Hclock.
  - destruct polls; [|discriminate]. cbn [app] in *.
    rewrite (wait_tx_done_last_turn _ _ _ done more) by assumption.
    eexists. split; [reflexivity|]. unfold env. cbn [monotonic irq_events].
    rewrite Hclock. repeat split.
    intros a Ha. cbn [regs]. unfold upd.
    destruct (Z.eqb_spec a _RH_RF95_REG_12_IRQ_FLAGS); [contradiction|reflexivity].
  - destruct polls as [|flags polls]; [discriminate|].
    apply Forall_cons_1 in Hclear as [Hflags Hclear].
    apply Forall_cons_1 in Hquiet as [Hnow Hquiet].
    cbn [app] in *.
    rewrite (wait_tx_done_turn _ _ _ _ flags (polls ++ done :: more))
      by assumption.
    cbv zeta. rewrite Hnow.
    assert (Hlen' : length polls = length quiet)
      by (cbn [length] in Hlen; lia).
    match goal with
    | |- context [wait_tx_done _ _ _ ?st] =>
        destruct (IH polls st Hlen' Hclear Hquiet Hdone eq_refl eq_refl)
          as (s' & Hrun & Henv & Hx & Hregs)
    end.
    exists s'. split; [exact Hrun|]. split; [exact Henv|].
    split; [exact Hx|]. intros a Ha. rewrite (Hregs a Ha). cbn [regs].
    unfold upd.
    destruct (Z.eqb_spec a _RH_RF95_REG_12_IRQ_FLAGS); [contradiction|reflexivity].
Qed.

(** The second half of [send] on a chip that raises [tx_done] before any
    clock reading reaches the timeout. *)
Lemma send_wait_completes
      (timeout : float) (s1 : RFM9x) (start : float) (quiet rest : list float)
      (polls : list Z) (done : Z) (more : list Z) :
  holds_byte _RH_RF95_REG_01_OP_MODE s1 ->
  monotonic s1 = start :: quiet ++ rest ->
  irq_events s1 = polls ++ done :: more ->
  length polls = length quiet ->
  Forall (fun flags => Z.land flags _RH_RF95_TX_DONE = 0) polls ->
  Forall (fun now => (timeout <=? now - start)%float = false) quiet ->
  Z.land done _RH_RF95_TX_DONE <> 0 ->
  exists s',
    send_wait timeout s1 = (Ok tt, s')
    /\ fst (get_bits operation_mode s') = Ok STANDBY_MODE
    /\ regs s' _RH_RF95_REG_12_IRQ_FLAGS = 0xFF
    /\ (exists mode_byte,
           xfers s' = (0x92, [0xFF]) :: (0x81, [mode_byte]) :: xfers s1
           /\ Z.land mode_byte 0x07 = STANDBY_MODE)
    /\ env s' = (rest, more).
Proof.
  intros Hbyte Hclock1 Hev1 Hlen Hclear Hquiet Hdone.
  unfold send_wait, bind at 1, bind at 1, time_monotonic. rewrite Hclock1.
  unfold bind at 1, gets. cbn [monotonic with_env].
  destruct (wait_tx_done_completes start timeout rest done more quiet polls
              (with_env s1 (quiet ++ rest) (irq_events s1))
              Hlen Hclear Hquiet Hdone Hev1 eq_refl)
    as (s2 & Hwait & Henv2 & Hx2 & Hregs2).
  unfold bind at 1. rewrite Hwait.
  assert (Hbyte2 : 0 <= regs s2 _RH_RF95_REG_01_OP_MODE <= 255)
    by (rewrite Hregs2 by (cbv; discriminate); exact Hbyte).
  destruct (send_wait_finish false s2 Hbyte2)
    as (s' & mode_byte & Hend & Hmode & Hflags & Hx & Hlow & Henv & _).
  exists s'. split; [exact Hend|]. split; [exact Hmode|].
  split; [exact Hflags|]. split.
  - exists mode_byte. split; [|exact Hlow]. rewrite Hx, Hx2. reflexivity.
  - now rewrite Henv.
Qed.

(** X11.  When [send] has loaded the packet and a poll shows [tx_done]
    set before any clock reading has reached the timeout, [send] returns
    its header, having written Standby into the mode field and 0xFF to the
    IRQ flags register as its last two transfers. *)
Theorem send_completes_when_tx_done
        (data : list Z) (timeout : float) (tx_header h : sequence)
        (s s1 : RFM9x) (start : float) (quiet rest : list float)
        (polls : list Z) (done : Z) (more : list Z) :
  send_load data tx_header s = (Ok h, s1) ->
  monotonic s = start :: quiet ++ rest ->
  irq_events s = polls ++ done :: more ->
  length polls = length quiet ->
  Forall (fun flags => Z.land flags _RH_RF95_TX_DONE = 0) polls ->
  Forall (fun now => (timeout <=? now - start)%float = false) quiet ->
  Z.land done _RH_RF95_TX_DONE <> 0 ->
  exists s',
    send data timeout tx_header s = (Ok h, s')
    /\ fst (get_bits operation_mode s') = Ok STANDBY_MODE
    /\ regs s' _RH_RF95_REG_12_IRQ_FLAGS = 0xFF
    /\ (exists mode_byte,
           xfers s' = (0x92, [0xFF]) :: (0x81, [mode_byte]) :: xfers s1
           /\ Z.land mode_byte 0x07 = STANDBY_MODE)
    /\ env s' = (rest, more).
Proof.
  intros Hload Hclock Hev Hlen Hclear Hquiet Hdone.
  pose proof (send_load_keeps_env data tx_header s) as Henv.
  rewrite Hload in Henv. cbn [snd] in Henv. unfold env in Henv.
  injection Henv as Hclock1 Hev1. rewrite Hclock in Hclock1. rewrite Hev in Hev1.
  assert (Hbyte : holds_byte _RH_RF95_REG_01_OP_MODE s1).
  { destruct (send_load_ok_inv _ _ _ _ _ Hload) as (_ & h' & sa & _ & _ & Hfifo).
    destruct (load_fifo_ok_inv _ _ _ _ _ Hfifo)
      as (header & standby & tx & _ & _ & _ & _ & _ & _ & _ & Hreg & Htx & _).
    unfold holds_byte. now rewrite Hreg. }
  destruct (send_wait_completes timeout s1 start quiet rest polls done more
              Hbyte Hclock1 Hev1 Hlen Hclear Hquiet Hdone)
    as (s' & Hwait & Hrest).
  exists s'. split; [|exact Hrest].
  unfold send. rewrite (bind_run _ _ _ _ _ Hload).
  now rewrite (bind_run _ _ _ _ _ Hwait).
Qed.

(** The same object in front of a chip that raises [tx_done] at the second
    poll. *)
Lemma send_completes_when_tx_done_witness :
  let s := with_env (after_init (fun _ => 0)) [10.0; 10.5; 12.5]%float
                    [0; _RH_RF95_TX_DONE] in
  exists s',
    send [0x68; 0x69] 2 (Tuple [Int 2; Int 1; Int 7; Int 0]) s
    = (Ok (Tuple [Int 2; Int 1; Int 7; Int 0]), s')
    /\ fst (get_bits operation_mode s') = Ok STANDBY_MODE
    /\ regs s' _RH_RF95_REG_12_IRQ_FLAGS = 0xFF
    /\ (exists mode_byte,
           xfers s'
           = (0x92, [0xFF]) :: (0x81, [mode_byte])
               :: xfers (snd (send_load [0x68; 0x69]
                                (Tuple [Int 2; Int 1; Int 7; Int 0]) s))
           /\ Z.land mode_byte 0x07 = STANDBY_MODE)
    /\ env s' = ([12.5%float], []).
Proof.
  intros s.
  apply (send_completes_when_tx_done
           [0x68; 0x69] 2 (Tuple [Int 2; Int 1; Int 7; Int 0])
           (Tuple [Int 2; Int 1; Int 7; Int 0]) s
           (snd (send_load [0x68; 0x69]
                   (Tuple [Int 2; Int 1; Int 7; Int 0]) s))
           10 [10.5%float] [12.5%float] [0] _RH_RF95_TX_DONE []).
  - reflexivity.
  - reflexivity.
  - reflexivity.
  - reflexivity.
  - repeat constructor.
  - repeat constructor.
  - discriminate.
Defined.

Lemma send_load_frame_on_wire_witness :
  exists (header : list Z) (standby tx : Z),
    struct_pack [Int 2; Int 1; Int 7; Int 0] = Some header
    /\ (0 < 2 <= 252)%nat
    /\ xfers (snd (send_load [0x68; 0x69] (Tuple [Int 2; Int 1; Int 7; Int 0])
                     (after_init (fun _ => 0x80))))
       = (0xc0, [0x40]) :: (0x81, [tx]) :: (0xa2, [2 + 4])
           :: (0x80, header ++ [0x68; 0x69])
           :: (0x8d, [0]) :: (0x81, [standby]) :: []
    /\ Z.land standby 0x07 = STANDBY_MODE
    /\ Z.land tx 0x07 = TX_MODE.
Proof.
  exact (send_load_frame_on_wire
           [0x68; 0x69] (Tuple [Int 2; Int 1; Int 7; Int 0])
           (Tuple [Int 2; Int 1; Int 7; Int 0]) (after_init (fun _ => 0x80))
           (snd (send_load [0x68; 0x69] (Tuple [Int 2; Int 1; Int 7; Int 0])
                   (after_init (fun _ => 0x80))))
           eq_refl).
Defined.

(** * Headers that cannot be packed, and ids given by the caller *)

(** X12.  On a chip whose mode register reads as a byte, when the payload
    length and the header length are accepted, the id is not 0, and some
    header element is not an integer in [0, 255], [send] raises
    [struct.error] -- after it has put the chip in Standby and reset the
    FIFO pointer, the only two transfers it makes; nothing reaches the
    FIFO and [last_sent_id] is as before. *)
Theorem send_unpackable_header_raises
        (data : list Z) (timeout : float) (tx_header : sequence) (s : RFM9x) :
  holds_byte _RH_RF95_REG_01_OP_MODE s ->
  (0 < length data <= 252)%nat ->
  length (items_of tx_header) = 4%nat ->
  items_of tx_header !! 2%nat <> Some (Int 0) ->
  struct_pack (items_of tx_header) = None ->
  exists (s' : RFM9x) (standby : Z),
    send data timeout tx_header s = (Raise StructError, s')
    /\ xfers s' = (0x8d, [0]) :: (0x81, [standby]) :: xfers s
    /\ fst (get_bits operation_mode s') = Ok STANDBY_MODE
    /\ last_sent_id s' = last_sent_id s
    /\ env s' = env s.
Proof.
  intros Hbyte Hlen Hfour Hid Hpack.
  assert (Hload : send_load data tx_header s
                  = load_fifo data tx_header s).
  { rewrite send_load_good_length by assumption.
    destruct (items_of tx_header !! 2%nat) as [[[| |]|]|];
      try reflexivity. now elim Hid. }
  rewrite (load_fifo_unpacked _ _ _ Hpack Hbyte) in Hload.
  destruct (mode_set_run STANDBY_MODE s
              ltac:(unfold STANDBY_MODE; lia) Hbyte) as (Hidle & _ & Hlow).
  cbv zeta in Hidle, Hlow. unfold idle in Hload.
  rewrite Hidle, _write_u8_int in Hload by lia. cbn [snd] in Hload.
  eexists. eexists. split.
  { unfold send. apply bind_raise. exact Hload. }
  split; [reflexivity|]. split; [|split; reflexivity].
  rewrite get_bits_run. cbn [regs with_bus fst]. unfold upd at 1.
  cbn [Z.eqb _address operation_mode new_RegisterBits
       _RH_RF95_REG_0D_FIFO_ADDR_PTR _RH_RF95_REG_01_OP_MODE].
  unfold upd. rewrite Z.eqb_refl. f_equal.
  exact (field_of_written _RH_RF95_REG_01_OP_MODE 0 3 eq_refl
           (regs s _RH_RF95_REG_01_OP_MODE) STANDBY_MODE
           ltac:(unfold STANDBY_MODE; simpl; lia)).
Qed.

Lemma send_unpackable_header_raises_witness :
  exists (s' : RFM9x) (standby : Z),
    send [0x68] 2 (List [Int 256; Int 1; Int 7; Int 0]) never_done
    = (Raise StructError, s')
    /\ xfers s' = (0x8d, [0]) :: (0x81, [standby]) :: xfers never_done
    /\ fst (get_bits operation_mode s') = Ok STANDBY_MODE
    /\ last_sent_id s' = last_sent_id never_done
    /\ env s' = env never_done.
Proof.
  exact (send_unpackable_header_raises
           [0x68] 2 (List [Int 256; Int 1; Int 7; Int 0]) never_done
           ltac:(unfold holds_byte; simpl; lia)
           ltac:(simpl; lia) eq_refl ltac:(discriminate) eq_refl).
Defined.

(** X13.  A call of [send] whose header carries an id other than 0 leaves
    [last_sent_id] as it is, whatever the payload and whatever becomes of
    the transmission. *)
Theorem send_explicit_id_keeps_table
        (data : list Z) (timeout : float) (tx_header : sequence) (s : RFM9x) :
  items_of tx_header !! 2%nat <> Some (Int 0) ->
  last_sent_id (snd (send data timeout tx_header s)) = last_sent_id s.
Proof.
  intros Hid. revert s. change (keeps last_sent_id (send data timeout tx_header)).
  unfold send.
  apply keeps_bind; [|intros h; apply keeps_bind;
                      [apply send_wait_keeps, last_sent_id_attribute_only
                      |intros _; apply keeps_ret]].
  unfold send_load.
  destruct (negb _); [apply keeps_raise|].
  destruct (negb _); [apply keeps_raise|].
  apply keeps_bind;
    [|intros h; apply load_fifo_keeps, last_sent_id_attribute_only].
  destruct (items_of tx_header !! 2%nat) as [[[| |]|]|];
    try apply keeps_ret. now elim Hid.
Qed.

Lemma send_explicit_id_keeps_table_witness :
  last_sent_id
    (snd (send [0x68] 2 (List [Int 2; Int 1; Int 7; Int 0]) never_done))
  = last_sent_id never_done.
Proof.
  exact (send_explicit_id_keeps_table
           [0x68] 2 (List [Int 2; Int 1; Int 7; Int 0]) never_done
           ltac:(discriminate)).
Defined.

(** * The ids in [last_sent_id] *)

Lemma maintains_untouched {A} (m : M A) :
  keeps last_sent_id m -> maintains valid_sent_ids m.
Proof. intros Hkeep s Hvalid to id. rewrite Hkeep. apply Hvalid. Qed.

Lemma allocate_id_maintains (tx_header : sequence) :
  maintains valid_sent_ids (allocate_id tx_header).
Proof.
  intros s Hvalid. unfold allocate_id.
  destruct tx_header as [l|[|to l]]; try exact Hvalid.
  unfold bind, gets, modify, ret. cbn [snd].
  intros k id. cbn [last_sent_id with_last_sent_id].
  destruct (decide (to = k)) as [->|Hne].
  - rewrite lookup_insert_eq. intros [= <-].
    destruct (last_sent_id s !! k) as [last|] eqn:Hlast.
    + specialize (Hvalid k last Hlast).
      destruct (Z.ltb_spec (last + 1) 254); lia.
    + cbn. lia.
  - rewrite lookup_insert_ne by exact Hne. apply Hvalid.
Qed.

Lemma send_maintains (data : list Z) (timeout : float) (tx_header : sequence) :
  maintains valid_sent_ids (send data timeout tx_header).
Proof.
  unfold send.
  apply maintains_bind;
    [|intros h; apply maintains_untouched, keeps_bind;
      [apply send_wait_keeps, last_sent_id_attribute_only
      |intros _; apply keeps_ret]].
  unfold send_load.
  destruct (negb _); [apply maintains_untouched, keeps_raise|].
  destruct (negb _); [apply maintains_untouched, keeps_raise|].
  apply maintains_bind;
    [|intros h; apply maintains_untouched, load_fifo_keeps,
                last_sent_id_attribute_only].
  destruct (items_of tx_header !! 2%nat) as [[[| |]|]|];
    try (apply maintains_untouched, keeps_ret).
  apply allocate_id_maintains.
Qed.

Ltac maintains_step :=
  first
    [ apply send_maintains
    | apply maintains_untouched, set_bits_keeps, last_sent_id_attribute_only
    | apply maintains_untouched, _write_u8_keeps, last_sent_id_attribute_only
    | solve [apply maintains_untouched; intros ?; reflexivity]
    | apply maintains_bind; [|intros ?]
    | match goal with
      | |- maintains _ (if ?b then _ else _) => destruct b
      | |- maintains _ (match ?x with _ => _ end) => destruct x
      end ].

Lemma receive_packet_maintains (with_header : bool) :
  maintains valid_sent_ids (receive_packet with_header).
Proof.
  unfold receive_packet, receive_header, acknowledge, listen, idle.
  repeat maintains_step.
Qed.

(** X14.  If every id in [last_sent_id] is between 1 and 253, it is still
    so after any call of [send] and after any call of [receive_packet]
    (which sends acknowledgements): the driver never records 0, 254 or
    255 as a sequence id. *)
Theorem sent_ids_stay_valid (s : RFM9x) :
  valid_sent_ids s ->
  (forall (data : list Z) (timeout : float) (tx_header : sequence),
      valid_sent_ids (snd (send data timeout tx_header s)))
  /\ (forall with_header : bool,
         valid_sent_ids (snd (receive_packet with_header s))).
Proof.
  intros Hvalid. split.
  - intros data timeout tx_header. now apply send_maintains.
  - intros with_header. now apply receive_packet_maintains.
Qed.

Lemma sent_ids_stay_valid_witness :
  valid_sent_ids
    (snd (send [0x68] 2 (List [Int 2; Int 1; Int 0; Int 0]) never_done))
  /\ last_sent_id
       (snd (send [0x68] 2 (List [Int 2; Int 1; Int 0; Int 0]) never_done))
     !! Int 2 = Some 1.
Proof.
  split.
  - apply (sent_ids_stay_valid never_done).
    intros to id Hid. discriminate.
  - reflexivity.
Defined.

(** * Packets that are dropped, and packets that are not parsed *)

(** The chip has a packet ready: the mode field reads RxContinuous and
    RX_DONE is set. *)
Lemma receive_packet_ready {A} (go : M A) (stay : M A) (s : RFM9x) :
  fst (get_bits operation_mode s) = Ok _RH_RF95_MODE_RXCONTINUOUS ->
  Z.land (regs s _RH_RF95_REG_12_IRQ_FLAGS) _RH_RF95_RX_DONE <> 0 ->
  (irq_flags <- _read_u8 _RH_RF95_REG_12_IRQ_FLAGS ;;
   mode <- get_bits operation_mode ;;
   if (mode =? _RH_RF95_MODE_RXCONTINUOUS)
      && negb (Z.land irq_flags _RH_RF95_RX_DONE =? 0)
   then go else stay) s
  = go s.
Proof.
  intros Hmode Hdone.
  assert (Hmode' : Z.shiftr (Z.land (regs s (_address operation_mode))
                                    (_mask operation_mode))
                            (_offset operation_mode)
                   = _RH_RF95_MODE_RXCONTINUOUS).
  { rewrite get_bits_run in Hmode. cbn [fst] in Hmode.
    exact (f_equal (fun o => match o with Ok v => v | Raise _ => 0 end) Hmode). }
  erewrite bind_run by reflexivity. cbv beta.
  erewrite bind_run by apply get_bits_run. cbv beta.
  rewrite Hmode', Z.eqb_refl.
  destruct (Z.eqb_spec (Z.land (regs s _RH_RF95_REG_12_IRQ_FLAGS)
                               _RH_RF95_RX_DONE) 0) as [Hz|_];
    [contradiction|].
  reflexivity.
Qed.

Lemma buffer_after_read (answer : nat -> list Z) (n : nat) :
  (if (length (repeat 0%Z n) =? 1)%nat then repeat 0 n
   else answer (length (repeat 0 n)))
  = if (n =? 1)%nat then [0] else answer n.
Proof.
  rewrite repeat_length. destruct (Nat.eqb_spec n 1) as [->|_]; reflexivity.
Qed.

(** A reception that passes the CRC check, on a chip whose
    current-address register reads as a byte: after the FIFO pointer and
    the IRQ flags are written, the header block and [listen] run on the
    bytes read from the FIFO. *)
Lemma receive_packet_body (with_header : bool) (s : RFM9x) :
  fst (get_bits operation_mode s) = Ok _RH_RF95_MODE_RXCONTINUOUS ->
  Z.land (regs s _RH_RF95_REG_12_IRQ_FLAGS) _RH_RF95_RX_DONE <> 0 ->
  fst (enable_crc s) = Ok false \/ fst (get_bits crc_error s) = Ok 0 ->
  holds_byte _RH_RF95_REG_10_FIFO_RX_CURRENT_ADDR s ->
  receive_packet with_header s
  = (after_header <-
       (if with_header && (4 <=? regs s _RH_RF95_REG_13_RX_NB_BYTES)
        then receive_header (fifo_bytes s)
        else ret (Payload (fifo_bytes s))) ;;
     match after_header with
     | Returned => ret None
     | Payload packet =>
         if with_header
            && match packet with [b] => b =? 0x21 | _ => false end
         then listen ;;; ret None
         else listen ;;;
              ret (Some (mkPacket packet
                           (regs s _RH_RF95_REG_1A_PKT_RSSI_VALUE - 137)
                           (float_of_int (regs s _RH_RF95_REG_19_PKT_SNR_VALUE)
                            / 4)%float))
     end) (fifo_read s).
Proof.
  intros Hmode Hdone Hcrc Hcur.
  unfold receive_packet. rewrite receive_packet_ready by assumption.
  rewrite crc_check_passes by assumption.
  rewrite (fifo_read_eq s Hcur).
  erewrite bind_run by reflexivity. cbv beta.
  erewrite bind_run by reflexivity. cbv beta.
  rewrite (bind_run _ _ _ _ _ (_write_u8_int _ _ s Hcur)).
  erewrite bind_run by reflexivity. cbv beta.
  erewrite bind_run by reflexivity. cbv beta.
  erewrite bind_run by reflexivity. cbv beta.
  rewrite (bind_run _ _ _ _ _ (_write_u8_int _ 0xff _ ltac:(lia))).
  cbn [burst with_bus].
  rewrite (buffer_after_read (burst s _RH_RF95_REG_00_FIFO)).
  reflexivity.
Qed.

Lemma fifo_bytes_long (s : RFM9x) :
  4 <= regs s _RH_RF95_REG_13_RX_NB_BYTES ->
  fifo_bytes s
  = burst s _RH_RF95_REG_00_FIFO (Z.to_nat (regs s _RH_RF95_REG_13_RX_NB_BYTES)).
Proof.
  intros Hlen. unfold fifo_bytes. cbv zeta.
  destruct (Nat.eqb_spec (Z.to_nat (regs s _RH_RF95_REG_13_RX_NB_BYTES)) 1);
    [lia|reflexivity].
Qed.

(** What [listen] puts on the bus. *)
Lemma listen_bus (s : RFM9x) :
  holds_byte _RH_RF95_REG_01_OP_MODE s ->
  holds_byte _RH_RF95_REG_40_DIO_MAPPING1 s ->
  exists mode_byte dio : Z,
    xfers (snd (listen s)) = (0xc0, [dio]) :: (0x81, [mode_byte]) :: xfers s
    /\ Z.land mode_byte 0x07 = RX_MODE.
Proof.
  intros Hmode Hdio. rewrite listen_run by assumption. cbn [snd].
  pose proof (set_bits_holds_byte _RH_RF95_REG_40_DIO_MAPPING1 operation_mode
                RX_MODE s Hdio) as Hdio1.
  unfold dio0_mapping.
  rewrite (set_bits_run _RH_RF95_REG_40_DIO_MAPPING1 6 2 eq_refl)
    by (try exact Hdio1; simpl; lia).
  cbv zeta. cbn [snd xfers with_bus].
  destruct (mode_set_run RX_MODE s ltac:(unfold RX_MODE; lia) Hmode)
    as (-> & _ & Hlow).
  cbn [snd xfers with_bus]. do 2 eexists. split; [reflexivity|exact Hlow].
Qed.

(** The end of a reception on a chip whose registers read as bytes:
    [listen], run on the state the first two writes leave, goes through,
    and leaves the chip listening. *)
Lemma listen_after_fifo_read (s : RFM9x) :
  byte_regs s ->
  exists (s' : RFM9x) (mode_byte dio : Z),
    listen (fifo_read s) = (Ok tt, s')
    /\ xfers s'
       = (0xc0, [dio]) :: (0x81, [mode_byte]) :: (0x92, [0xff])
           :: (0x8d, [regs s _RH_RF95_REG_10_FIFO_RX_CURRENT_ADDR]) :: xfers s
    /\ fst (get_bits operation_mode s') = Ok RX_MODE
    /\ attributes s' = attributes s
    /\ last_sent_id s' = last_sent_id s
    /\ env s' = env s.
Proof.
  intros Hbytes.
  destruct (fifo_read_frame s) as (Hattr0 & Hsent0 & Henv0 & Hbyte0).
  pose proof (Hbyte0 _RH_RF95_REG_01_OP_MODE ltac:(cbv; discriminate)
                (Hbytes _)) as Hmode0.
  pose proof (Hbyte0 _RH_RF95_REG_40_DIO_MAPPING1 ltac:(cbv; discriminate)
                (Hbytes _)) as Hdio0.
  destruct (listen_bus (fifo_read s) Hmode0 Hdio0)
    as (mode_byte & dio & Hbus & _).
  destruct (listen_enters_rx (fifo_read s) Hmode0 Hdio0) as (Hrx & _ & Hattr).
  exists (snd (listen (fifo_read s))), mode_byte, dio.
  split; [now apply listen_ok|].
  split; [rewrite Hbus, (fifo_read_eq s (Hbytes _)); reflexivity|].
  split; [exact Hrx|]. split; [now rewrite Hattr|].
  split.
  - rewrite <- Hsent0. unfold listen.
    apply (keeps_bind last_sent_id);
      [|intros _]; apply set_bits_keeps, last_sent_id_attribute_only.
  - rewrite <- Henv0. generalize (fifo_read s).
    change (keeps env listen). unfold listen. keeps_all.
Qed.

(** X15.  On a chip whose registers read as bytes, a packet of four bytes
    or more whose first byte is not the address the receive filter is set
    to is dropped: [receive_packet] returns nothing and raises nothing,
    sends no acknowledgement even with [acks] on (its only transfers are
    the FIFO pointer, 0xFF to the IRQ flags and the two writes of
    [listen]), records no id, and leaves the chip listening. *)
Theorem receive_packet_drops_other_addresses
        (s : RFM9x) (header_to header_from header_id header_flags : Z)
        (payload : list Z) (address : Z) :
  byte_regs s ->
  fst (get_bits operation_mode s) = Ok _RH_RF95_MODE_RXCONTINUOUS ->
  Z.land (regs s _RH_RF95_REG_12_IRQ_FLAGS) _RH_RF95_RX_DONE <> 0 ->
  fst (enable_crc s) = Ok false \/ fst (get_bits crc_error s) = Ok 0 ->
  4 <= regs s _RH_RF95_REG_13_RX_NB_BYTES ->
  burst s _RH_RF95_REG_00_FIFO (Z.to_nat (regs s _RH_RF95_REG_13_RX_NB_BYTES))
  = header_to :: header_from :: header_id :: header_flags :: payload ->
  receive_filter_address s = Some address ->
  header_to <> address ->
  exists (s' : RFM9x) (mode_byte dio : Z),
    receive_packet true s = (Ok None, s')
    /\ xfers s'
       = (0xc0, [dio]) :: (0x81, [mode_byte]) :: (0x92, [0xff])
           :: (0x8d, [regs s _RH_RF95_REG_10_FIFO_RX_CURRENT_ADDR]) :: xfers s
    /\ fst (get_bits operation_mode s') = Ok RX_MODE
    /\ attributes s' = attributes s
    /\ last_sent_id s' = last_sent_id s
    /\ env s' = env s.
Proof.
  intros Hbytes Hmode Hdone Hcrc Hlen Hfifo Hfilter Hother.
  rewrite receive_packet_body by (try assumption; apply Hbytes).
  destruct (Z.leb_spec 4 (regs s _RH_RF95_REG_13_RX_NB_BYTES)); [|lia].
  cbn [andb]. rewrite fifo_bytes_long, Hfifo by assumption.
  destruct (listen_after_fifo_read s Hbytes)
    as (s' & mode_byte & dio & Hlisten & Hrest).
  exists s', mode_byte, dio. split; [|exact Hrest].
  unfold receive_header, bind at 1, bind at 1, gets at 1.
  destruct (fifo_read_frame s) as (Hattr0 & _).
  apply attributes_inv in Hattr0 as (-> & _ & _).
  rewrite Hfilter.
  destruct (Z.eqb_spec header_to address) as [|_]; [contradiction|].
  cbn [negb]. now rewrite (bind_run _ _ _ _ _ Hlisten).
Qed.

Lemma receive_packet_drops_other_addresses_witness :
  exists (s' : RFM9x) (mode_byte dio : Z),
    receive_packet true (holding [7; 5; 9; 0; 0x68; 0x69]) = (Ok None, s')
    /\ xfers s'
       = (0xc0, [dio]) :: (0x81, [mode_byte]) :: (0x92, [0xff])
           :: (0x8d, [0]) :: []
    /\ fst (get_bits operation_mode s') = Ok RX_MODE
    /\ attributes s' = attributes (holding [7; 5; 9; 0; 0x68; 0x69])
    /\ last_sent_id s' = last_sent_id (holding [7; 5; 9; 0; 0x68; 0x69])
    /\ env s' = env (holding [7; 5; 9; 0; 0x68; 0x69]).
Proof.
  apply (receive_packet_drops_other_addresses
           (holding [7; 5; 9; 0; 0x68; 0x69]) 7 5 9 0 [0x68; 0x69]
           _RH_BROADCAST_ADDRESS).
  - apply byte_regs_holding. simpl. lia.
  - reflexivity.
  - discriminate.
  - left. reflexivity.
  - vm_compute. discriminate.
  - reflexivity.
  - reflexivity.
  - discriminate.
Defined.

(** X16.  With CRC checking on and the CRC-error flag raised, a packet
    that is ready is dropped whatever [with_header] is: [receive_packet]
    returns nothing, and the state it leaves is the state it found with
    0xFF written to the IRQ flags register, its one transfer.  So the FIFO
    pointer is not written, [listen] is not called, no acknowledgement
    goes out and no id is recorded. *)
Theorem receive_packet_crc_error_drops (with_header : bool) (s : RFM9x) :
  fst (get_bits operation_mode s) = Ok _RH_RF95_MODE_RXCONTINUOUS ->
  Z.land (regs s _RH_RF95_REG_12_IRQ_FLAGS) _RH_RF95_RX_DONE <> 0 ->
  fst (enable_crc s) = Ok true ->
  fst (get_bits crc_error s) <> Ok 0 ->
  receive_packet with_header s
  = (Ok None,
     with_bus s (upd (regs s) _RH_RF95_REG_12_IRQ_FLAGS 0xff)
              ((0x92, [0xff]) :: xfers s)).
Proof.
  intros Hmode Hdone Hon Hbad.
  unfold receive_packet. rewrite receive_packet_ready by assumption.
  unfold bind at 1.
  destruct (enable_crc s) as [[crc_on|e] s0] eqn:Hcrc; [|discriminate].
  assert (s0 = s) as -> by (now inversion Hcrc).
  cbn [fst] in Hon. injection Hon as ->.
  unfold bind at 1. rewrite get_bits_run in Hbad |- *. cbn [fst] in Hbad.
  destruct (Z.eqb_spec
              (Z.shiftr (Z.land (regs s (_address crc_error)) (_mask crc_error))
                        (_offset crc_error)) 0) as [Hzero|_].
  - rewrite Hzero in Hbad. now elim Hbad.
  - cbn [andb negb].
    now rewrite (bind_run _ _ _ _ _ (_write_u8_int _ 0xff s ltac:(lia))).
Qed.

Lemma receive_packet_crc_error_drops_witness :
  let s := with_bus (holding [255; 5; 7; 0; 0x68])
                    (upd (upd (rx_regs [255; 5; 7; 0; 0x68])
                              _RH_RF95_REG_12_IRQ_FLAGS 0x70)
                         _RH_RF95_REG_1E_MODEM_CONFIG2 0x74) [] in
  receive_packet true s
  = (Ok None,
     with_bus s (upd (regs s) _RH_RF95_REG_12_IRQ_FLAGS 0xff)
              ((0x92, [0xff]) :: [])).
Proof.
  intros s.
  apply (receive_packet_crc_error_drops true s).
  - reflexivity.
  - discriminate.
  - reflexivity.
  - discriminate.
Defined.

(** X17.  On a chip whose registers read as bytes, when the header is not
    parsed -- [with_header] is false, or the byte count is below 4 -- a
    packet that is ready and passes the CRC check is handed over whole,
    header bytes included (unless, with [with_header] on, it is the
    single byte 0x21): the address filter is not applied, no
    acknowledgement goes out, no id is recorded, and the chip is left
    listening.  The signal strength is the RSSI register minus 137 and
    the signal-to-noise ratio a quarter of the SNR register. *)
Theorem receive_packet_unparsed (with_header : bool) (s : RFM9x) :
  byte_regs s ->
  fst (get_bits operation_mode s) = Ok _RH_RF95_MODE_RXCONTINUOUS ->
  Z.land (regs s _RH_RF95_REG_12_IRQ_FLAGS) _RH_RF95_RX_DONE <> 0 ->
  fst (enable_crc s) = Ok false \/ fst (get_bits crc_error s) = Ok 0 ->
  with_header = false
  \/ (regs s _RH_RF95_REG_13_RX_NB_BYTES < 4 /\ fifo_bytes s <> [0x21]) ->
  exists (s' : RFM9x) (mode_byte dio : Z),
    receive_packet with_header s
    = (Ok (Some (mkPacket (fifo_bytes s)
                   (regs s _RH_RF95_REG_1A_PKT_RSSI_VALUE - 137)
                   (float_of_int (regs s _RH_RF95_REG_19_PKT_SNR_VALUE) / 4)%float)),
       s')
    /\ xfers s'
       = (0xc0, [dio]) :: (0x81, [mode_byte]) :: (0x92, [0xff])
           :: (0x8d, [regs s _RH_RF95_REG_10_FIFO_RX_CURRENT_ADDR]) :: xfers s
    /\ fst (get_bits operation_mode s') = Ok RX_MODE
    /\ attributes s' = attributes s
    /\ last_sent_id s' = last_sent_id s
    /\ env s' = env s.
Proof.
  intros Hbytes Hmode Hdone Hcrc Hraw.
  rewrite receive_packet_body by (try assumption; apply Hbytes).
  assert (Hskip : with_header && (4 <=? regs s _RH_RF95_REG_13_RX_NB_BYTES)
                  = false).
  { destruct Hraw as [->|[Hshort _]]; [reflexivity|].
    destruct (Z.leb_spec 4 (regs s _RH_RF95_REG_13_RX_NB_BYTES)); [lia|].
    apply andb_false_r. }
  assert (Hkeep : with_header
                  && match fifo_bytes s with [b] => b =? 0x21 | _ => false end
                  = false).
  { destruct Hraw as [->|[_ Hdata]]; [reflexivity|].
    rewrite not_pure_ack by exact Hdata. apply andb_false_r. }
  rewrite Hskip. unfold bind at 1, ret at 1. rewrite Hkeep.
  destruct (listen_after_fifo_read s Hbytes)
    as (s' & mode_byte & dio & Hlisten & Hrest).
  exists s', mode_byte, dio. split; [|exact Hrest].
  now rewrite (bind_run _ _ _ _ _ Hlisten).
Qed.

Lemma receive_packet_unparsed_witness :
  exists (s' : RFM9x) (mode_byte dio : Z),
    receive_packet false (holding [7; 5; 9; 0; 0x68; 0x69])
    = (Ok (Some (mkPacket [7; 5; 9; 0; 0x68; 0x69] (100 - 137)
                   (float_of_int 40 / 4)%float)), s')
    /\ xfers s'
       = (0xc0, [dio]) :: (0x81, [mode_byte]) :: (0x92, [0xff])
           :: (0x8d, [0]) :: []
    /\ fst (get_bits operation_mode s') = Ok RX_MODE
    /\ attributes s' = attributes (holding [7; 5; 9; 0; 0x68; 0x69])
    /\ last_sent_id s' = last_sent_id (holding [7; 5; 9; 0; 0x68; 0x69])
    /\ env s' = env (holding [7; 5; 9; 0; 0x68; 0x69]).
Proof.
  apply (receive_packet_unparsed false (holding [7; 5; 9; 0; 0x68; 0x69])).
  - apply byte_regs_holding. simpl. lia.
  - reflexivity.
  - discriminate.
  - left. reflexivity.
  - left. reflexivity.
Defined.

(** X18.  On a chip whose registers read as bytes, a packet of one byte is
    delivered as the single byte 0, whatever byte the FIFO holds: the
    one-byte read comes back as a number, the slice assignment of
    [_read_into] fails, and the zeroed buffer is returned as the
    payload. *)
Theorem receive_packet_one_byte (with_header : bool) (s : RFM9x) :
  byte_regs s ->
  fst (get_bits operation_mode s) = Ok _RH_RF95_MODE_RXCONTINUOUS ->
  Z.land (regs s _RH_RF95_REG_12_IRQ_FLAGS) _RH_RF95_RX_DONE <> 0 ->
  fst (enable_crc s) = Ok false \/ fst (get_bits crc_error s) = Ok 0 ->
  regs s _RH_RF95_REG_13_RX_NB_BYTES = 1 ->
  fst (receive_packet with_header s)
  = Ok (Some (mkPacket [0]
                (regs s _RH_RF95_REG_1A_PKT_RSSI_VALUE - 137)
                (float_of_int (regs s _RH_RF95_REG_19_PKT_SNR_VALUE) / 4)%float)).
Proof.
  intros Hbytes Hmode Hdone Hcrc Hone.
  rewrite receive_packet_body by (try assumption; apply Hbytes).
  unfold fifo_bytes. rewrite Hone. cbn [Z.to_nat Pos.to_nat Pos.iter_op Nat.eqb].
  change (4 <=? 1) with false. rewrite andb_false_r.
  unfold bind at 1, ret at 1.
  change (0 =? 33) with false. rewrite andb_false_r.
  destruct (listen_after_fifo_read s Hbytes)
    as (s' & mode_byte & dio & Hlisten & _).
  now rewrite (bind_run _ _ _ _ _ Hlisten).
Qed.

Lemma receive_packet_one_byte_witness :
  fst (receive_packet true (holding [0x68]))
  = Ok (Some (mkPacket [0] (100 - 137) (float_of_int 40 / 4)%float)).
Proof.
  apply (receive_packet_one_byte true (holding [0x68])).
  - apply byte_regs_holding. simpl. lia.
  - reflexivity.
  - discriminate.
  - left. reflexivity.
  - reflexivity.
Defined.

(** X19.  On a chip whose registers read as bytes, a packet that passes
    the filter and whose payload is the single byte 0x21 is never
    delivered -- with its ACK flag set or not, with acknowledgements on or
    off, its id new or not: [receive_packet] never returns a packet, and
    whenever it returns, it returns nothing, has the packet's id on
    record for its sender and leaves the chip listening.  With
    acknowledgements off, or the flag set, it does return; and where the
    id is new, the table it leaves is the one it found with the id
    recorded. *)
Theorem receive_packet_swallows_bare_ack
        (s : RFM9x) (header_to header_from header_id header_flags : Z) :
  presents s header_to header_from header_id header_flags [0x21] ->
  byte_regs s ->
  (forall (p : Packet) (s' : RFM9x),
      receive_packet true s <> (Ok (Some p), s'))
  /\ (forall (r : option Packet) (s' : RFM9x),
         receive_packet true s = (Ok r, s') ->
         r = None
         /\ last_received_id s' !! header_from = Some header_id
         /\ (last_received_id s !! header_from <> Some header_id ->
             last_received_id s'
             = <[header_from := header_id]> (last_received_id s))
         /\ fst (get_bits operation_mode s') = Ok RX_MODE)
  /\ (acks s = false \/ Z.land header_flags FLAGS_ACK <> 0 ->
      exists s' : RFM9x, receive_packet true s = (Ok None, s')).
Proof.
  intros Hpresents Hbytes.
  destruct (receive_packet_header_step _ _ _ _ _ _ Hpresents Hbytes)
    as (o & sa & Hack & Hattr & Hmode & Hdio & Heq).
  change (33 =? 33) with true in Heq. cbv zeta iota in Heq.
  apply attributes_inv in Hattr as (_ & Hacks & Hseen).
  assert (Hreturns :
            forall (r : option Packet) (s' : RFM9x),
              receive_packet true s = (Ok r, s') ->
              r = None
              /\ last_received_id s' !! header_from = Some header_id
              /\ (last_received_id s !! header_from <> Some header_id ->
                  last_received_id s'
                  = <[header_from := header_id]> (last_received_id s))
              /\ fst (get_bits operation_mode s') = Ok RX_MODE).
  { intros r s' Hrun. rewrite Heq in Hrun.
    destruct o as [[]|e]; [|discriminate].
    destruct (bool_decide_reflect
                (last_received_id s !! header_from = Some header_id))
      as [Hold|Hnew]; injection Hrun as <- <-.
    - destruct (listen_enters_rx sa Hmode Hdio) as (Hrx & _ & Hkeep).
      apply attributes_inv in Hkeep as (_ & _ & Hl).
      split; [reflexivity|]. split; [now rewrite Hl, Hseen|].
      split; [intros Hne; contradiction|exact Hrx].
    - destruct (listen_enters_rx
                  (with_last_received_id sa
                     (<[header_from := header_id]> (last_received_id s)))
                  Hmode Hdio) as (Hrx & _ & Hkeep).
      apply attributes_inv in Hkeep as (_ & _ & Hl). cbn in Hl.
      split; [reflexivity|].
      split; [rewrite Hl; apply lookup_insert_eq|].
      split; [intros _; exact Hl|exact Hrx]. }
  split; [|split; [exact Hreturns|]].
  - intros p s' Hrun.
    destruct (Hreturns _ _ Hrun) as (Hnone & _). discriminate.
  - intros Hskip. rewrite Heq.
    rewrite acknowledge_skipped in Hack.
    2:{ destruct (fifo_read_frame s) as (Hattr0 & _).
        apply attributes_inv in Hattr0 as (_ & -> & _). exact Hskip. }
    injection Hack as <- _.
    destruct (bool_decide _); eauto.
Qed.

Lemma receive_packet_swallows_bare_ack_witness :
  (forall (p : Packet) (s' : RFM9x),
      receive_packet true (holding [255; 5; 7; 0; 0x21]) <> (Ok (Some p), s'))
  /\ exists s' : RFM9x,
      receive_packet true (holding [255; 5; 7; 0; 0x21]) = (Ok None, s')
      /\ last_received_id s' = <[5 := 7]> ∅
      /\ fst (get_bits operation_mode s') = Ok RX_MODE.
Proof.
  assert (Hpresents : presents (holding [255; 5; 7; 0; 0x21]) 255 5 7 0 [0x21])
    by (repeat split; try reflexivity; try discriminate;
        [now left|now right]).
  destruct (receive_packet_swallows_bare_ack
              (holding [255; 5; 7; 0; 0x21]) 255 5 7 0 Hpresents
              (byte_regs_holding [255; 5; 7; 0; 0x21] ltac:(simpl; lia)))
    as (Hnever & Hreturns & Hdoes).
  split; [exact Hnever|].
  destruct (Hdoes (or_introl eq_refl)) as (s' & Hrun).
  destruct (Hreturns _ _ Hrun) as (_ & _ & Htable & Hrx).
  exists s'. split; [exact Hrun|]. split; [|exact Hrx].
  apply Htable. discriminate.
Defined.

(** * Acknowledgements *)

Lemma listen_keeps_env : keeps env listen.
Proof. unfold listen. keeps_all. Qed.

Lemma listen_keeps_last_sent_id : keeps last_sent_id listen.
Proof.
  unfold listen.
  apply keeps_bind;
    [|intros _]; apply set_bits_keeps, last_sent_id_attribute_only.
Qed.

(** A header whose second element is [None] cannot be packed: [send]
    stops at [struct.pack], with the chip in Standby. *)
Lemma send_none_address (data : list Z) (timeout : float)
      (header_from header_id flags : Z) (s : RFM9x) :
  holds_byte _RH_RF95_REG_01_OP_MODE s ->
  (0 < length data <= 252)%nat ->
  exists s' : RFM9x,
    send data timeout
         (List [Int header_from; NoneVal; Int header_id; Int flags]) s
    = (Raise StructError, s')
    /\ fst (get_bits operation_mode s') = Ok STANDBY_MODE.
Proof.
  intros Hbyte Hlen.
  assert (Hpack : forall id : Z,
             struct_pack [Int header_from; NoneVal; Int id; Int flags] = None).
  { intros id. unfold struct_pack.
    destruct (pack_byte (Int header_from)); reflexivity. }
  assert (Hload : exists sa : RFM9x,
             holds_byte _RH_RF95_REG_01_OP_MODE sa
             /\ send_load data
                  (List [Int header_from; NoneVal; Int header_id; Int flags]) s
                = (Raise StructError,
                   snd (_write_u8 _RH_RF95_REG_0D_FIFO_ADDR_PTR (IntPayload 0x00)
                          (snd (idle sa))))).
  { rewrite send_load_good_length by (assumption || reflexivity).
    simpl (items_of _ !! _).
    destruct header_id as [|id|id].
    - unfold allocate_id.
      erewrite bind_run by (unfold bind, gets, modify, ret; reflexivity).
      eexists. split; [|apply load_fifo_unpacked; [apply Hpack|]];
        exact Hbyte.
    - erewrite bind_run by reflexivity.
      eexists. split; [|apply load_fifo_unpacked; [apply Hpack|]];
        exact Hbyte.
    - erewrite bind_run by reflexivity.
      eexists. split; [|apply load_fifo_unpacked; [apply Hpack|]];
        exact Hbyte. }
  destruct Hload as (sa & Hbytea & Hload).
  destruct (mode_set_run STANDBY_MODE sa
              ltac:(unfold STANDBY_MODE; lia) Hbytea) as (Hidle & _ & _).
  cbv zeta in Hidle. unfold idle in Hload.
  rewrite Hidle, _write_u8_int in Hload by lia. cbn [snd] in Hload.
  eexists. split.
  { unfold send. apply bind_raise. exact Hload. }
  rewrite get_bits_run. cbn [regs with_bus fst]. unfold upd at 1.
  cbn [Z.eqb _address operation_mode new_RegisterBits
       _RH_RF95_REG_0D_FIFO_ADDR_PTR _RH_RF95_REG_01_OP_MODE].
  unfold upd. rewrite Z.eqb_refl. f_equal.
  exact (field_of_written _RH_RF95_REG_01_OP_MODE 0 3 eq_refl
           (regs sa _RH_RF95_REG_01_OP_MODE) STANDBY_MODE
           ltac:(unfold STANDBY_MODE; simpl; lia)).
Qed.

(** X20.  On a chip whose registers read as bytes, with [acks] on and the
    receive filter switched off ([receive_filter_address] is [None]),
    every packet of four bytes or more that is not flagged as an
    acknowledgement makes [receive_packet] raise [struct.error]: the
    acknowledgement's header carries [None] as its sender.  The packet is
    lost, its id is not recorded, and the chip is left in Standby, not
    listening. *)
Theorem receive_packet_ack_without_filter_raises
        (s : RFM9x) (header_to header_from header_id header_flags : Z)
        (payload : list Z) :
  presents s header_to header_from header_id header_flags payload ->
  byte_regs s ->
  acks s = true ->
  Z.land header_flags FLAGS_ACK = 0 ->
  receive_filter_address s = None ->
  exists s' : RFM9x,
    receive_packet true s = (Raise StructError, s')
    /\ fst (get_bits operation_mode s') = Ok STANDBY_MODE
    /\ last_received_id s' = last_received_id s.
Proof.
  intros Hpresents Hbytes Hacks Hflag Hnone.
  destruct (receive_packet_header_step _ _ _ _ _ _ Hpresents Hbytes)
    as (o & sa & Hack & Hattr & _ & _ & ->).
  destruct (fifo_read_frame s) as (Hattr0 & _ & _ & Hbyte0).
  apply attributes_inv in Hattr0 as (Hf0 & Ha0 & _).
  destruct (send_none_address [0x21] 2%float header_from header_id FLAGS_ACK
              (fifo_read s)
              (Hbyte0 _RH_RF95_REG_01_OP_MODE ltac:(cbv; discriminate)
                 (Hbytes _))
              ltac:(simpl; lia)) as (s' & Hsend & Hmode).
  assert (Hack' : acknowledge header_from header_id header_flags (fifo_read s)
                  = (Raise StructError, s')).
  { unfold acknowledge, bind at 1 2, gets.
    rewrite Ha0, Hf0, Hacks, Hnone, Hflag. cbn [andb Z.eqb].
    apply bind_raise. exact Hsend. }
  rewrite Hack' in Hack. injection Hack as <- <-.
  exists s'. split; [reflexivity|]. split; [exact Hmode|].
  apply attributes_inv in Hattr as (_ & _ & Hl). exact Hl.
Qed.

Lemma receive_packet_ack_without_filter_raises_witness :
  let s := mkRFM9x (rx_regs [255; 5; 7; 0; 0x68]) (fun _ _ => [255; 5; 7; 0; 0x68])
                   [] [] [] true None true ∅ ∅ in
  exists s' : RFM9x,
    receive_packet true s = (Raise StructError, s')
    /\ fst (get_bits operation_mode s') = Ok STANDBY_MODE
    /\ last_received_id s' = last_received_id s.
Proof.
  intros s.
  apply (receive_packet_ack_without_filter_raises s 255 5 7 0 [0x68]).
  - repeat split; try reflexivity; try discriminate; now left.
  - exact (byte_regs_holding [255; 5; 7; 0; 0x68] ltac:(simpl; lia)).
  - reflexivity.
  - reflexivity.
  - reflexivity.
Defined.

Lemma pack_byte_in_range (n : Z) : 0 <= n <= 255 -> pack_byte (Int n) = Some n.
Proof.
  intros Hn. unfold pack_byte.
  destruct (Z.leb_spec 0 n); [|lia]. destruct (Z.leb_spec n 255); [|lia].
  reflexivity.
Qed.

(** The first half of [send] on a list header of four bytes whose id is
    set. *)
Lemma send_load_explicit (data : list Z) (a b c d : Z) (s : RFM9x) :
  (0 < length data <= 251)%nat ->
  forallb is_byte data = true ->
  holds_byte _RH_RF95_REG_01_OP_MODE s ->
  0 <= a <= 255 -> 0 <= b <= 255 -> 1 <= c <= 255 -> 0 <= d <= 255 ->
  exists (s1 : RFM9x) (standby tx : Z),
    send_load data (List [Int a; Int b; Int c; Int d]) s
    = (Ok (List [Int a; Int b; Int c; Int d]), s1)
    /\ xfers s1
       = (0xc0, [0x40]) :: (0x81, [tx])
           :: (0xa2, [Z.of_nat (length ([a; b; c; d] ++ data))])
           :: (0x80, [a; b; c; d] ++ data)
           :: (0x8d, [0]) :: (0x81, [standby]) :: xfers s
    /\ Z.land standby 0x07 = STANDBY_MODE
    /\ Z.land tx 0x07 = TX_MODE
    /\ holds_byte _RH_RF95_REG_01_OP_MODE s1
    /\ last_sent_id s1 = last_sent_id s.
Proof.
  intros Hlen Hdata Hbyte Ha Hb Hc Hd.
  assert (Hpack : struct_pack (items_of (List [Int a; Int b; Int c; Int d]))
                  = Some [a; b; c; d])
    by (cbn [items_of struct_pack]; now rewrite !pack_byte_in_range by lia).
  destruct (load_fifo_run data _ _ s Hpack Hbyte Hdata ltac:(lia))
    as (s1 & standby & tx & Hload & Hx & Hlow1 & Hlow2 & Hbyte1).
  exists s1, standby, tx.
  assert (Hrun : send_load data (List [Int a; Int b; Int c; Int d]) s
                 = (Ok (List [Int a; Int b; Int c; Int d]), s1)).
  { rewrite send_load_good_length by (try reflexivity; lia).
    simpl (items_of _ !! _).
    destruct c as [|c|c]; [lia| |lia].
    erewrite bind_run by reflexivity. exact Hload. }
  split; [exact Hrun|]. split; [exact Hx|]. split; [exact Hlow1|].
  split; [exact Hlow2|]. split; [exact Hbyte1|].
  pose proof (load_fifo_keeps last_sent_id last_sent_id_attribute_only
                data (List [Int a; Int b; Int c; Int d]) s) as Hkeep.
  now rewrite Hload in Hkeep.
Qed.

(** X21.  On a chip whose registers read as bytes, with [acks] on, a
    packet addressed to the node, not flagged as an acknowledgement and
    carrying an id other than 0 is answered before it is returned: when
    the chip then raises [tx_done] in time, the transfers of the call are,
    in order, the FIFO pointer and the IRQ flags of the reception, the
    whole of a [send] whose FIFO burst is [from, to, id, 0x80, 0x21] with
    length 5, and the two writes of [listen].  The packet is returned, its
    id recorded, and [last_sent_id] is untouched. *)
Theorem receive_packet_acknowledges
        (s : RFM9x) (header_to header_from header_id header_flags : Z)
        (payload : list Z)
        (start : float) (quiet rest : list float)
        (polls : list Z) (done : Z) (more : list Z) :
  presents s header_to header_from header_id header_flags payload ->
  byte_regs s ->
  acks s = true ->
  Z.land header_flags FLAGS_ACK = 0 ->
  receive_filter_address s = Some header_to ->
  0 <= header_to <= 255 -> 0 <= header_from <= 255 -> 1 <= header_id <= 255 ->
  last_received_id s !! header_from <> Some header_id ->
  payload <> [0x21] ->
  monotonic s = start :: quiet ++ rest ->
  irq_events s = polls ++ done :: more ->
  length polls = length quiet ->
  Forall (fun flags => Z.land flags _RH_RF95_TX_DONE = 0) polls ->
  Forall (fun now => (2 <=? now - start)%float = false) quiet ->
  Z.land done _RH_RF95_TX_DONE <> 0 ->
  exists (s' : RFM9x) (rx dio standby' tx standby : Z),
    receive_packet true s
    = (Ok (Some (mkPacket payload
                   (regs s _RH_RF95_REG_1A_PKT_RSSI_VALUE - 137)
                   (float_of_int (regs s _RH_RF95_REG_19_PKT_SNR_VALUE) / 4)%float)),
       s')
    /\ xfers s'
       = (0xc0, [dio]) :: (0x81, [rx])
           :: (0x92, [0xFF]) :: (0x81, [standby'])
           :: (0xc0, [0x40]) :: (0x81, [tx]) :: (0xa2, [5])
           :: (0x80, [header_from; header_to; header_id; 0x80; 0x21])
           :: (0x8d, [0]) :: (0x81, [standby])
           :: (0x92, [0xff])
           :: (0x8d, [regs s _RH_RF95_REG_10_FIFO_RX_CURRENT_ADDR]) :: xfers s
    /\ Z.land standby 0x07 = STANDBY_MODE
    /\ Z.land tx 0x07 = TX_MODE
    /\ Z.land standby' 0x07 = STANDBY_MODE
    /\ Z.land rx 0x07 = RX_MODE
    /\ last_received_id s' = <[header_from := header_id]> (last_received_id s)
    /\ last_sent_id s' = last_sent_id s
    /\ env s' = (rest, more).
Proof.
  intros Hpresents Hbytes Hacks Hflag Hfilter Hto Hfrom Hid Hnew Hdata
         Hclock Hev Hlen Hclear Hquiet Hdone.
  destruct (receive_packet_header_step _ _ _ _ _ _ Hpresents Hbytes)
    as (o & sa & Hack & Hattr & Hmode & Hdio & ->).
  destruct (fifo_read_frame s) as (Hattr0 & Hsent0 & Henv0 & Hbyte0).
  apply attributes_inv in Hattr0 as (Hf0 & Ha0 & _).
  destruct (send_load_explicit [0x21] header_from header_to header_id
              FLAGS_ACK (fifo_read s) ltac:(simpl; lia) eq_refl
              (Hbyte0 _RH_RF95_REG_01_OP_MODE ltac:(cbv; discriminate)
                 (Hbytes _))
              Hfrom Hto Hid ltac:(unfold FLAGS_ACK; lia))
    as (s1 & standby & tx & Hload & Hx1 & Hlow1 & Hlow2 & Hbyte1 & Hsent1).
  rewrite (fifo_read_eq s (Hbytes _)) in Hx1. cbn [xfers with_bus] in Hx1.
  assert (Henv1 : env s1 = env s).
  { pose proof (send_load_keeps_env [0x21]
                  (List [Int header_from; Int header_to; Int header_id;
                         Int FLAGS_ACK]) (fifo_read s)) as Hkeep.
    rewrite Hload in Hkeep. cbn [snd] in Hkeep. now rewrite Hkeep. }
  unfold env in Henv1. injection Henv1 as Hclock1 Hev1.
  rewrite Hclock in Hclock1. rewrite Hev in Hev1.
  destruct (send_wait_completes 2%float s1 start quiet rest polls done more
              Hbyte1 Hclock1 Hev1 Hlen Hclear Hquiet Hdone)
    as (s2 & Hwait & _ & _ & (standby' & Hx2 & Hstandby') & Henv2).
  assert (Hsent2 : last_sent_id s2 = last_sent_id s).
  { pose proof (send_wait_keeps last_sent_id last_sent_id_attribute_only
                  2%float s1) as Hkeep.
    rewrite Hwait in Hkeep. cbn [snd] in Hkeep.
    now rewrite Hkeep, Hsent1. }
  assert (Hack' : acknowledge header_from header_id header_flags (fifo_read s)
                  = (Ok tt, s2)).
  { unfold acknowledge, bind at 1 2, gets.
    rewrite Ha0, Hf0, Hacks, Hfilter, Hflag. cbn [andb Z.eqb].
    unfold send. unfold bind at 1. unfold bind at 1.
    rewrite Hload. unfold bind at 1. rewrite Hwait. reflexivity. }
  rewrite Hack' in Hack. injection Hack as <- <-.
  rewrite bool_decide_eq_false_2 by exact Hnew.
  cbv zeta. rewrite not_pure_ack by assumption.
  set (sb := with_last_received_id s2
               (<[header_from := header_id]> (last_received_id s))).
  destruct (listen_bus sb Hmode Hdio) as (rx & dio & Hx3 & Hrx).
  exists (snd (listen sb)), rx, dio, standby', tx, standby.
  split; [reflexivity|].
  split.
  { rewrite Hx3. subst sb. cbn [xfers with_last_received_id].
    rewrite Hx2, Hx1. reflexivity. }
  split; [exact Hlow1|]. split; [exact Hlow2|].
  split; [exact Hstandby'|]. split; [exact Hrx|].
  split.
  { pose proof (listen_keeps_attributes sb) as Hattr3.
    apply attributes_inv in Hattr3 as (_ & _ & Hl). exact Hl. }
  split.
  - rewrite listen_keeps_last_sent_id. exact Hsent2.
  - rewrite listen_keeps_env. exact Henv2.
Qed.

Lemma receive_packet_acknowledges_witness :
  let s := mkRFM9x (rx_regs [9; 5; 7; 0; 0x68]) (fun _ _ => [9; 5; 7; 0; 0x68])
                   [] [10.0; 10.5; 12.5]%float [0; _RH_RF95_TX_DONE]
                   true (Some 9) true ∅ ∅ in
  exists (s' : RFM9x) (rx dio standby' tx standby : Z),
    receive_packet true s
    = (Ok (Some (mkPacket [0x68] (100 - 137) (float_of_int 40 / 4)%float)), s')
    /\ xfers s'
       = (0xc0, [dio]) :: (0x81, [rx])
           :: (0x92, [0xFF]) :: (0x81, [standby'])
           :: (0xc0, [0x40]) :: (0x81, [tx]) :: (0xa2, [5])
           :: (0x80, [5; 9; 7; 0x80; 0x21])
           :: (0x8d, [0]) :: (0x81, [standby])
           :: (0x92, [0xff]) :: (0x8d, [0]) :: []
    /\ Z.land standby 0x07 = STANDBY_MODE
    /\ Z.land tx 0x07 = TX_MODE
    /\ Z.land standby' 0x07 = STANDBY_MODE
    /\ Z.land rx 0x07 = RX_MODE
    /\ last_received_id s' = <[5 := 7]> ∅
    /\ last_sent_id s' = ∅
    /\ env s' = ([12.5%float], []).
Proof.
  intros s.
  apply (receive_packet_acknowledges s 9 5 7 0 [0x68]
           10 [10.5%float] [12.5%float] [0] _RH_RF95_TX_DONE []).
  - repeat split; try reflexivity; try discriminate; [now left|now right].
  - exact (byte_regs_holding [9; 5; 7; 0; 0x68] ltac:(simpl; lia)).
  - reflexivity.
  - reflexivity.
  - reflexivity.
  - lia.
  - lia.
  - lia.
  - discriminate.
  - discriminate.
  - reflexivity.
  - reflexivity.
  - reflexivity.
  - repeat constructor.
  - repeat constructor.
  - discriminate.
Defined.

(** * The interrupt handler *)

Lemma single_bit_reads_zero (flags k : Z) :
  0 <= k ->
  Z.shiftr (Z.land flags (2 ^ k)) k = 0 -> Z.land flags (2 ^ k) = 0.
Proof.
  intros Hk Hzero. apply Z.bits_inj'. intros i Hi.
  rewrite Z.bits_0, Z.land_spec, Z.pow2_bits_eqb by lia.
  destruct (Z.eqb_spec k i) as [<-|Hne]; [|apply andb_false_r].
  rewrite andb_true_r.
  apply (f_equal (fun z => Z.testbit z 0)) in Hzero.
  rewrite Z.shiftr_spec, Z.land_spec, Z.bits_0, Z.pow2_bits_eqb in Hzero by lia.
  rewrite Z.add_0_l, Z.eqb_refl, andb_true_r in Hzero. exact Hzero.
Qed.

(** The two flags [_handle_interrupt] looks at, as the fields read them. *)
Lemma tx_done_field (s : RFM9x) :
  get_bits tx_done s
  = (Ok (Z.shiftr (Z.land (regs s _RH_RF95_REG_12_IRQ_FLAGS) (2 ^ 3)) 3), s).
Proof. reflexivity. Qed.

Lemma rx_done_field (s : RFM9x) :
  get_bits rx_done s
  = (Ok (Z.shiftr (Z.land (regs s _RH_RF95_REG_12_IRQ_FLAGS) (2 ^ 6)) 6), s).
Proof. reflexivity. Qed.

Lemma handle_interrupt_tx_done (packet_queue : list Packet) (s : RFM9x) :
  Z.land (regs s _RH_RF95_REG_12_IRQ_FLAGS) _RH_RF95_TX_DONE <> 0 ->
  _handle_interrupt packet_queue s = (Ok packet_queue, s).
Proof.
  intros Hset. unfold _handle_interrupt.
  rewrite (bind_run _ _ _ _ _ (tx_done_field s)).
  destruct (Z.eqb_spec (Z.shiftr (Z.land (regs s _RH_RF95_REG_12_IRQ_FLAGS)
                                         (2 ^ 3)) 3) 0) as [Hzero|_];
    [|reflexivity].
  now apply single_bit_reads_zero in Hzero.
Qed.

(** With TX_DONE clear on a chip that presents a packet, the handler goes
    on to [receive_packet]. *)
Lemma handle_interrupt_receives
      (packet_queue : list Packet) (s : RFM9x)
      (header_to header_from header_id header_flags : Z) (payload : list Z) :
  presents s header_to header_from header_id header_flags payload ->
  Z.land (regs s _RH_RF95_REG_12_IRQ_FLAGS) _RH_RF95_TX_DONE = 0 ->
  _handle_interrupt packet_queue s
  = (packet <- receive_packet true ;;
     match packet with
     | Some p => ret (packet_queue ++ [p])
     | None => ret packet_queue
     end) s.
Proof.
  intros (Hmode & Hdone & _) Hclear. unfold _handle_interrupt.
  rewrite (bind_run _ _ _ _ _ (tx_done_field s)).
  change (2 ^ 3) with _RH_RF95_TX_DONE. rewrite Hclear.
  change (negb (Z.shiftr 0 3 =? 0)) with false. cbv iota.
  rewrite (bind_run _ _ _ _ _ (rx_done_field s)).
  destruct (Z.eqb_spec (Z.shiftr (Z.land (regs s _RH_RF95_REG_12_IRQ_FLAGS)
                                         (2 ^ 6)) 6) 0) as [Hzero|_].
  { now apply single_bit_reads_zero in Hzero. }
  assert (Hmode' : Z.shiftr (Z.land (regs s (_address operation_mode))
                                    (_mask operation_mode))
                            (_offset operation_mode)
                   = RX_MODE).
  { rewrite get_bits_run in Hmode. cbn [fst] in Hmode.
    exact (f_equal (fun o => match o with Ok v => v | Raise _ => 0 end) Hmode). }
  erewrite bind_run by apply get_bits_run. cbv beta.
  rewrite Hmode', Z.eqb_refl. reflexivity.
Qed.

(** X22.  [_handle_interrupt] on a chip that presents a packet (with
    acknowledgements off, or the packet flagged as one): if TX_DONE is
    also set, the handler returns without touching the chip or the queue,
    and the packet stays where it is; if TX_DONE is clear and the chip's
    registers read as bytes, a packet whose id is new for its sender is
    put at the end of the queue and its id recorded, and a packet whose id
    is the one recorded is not queued. *)
Theorem handle_interrupt_queues_packet
        (packet_queue : list Packet) (s : RFM9x)
        (header_to header_from header_id header_flags : Z) (payload : list Z) :
  presents s header_to header_from header_id header_flags payload ->
  acks s = false \/ Z.land header_flags FLAGS_ACK <> 0 ->
  payload <> [0x21] ->
  (Z.land (regs s _RH_RF95_REG_12_IRQ_FLAGS) _RH_RF95_TX_DONE <> 0 ->
   _handle_interrupt packet_queue s = (Ok packet_queue, s))
  /\ (Z.land (regs s _RH_RF95_REG_12_IRQ_FLAGS) _RH_RF95_TX_DONE = 0 ->
      byte_regs s ->
      (last_received_id s !! header_from <> Some header_id ->
       exists s' : RFM9x,
         _handle_interrupt packet_queue s
         = (Ok (packet_queue
                  ++ [mkPacket payload
                        (regs s _RH_RF95_REG_1A_PKT_RSSI_VALUE - 137)
                        (float_of_int (regs s _RH_RF95_REG_19_PKT_SNR_VALUE)
                         / 4)%float]),
            s')
         /\ last_received_id s'
            = <[header_from := header_id]> (last_received_id s))
      /\ (last_received_id s !! header_from = Some header_id ->
          exists s' : RFM9x,
            _handle_interrupt packet_queue s = (Ok packet_queue, s')
            /\ fst (get_bits operation_mode s') = Ok RX_MODE
            /\ last_received_id s' = last_received_id s)).
Proof.
  intros Hpresents Hskip Hdata. split.
  { apply handle_interrupt_tx_done. }
  intros Hclear Hbytes.
  rewrite (handle_interrupt_receives _ _ _ _ _ _ _ Hpresents Hclear).
  destruct (receive_packet_returns _ _ _ _ _ _ Hpresents Hbytes Hskip)
    as (r & s' & Hrun).
  rewrite (bind_run _ _ _ _ _ Hrun).
  split.
  - intros Hnew.
    destruct (receive_packet_fresh _ _ _ _ _ _ _ _ Hpresents Hbytes Hnew
                Hdata Hrun)
      as [-> Hseen].
    exists s'. split; [reflexivity|exact Hseen].
  - intros Hseen.
    destruct (receive_packet_duplicate _ _ _ _ _ _ _ _ Hpresents Hbytes Hseen
                Hrun)
      as (-> & Hmode & _ & Htable).
    exists s'. split; [reflexivity|]. split; [exact Hmode|exact Htable].
Qed.

Lemma handle_interrupt_queues_packet_witness :
  let s := holding [255; 5; 7; 0; 0x68; 0x69] in
  let first := mkPacket [0x01] (-40) 9 in
  exists s' : RFM9x,
    _handle_interrupt [first] s
    = (Ok [first; mkPacket [0x68; 0x69] (100 - 137) (float_of_int 40 / 4)%float],
       s')
    /\ last_received_id s' = <[5 := 7]> ∅.
Proof.
  intros s first.
  assert (Hholds : presents s 255 5 7 0 [0x68; 0x69]).
  { repeat split; try reflexivity; try discriminate; [now left|now right]. }
  destruct (handle_interrupt_queues_packet [first] s 255 5 7 0 [0x68; 0x69]
              Hholds (or_introl eq_refl) ltac:(discriminate))
    as [_ Hclear].
  destruct (Hclear eq_refl
              (byte_regs_holding [255; 5; 7; 0; 0x68; 0x69]
                 ltac:(simpl; lia))) as [Hfresh _].
  apply Hfresh. discriminate.
Defined.

(** * The constructor *)

Lemma total_run {A} (m : M A) (s : RFM9x) (a : A) :
  fst (m s) = Ok a -> m s = (Ok a, snd (m s)).
Proof. destruct (m s) as [o s1]. cbn [fst snd]. now intros ->. Qed.

Lemma set_frequency_mhz_run (val : float) (frf : Z) (s : RFM9x) :
  (val <? 240)%float = false ->
  (960 <? val)%float = false ->
  frf_of val = Some frf ->
  let msb := Z.shiftr frf 16 in
  let mid := Z.land (Z.shiftr frf 8) 0xFF in
  let lsb := Z.land frf 0xFF in
  set_frequency_mhz val s
  = (Ok tt,
     with_bus s
       (upd (upd (upd (regs s) _RH_RF95_REG_06_FRF_MSB msb)
                 _RH_RF95_REG_07_FRF_MID mid)
            _RH_RF95_REG_08_FRF_LSB lsb)
       ((0x88, [lsb]) :: (0x87, [mid]) :: (0x86, [msb]) :: xfers s)).
Proof.
  intros Hlow Hhigh Hfrf. cbv zeta. unfold set_frequency_mhz.
  rewrite Hlow, Hhigh, Hfrf. cbn [orb]. cbv zeta.
  unfold frf_of in Hfrf.
  destruct (py_int _) as [n|]; [|discriminate]. injection Hfrf as <-.
  destruct (frf_bytes n) as (Hmsb & Hmid & Hlsb). cbv zeta in Hmsb, Hmid, Hlsb.
  rewrite (bind_run _ _ _ _ _ (_write_u8_int _ _ _ Hmsb)).
  rewrite (bind_run _ _ _ _ _ (_write_u8_int _ _ _ Hmid)).
  now rewrite (_write_u8_int _ _ _ Hlsb).
Qed.

(** The two modem configuration bytes as [__init__] leaves them, whatever
    the registers held. *)
Lemma init_modem_config1 (r : Z) :
  let v := Z.lor (Z.land (Z.lor (Z.land r 0x0f) (Z.shiftl 7 4)) 0xf1)
                 (Z.shiftl 1 1) in
  Z.shiftr (Z.land v 0xf0) 4 = 7 /\ Z.shiftr (Z.land v 0x0e) 1 = 1.
Proof. cbv zeta. split; byte_blast. Qed.

Lemma init_modem_config2 (r : Z) :
  let v := Z.land (Z.lor (Z.land r 0x0f) (Z.land (Z.shiftl 7 4) 0xf0)) 0xfb in
  Z.shiftr (Z.land v 0xf0) 4 = 7 /\ Z.land v 0x04 = 0.
Proof. cbv zeta. split; byte_blast. Qed.

(** [tx_power = 13], the last setter [__init__] calls, on either kind of
    board. *)
Lemma set_tx_power_13_run (s : RFM9x) :
  holds_byte _RH_RF95_REG_09_PA_CONFIG s ->
  holds_byte _RH_RF95_REG_4D_PA_DAC s ->
  set_tx_power (IntNum 13) s
  = (Ok tt,
     snd (set_bits output_power (if high_power s then 8 else 14)
            (snd (if high_power s
                  then set_bits pa_select 1
                         (snd (set_bits pa_dac _RH_RF95_PA_DAC_DISABLE s))
                  else set_bits max_power 7
                         (snd (set_bits pa_select 0 s)))))).
Proof.
  intros Hconfig Hdac.
  unfold set_tx_power. cbn [int_of_number]. unfold bind at 1, gets.
  destruct (high_power s).
  - change (Z.land ((if 20 <? 13 then 13 - 3 else 13) - 5) 15) with 8.
    cbn [Z.ltb Z.compare Pos.compare Pos.compare_cont orb].
    change (if 20 <? 13 then _RH_RF95_PA_DAC_ENABLE
            else _RH_RF95_PA_DAC_DISABLE) with _RH_RF95_PA_DAC_DISABLE.
    pose proof (set_bits_ok _RH_RF95_REG_4D_PA_DAC 0 3 _RH_RF95_PA_DAC_DISABLE
                  s eq_refl ltac:(unfold _RH_RF95_PA_DAC_DISABLE; simpl; lia)
                  Hdac) as Hrun1.
    pose proof (set_bits_holds_byte _RH_RF95_REG_09_PA_CONFIG pa_dac
                  _RH_RF95_PA_DAC_DISABLE s Hconfig) as Hconfig1.
    pose proof (set_bits_ok _RH_RF95_REG_09_PA_CONFIG 7 1 1 _ eq_refl
                  ltac:(simpl; lia) Hconfig1) as Hrun2.
    pose proof (set_bits_holds_byte _RH_RF95_REG_09_PA_CONFIG pa_select 1 _
                  Hconfig1) as Hconfig2.
    pose proof (set_bits_ok _RH_RF95_REG_09_PA_CONFIG 0 4 8 _ eq_refl
                  ltac:(simpl; lia) Hconfig2) as Hrun3.
    fold pa_dac in Hrun1. fold pa_select in Hrun2. fold output_power in Hrun3.
    rewrite (bind_run _ _ _ _ _ (bind_run _ _ _ _ _ Hrun1)).
    unfold ret. rewrite (bind_run _ _ _ _ _ Hrun2). exact Hrun3.
  - change (Z.land (13 + 1) 15) with 14.
    cbn [Z.leb Z.compare Pos.compare Pos.compare_cont andb negb].
    pose proof (set_bits_ok _RH_RF95_REG_09_PA_CONFIG 7 1 0 s eq_refl
                  ltac:(simpl; lia) Hconfig) as Hrun1.
    pose proof (set_bits_holds_byte _RH_RF95_REG_09_PA_CONFIG pa_select 0 s
                  Hconfig) as Hconfig1.
    pose proof (set_bits_ok _RH_RF95_REG_09_PA_CONFIG 4 3 7 _ eq_refl
                  ltac:(simpl; lia) Hconfig1) as Hrun2.
    pose proof (set_bits_holds_byte _RH_RF95_REG_09_PA_CONFIG max_power 7 _
                  Hconfig1) as Hconfig2.
    pose proof (set_bits_ok _RH_RF95_REG_09_PA_CONFIG 0 4 14 _ eq_refl
                  ltac:(simpl; lia) Hconfig2) as Hrun3.
    fold pa_select in Hrun1. fold max_power in Hrun2.
    fold output_power in Hrun3.
    rewrite (bind_run _ _ _ _ _ Hrun1), (bind_run _ _ _ _ _ Hrun2).
    exact Hrun3.
Qed.

Lemma set_tx_power_13_reads (s : RFM9x) :
  holds_byte _RH_RF95_REG_09_PA_CONFIG s ->
  holds_byte _RH_RF95_REG_4D_PA_DAC s ->
  fst (tx_power (snd (set_tx_power (IntNum 13) s))) = Ok 13
  /\ high_power (snd (set_tx_power (IntNum 13) s)) = high_power s.
Proof.
  intros Hconfig Hdac. rewrite set_tx_power_13_run by assumption. cbn [snd].
  destruct (high_power s) eqn:Hhp.
  - split; [|now rewrite !set_bits_attributes].
    rewrite (tx_power_of_field _ 8).
    + rewrite !set_bits_attributes, Hhp. reflexivity.
    + apply (field_after_set _RH_RF95_REG_09_PA_CONFIG 0 4);
        first [reflexivity
              |now apply set_bits_holds_byte, set_bits_holds_byte
              |simpl; lia].
  - split; [|now rewrite !set_bits_attributes].
    rewrite (tx_power_of_field _ 14).
    + rewrite !set_bits_attributes, Hhp. reflexivity.
    + apply (field_after_set _RH_RF95_REG_09_PA_CONFIG 0 4);
        first [reflexivity
              |now apply set_bits_holds_byte, set_bits_holds_byte
              |simpl; lia].
Qed.

Lemma set_tx_power_13_frame (s : RFM9x) (a : Z) :
  holds_byte _RH_RF95_REG_09_PA_CONFIG s ->
  holds_byte _RH_RF95_REG_4D_PA_DAC s ->
  a <> _RH_RF95_REG_09_PA_CONFIG -> a <> _RH_RF95_REG_4D_PA_DAC ->
  regs (snd (set_tx_power (IntNum 13) s)) a = regs s a.
Proof.
  intros Hbyte9 Hbyte4d Hconfig Hdac.
  rewrite set_tx_power_13_run by assumption. cbn [snd].
  destruct (high_power s); now rewrite !regs_elsewhere_set.
Qed.

Lemma get_bits_value (f : RegisterBits) (s : RFM9x) (v : Z) :
  fst (get_bits f s) = Ok v -> get_bits f s = (Ok v, s).
Proof. rewrite get_bits_run. cbn [fst]. now intros [= ->]. Qed.

(** What a field write that went through leaves in its own field and in
    the fields beside it. *)
Lemma field_after_run (address offset bits v : Z) (s s' : RFM9x) :
  bits_ok offset bits = true ->
  0 <= v < 2 ^ bits ->
  set_bits (new_RegisterBits address offset bits) v s = (Ok tt, s') ->
  fst (get_bits (new_RegisterBits address offset bits) s') = Ok v.
Proof.
  intros Hok Hv Hrun.
  destruct (set_bits_cases (new_RegisterBits address offset bits) v s)
    as [[_ Heq]|[_ Heq]]; rewrite Heq in Hrun; [|discriminate].
  injection Hrun as <-. cbn [_address _offset new_RegisterBits].
  rewrite get_bits_upd. f_equal. now apply field_of_written.
Qed.

Lemma field_beside_run (address offset bits v offset' bits' : Z)
      (s s' : RFM9x) :
  bits_ok offset bits = true ->
  bits_ok offset' bits' = true ->
  offset' + bits' <= offset \/ offset + bits <= offset' ->
  0 <= v < 2 ^ bits ->
  set_bits (new_RegisterBits address offset bits) v s = (Ok tt, s') ->
  fst (get_bits (new_RegisterBits address offset' bits') s')
  = fst (get_bits (new_RegisterBits address offset' bits') s).
Proof.
  intros Hok Hok' Hapart Hv Hrun.
  rewrite <- (field_beside_set address offset bits v offset' bits' s)
    by assumption.
  now rewrite Hrun.
Qed.

Ltac name_result H st :=
  cbv zeta in H;
  match type of H with _ = (_, ?result) => set (st := result) in H end.

(** X23.  [__init__] checks the version register before it writes
    anything: a value other than 18 raises [RuntimeError] with no
    transfer made.  With version 18 on a chip whose registers read as
    bytes, a preamble length in [0, 65535] and a frequency in [240, 960]
    MHz whose FRF value is [frf], it returns, and the object then reads
    back the defaults: Standby in LoRa mode (with the low-frequency bit
    cleared above 525 MHz), bandwidth 125000, coding rate 5, spreading
    factor 7, CRC off, the preamble length and the FRF bytes as given,
    transmit power 13 on either kind of board, the filter on the
    broadcast address, acknowledgements off and both id tables empty. *)
Theorem init_configures_defaults
        (frequency : float) (preamble : Z) (hp : bool) (frf : Z) (s : RFM9x) :
  0 <= preamble <= 65535 ->
  (frequency <? 240)%float = false ->
  (960 <? frequency)%float = false ->
  frf_of frequency = Some frf ->
  (regs s _RH_RF95_REG_42_VERSION <> 18 ->
   __init__ frequency preamble hp s
   = (Raise (RuntimeError
               "Failed to find rfm9x with expected version -- check wiring"),
      with_high_power s hp))
  /\ (regs s _RH_RF95_REG_42_VERSION = 18 ->
      byte_regs s ->
      exists s' : RFM9x,
        __init__ frequency preamble hp s = (Ok tt, s')
        /\ fst (get_bits operation_mode s') = Ok STANDBY_MODE
        /\ fst (get_bits long_range_mode s') = Ok 1
        /\ ((525 <? frequency)%float = true ->
            fst (get_bits low_frequency_mode s') = Ok 0)
        /\ fst (signal_bandwidth s') = Ok 125000
        /\ fst (coding_rate s') = Ok 5
        /\ fst (spreading_factor s') = Ok 7
        /\ fst (enable_crc s') = Ok false
        /\ fst (preamble_length s') = Ok preamble
        /\ fst (tx_power s') = Ok 13
        /\ (regs s' _RH_RF95_REG_06_FRF_MSB = Z.shiftr frf 16
            /\ regs s' _RH_RF95_REG_07_FRF_MID = Z.land (Z.shiftr frf 8) 0xFF
            /\ regs s' _RH_RF95_REG_08_FRF_LSB = Z.land frf 0xFF)
        /\ attributes s' = (hp, Some _RH_BROADCAST_ADDRESS, false, ∅)
        /\ last_sent_id s' = ∅).
Proof.
  intros Hpre Hlow Hhigh Hfrf. split.
  { intros Hversion. unfold __init__.
    rewrite (bind_run _ _ _ _ _ (total_run (modify _) s tt eq_refl)).
    unfold bind at 1, _read_u8 at 1, gets at 1.
    change (regs (snd (modify (fun s1 => with_high_power s1 hp) s))
                 _RH_RF95_REG_42_VERSION)
      with (regs s _RH_RF95_REG_42_VERSION).
    destruct (Z.eqb_spec (regs s _RH_RF95_REG_42_VERSION) 18);
      [contradiction|reflexivity]. }
  intros Hversion Hbytes.
  remember (525 <? frequency)%float as lf eqn:Hlf.
  pose (s0 := with_high_power s hp).
  (* sleep, then LoRa mode *)
  assert (Hbyte0 : holds_byte _RH_RF95_REG_01_OP_MODE s0) by apply Hbytes.
  pose proof (set_bits_run _RH_RF95_REG_01_OP_MODE 0 3 eq_refl SLEEP_MODE s0
                Hbyte0 ltac:(unfold SLEEP_MODE; simpl; lia)) as Hrun1.
  fold operation_mode in Hrun1. name_result Hrun1 s1.
  assert (Hbyte1 : holds_byte _RH_RF95_REG_01_OP_MODE s1).
  { pose proof (set_bits_holds_byte _RH_RF95_REG_01_OP_MODE operation_mode
                  SLEEP_MODE s0 Hbyte0) as H. now rewrite Hrun1 in H. }
  pose proof (set_bits_run _RH_RF95_REG_01_OP_MODE 7 1 eq_refl 1 s1
                Hbyte1 ltac:(simpl; lia)) as Hrun2.
  fold long_range_mode in Hrun2. name_result Hrun2 s2.
  assert (Hbyte2 : holds_byte _RH_RF95_REG_01_OP_MODE s2).
  { pose proof (set_bits_holds_byte _RH_RF95_REG_01_OP_MODE long_range_mode
                  1 s1 Hbyte1) as H. now rewrite Hrun2 in H. }
  assert (Hmode2 : fst (get_bits operation_mode s2) = Ok SLEEP_MODE).
  { unfold operation_mode.
    rewrite (field_beside_run _RH_RF95_REG_01_OP_MODE 7 1 1 0 3 s1 s2)
      by (try reflexivity; try exact Hrun2; simpl; lia).
    apply (field_after_run _RH_RF95_REG_01_OP_MODE 0 3 SLEEP_MODE s0 s1);
      first [reflexivity|exact Hrun1|unfold SLEEP_MODE; simpl; lia]. }
  assert (Hlora2 : fst (get_bits long_range_mode s2) = Ok 1).
  { apply (field_after_run _RH_RF95_REG_01_OP_MODE 7 1 1 s1 s2);
      first [reflexivity|exact Hrun2|simpl; lia]. }
  (* the low-frequency bit *)
  pose (s3 := snd ((if lf then set_bits low_frequency_mode 0 else ret tt) s2)).
  assert (Hrun3 : (if lf then set_bits low_frequency_mode 0 else ret tt) s2
                  = (Ok tt, s3)).
  { subst s3. destruct lf; [|reflexivity].
    apply (set_bits_ok _RH_RF95_REG_01_OP_MODE 3 1 0 s2 eq_refl);
      [simpl; lia|exact Hbyte2]. }
  assert (Hbyte3 : holds_byte _RH_RF95_REG_01_OP_MODE s3).
  { subst s3. destruct lf; [|exact Hbyte2].
    now apply set_bits_holds_byte. }
  assert (Hlora3 : fst (get_bits long_range_mode s3) = Ok 1
                   /\ (lf = true
                       -> fst (get_bits low_frequency_mode s3) = Ok 0)).
  { subst s3. destruct lf; cbn [snd ret].
    - split.
      + unfold long_range_mode, low_frequency_mode.
        rewrite (field_beside_set _RH_RF95_REG_01_OP_MODE 3 1 0 7 1)
          by (try reflexivity; simpl; lia).
        exact Hlora2.
      + intros _.
        apply (field_after_set _RH_RF95_REG_01_OP_MODE 3 1);
          first [reflexivity|exact Hbyte2|simpl; lia].
    - split; [exact Hlora2|discriminate]. }
  destruct Hlora3 as [Hlora3 Hlf3].
  assert (Hkept3 : high_power s3 = hp
                   /\ regs s3 _RH_RF95_REG_09_PA_CONFIG
                      = regs s _RH_RF95_REG_09_PA_CONFIG
                   /\ regs s3 _RH_RF95_REG_4D_PA_DAC
                      = regs s _RH_RF95_REG_4D_PA_DAC).
  { subst s3. destruct lf; cbn [snd ret].
    - rewrite set_bits_attributes,
        !regs_elsewhere_set by (cbv; discriminate).
      repeat split.
    - repeat split. }
  destruct Hkept3 as (Hhp3 & Hconfig3 & Hdac3).
  (* the FIFO bases, then idle *)
  pose proof (_write_u8_int _RH_RF95_REG_0E_FIFO_TX_BASE_ADDR 0 s3
                ltac:(lia)) as Hrun3a.
  name_result Hrun3a s3a.
  pose proof (_write_u8_int _RH_RF95_REG_0F_FIFO_RX_BASE_ADDR 0 s3a
                ltac:(lia)) as Hrun3b.
  name_result Hrun3b s3b.
  assert (Hbyte3b : holds_byte _RH_RF95_REG_01_OP_MODE s3b) by exact Hbyte3.
  pose proof (set_bits_run _RH_RF95_REG_01_OP_MODE 0 3 eq_refl STANDBY_MODE
                s3b Hbyte3b ltac:(unfold STANDBY_MODE; simpl; lia)) as Hrun4.
  fold operation_mode in Hrun4. name_result Hrun4 s4.
  assert (Hmode4 : fst (get_bits operation_mode s4) = Ok STANDBY_MODE
                   /\ fst (get_bits long_range_mode s4) = Ok 1
                   /\ (lf = true
                       -> fst (get_bits low_frequency_mode s4) = Ok 0)).
  { unfold operation_mode, long_range_mode, low_frequency_mode.
    split; [|split].
    - apply (field_after_run _RH_RF95_REG_01_OP_MODE 0 3 STANDBY_MODE s3b s4);
        first [reflexivity|exact Hrun4|unfold STANDBY_MODE; simpl; lia].
    - rewrite (field_beside_run _RH_RF95_REG_01_OP_MODE 0 3 STANDBY_MODE 7 1
                 s3b s4)
        by (try reflexivity; try exact Hrun4; unfold STANDBY_MODE; simpl; lia).
      exact Hlora3.
    - rewrite (field_beside_run _RH_RF95_REG_01_OP_MODE 0 3 STANDBY_MODE 3 1
                 s3b s4)
        by (try reflexivity; try exact Hrun4; unfold STANDBY_MODE; simpl; lia).
      exact Hlf3. }
  destruct Hmode4 as (Hmode4 & Hlora4 & Hlf4).
  (* the modem configuration, the preamble and the frequency *)
  pose proof (set_signal_bandwidth_run 125000 s4) as Hrun5a.
  name_result Hrun5a s5a.
  pose proof (set_coding_rate_run 5 s5a) as Hrun5. name_result Hrun5 s5.
  pose proof (set_spreading_factor_run 7 s5) as Hrun6a.
  name_result Hrun6a s6a.
  pose proof (set_enable_crc_run false s6a ltac:(discriminate)) as Hrun6.
  name_result Hrun6 s6.
  pose proof (_write_u8_int _RH_RF95_REG_26_MODEM_CONFIG3 0 s6 ltac:(lia))
    as Hrun7a.
  name_result Hrun7a s7a.
  pose proof (set_preamble_length_run preamble s7a Hpre) as Hrun7.
  name_result Hrun7 s7.
  pose proof (set_frequency_mhz_run frequency frf s7 Hlow Hhigh Hfrf)
    as Hrun8.
  name_result Hrun8 s8.
  (* transmit power *)
  assert (Hconfig8 : holds_byte _RH_RF95_REG_09_PA_CONFIG s8).
  { unfold holds_byte.
    change (regs s8 _RH_RF95_REG_09_PA_CONFIG)
      with (regs s3 _RH_RF95_REG_09_PA_CONFIG).
    rewrite Hconfig3. apply Hbytes. }
  assert (Hdac8 : holds_byte _RH_RF95_REG_4D_PA_DAC s8).
  { unfold holds_byte.
    change (regs s8 _RH_RF95_REG_4D_PA_DAC)
      with (regs s3 _RH_RF95_REG_4D_PA_DAC).
    rewrite Hdac3. apply Hbytes. }
  pose (s9 := snd (set_tx_power (IntNum 13) s8)).
  assert (Hrun9 : set_tx_power (IntNum 13) s8 = (Ok tt, s9))
    by (subst s9; now rewrite (set_tx_power_13_run s8 Hconfig8 Hdac8)).
  assert (Hhp : high_power s8 = hp) by exact Hhp3.
  exists (with_fresh_tables s9).
  split.
  { unfold __init__.
    rewrite (bind_run _ _ _ _ _ (total_run (modify _) s tt eq_refl)).
    unfold bind at 1, _read_u8 at 1, gets at 1.
    change (regs (snd (modify (fun s1 => with_high_power s1 hp) s))
                 _RH_RF95_REG_42_VERSION)
      with (regs s _RH_RF95_REG_42_VERSION).
    rewrite Hversion. change (negb (18 =? 18)) with false. cbv iota.
    change (snd (modify (fun s1 => with_high_power s1 hp) s)) with s0.
    unfold sleep, idle.
    rewrite (bind_run _ _ _ _ _ Hrun1), (bind_run _ _ _ _ _ Hrun2).
    rewrite (bind_run _ _ _ _ _ (get_bits_value _ s2 _ Hmode2)).
    rewrite (bind_run _ _ _ _ _ (get_bits_value _ s2 _ Hlora2)).
    change (negb (SLEEP_MODE =? SLEEP_MODE) || (1 =? 0)) with false. cbv iota.
    rewrite <- Hlf.
    rewrite (bind_run _ _ _ _ _ Hrun3), (bind_run _ _ _ _ _ Hrun3a),
      (bind_run _ _ _ _ _ Hrun3b), (bind_run _ _ _ _ _ Hrun4),
      (bind_run _ _ _ _ _ Hrun5a), (bind_run _ _ _ _ _ Hrun5),
      (bind_run _ _ _ _ _ Hrun6a), (bind_run _ _ _ _ _ Hrun6),
      (bind_run _ _ _ _ _ Hrun7a), (bind_run _ _ _ _ _ Hrun7),
      (bind_run _ _ _ _ _ Hrun8), (bind_run _ _ _ _ _ Hrun9).
    reflexivity. }
  assert (Hframe : forall a,
             a <> _RH_RF95_REG_09_PA_CONFIG -> a <> _RH_RF95_REG_4D_PA_DAC ->
             regs (with_fresh_tables s9) a = regs s8 a).
  { intros a Hconfig Hdac.
    exact (set_tx_power_13_frame s8 a Hconfig8 Hdac8 Hconfig Hdac). }
  assert (Hfield : forall f,
             _address f <> _RH_RF95_REG_09_PA_CONFIG ->
             _address f <> _RH_RF95_REG_4D_PA_DAC ->
             fst (get_bits f (with_fresh_tables s9)) = fst (get_bits f s8)).
  { intros f Hconfig Hdac. rewrite !get_bits_run. cbn [fst].
    now rewrite Hframe. }
  destruct (set_tx_power_13_reads s8 Hconfig8 Hdac8) as [Hlevel Hboard].
  fold s9 in Hlevel, Hboard.
  destruct (init_modem_config1 (regs s4 _RH_RF95_REG_1D_MODEM_CONFIG1))
    as [Hbw Hcr].
  destruct (init_modem_config2 (regs s5 _RH_RF95_REG_1E_MODEM_CONFIG2))
    as [Hsf Hcrc].
  split; [rewrite Hfield by discriminate; exact Hmode4|].
  split; [rewrite Hfield by discriminate; exact Hlora4|].
  split; [intros Htrue; rewrite Hfield by discriminate; exact (Hlf4 Htrue)|].
  split.
  { unfold signal_bandwidth, bind, _read_u8, gets. cbn [fst snd].
    rewrite Hframe by discriminate.
    change (regs s8 _RH_RF95_REG_1D_MODEM_CONFIG1)
      with (Z.lor (Z.land (Z.lor (Z.land (regs s4 _RH_RF95_REG_1D_MODEM_CONFIG1)
                                         0x0f) (Z.shiftl 7 4)) 0xf1)
                  (Z.shiftl 1 1)).
    rewrite Hbw. reflexivity. }
  split.
  { unfold coding_rate, bind, _read_u8, gets. cbn [fst snd].
    rewrite Hframe by discriminate.
    change (regs s8 _RH_RF95_REG_1D_MODEM_CONFIG1)
      with (Z.lor (Z.land (Z.lor (Z.land (regs s4 _RH_RF95_REG_1D_MODEM_CONFIG1)
                                         0x0f) (Z.shiftl 7 4)) 0xf1)
                  (Z.shiftl 1 1)).
    rewrite Hcr. reflexivity. }
  split.
  { unfold spreading_factor, bind, _read_u8, gets. cbn [fst snd].
    rewrite Hframe by discriminate.
    change (regs s8 _RH_RF95_REG_1E_MODEM_CONFIG2)
      with (Z.land (Z.lor (Z.land (regs s5 _RH_RF95_REG_1E_MODEM_CONFIG2) 0x0f)
                          (Z.land (Z.shiftl 7 4) 0xf0)) 0xfb).
    rewrite Hsf. reflexivity. }
  split.
  { unfold enable_crc, bind, _read_u8, gets. cbn [fst snd].
    rewrite Hframe by discriminate.
    change (regs s8 _RH_RF95_REG_1E_MODEM_CONFIG2)
      with (Z.land (Z.lor (Z.land (regs s5 _RH_RF95_REG_1E_MODEM_CONFIG2) 0x0f)
                          (Z.land (Z.shiftl 7 4) 0xf0)) 0xfb).
    rewrite Hcrc. reflexivity. }
  split.
  { unfold preamble_length, bind, _read_u8, gets. cbn [fst snd].
    rewrite !Hframe by discriminate.
    change (regs s8 32) with (Z.land (Z.shiftr preamble 8) 0xFF).
    change (regs s8 33) with (Z.land preamble 0xFF).
    unfold ret. cbn [fst]. f_equal.
    now apply preamble_bytes_recombine. }
  split.
  { rewrite <- Hlevel. unfold tx_power, bind, gets. rewrite !get_bits_run.
    cbn [high_power with_fresh_tables regs].
    destruct (high_power s9); reflexivity. }
  split.
  { rewrite !Hframe by discriminate. repeat split. }
  split; [|reflexivity].
  unfold attributes. cbn [high_power receive_filter_address acks
                            last_received_id with_fresh_tables].
  now rewrite Hboard, Hhp.
Qed.

Lemma init_configures_defaults_witness :
  exists s' : RFM9x,
    __init__ 915 8 true
             (after_init (fun a => if a =? _RH_RF95_REG_42_VERSION then 18
                                   else 0))
    = (Ok tt, s')
    /\ fst (signal_bandwidth s') = Ok 125000
    /\ fst (coding_rate s') = Ok 5
    /\ fst (spreading_factor s') = Ok 7
    /\ fst (preamble_length s') = Ok 8
    /\ fst (tx_power s') = Ok 13.
Proof.
  destruct (init_configures_defaults
              915 8 true 14991360
              (after_init (fun a => if a =? _RH_RF95_REG_42_VERSION then 18
                                    else 0))
              ltac:(lia) eq_refl eq_refl eq_refl)
    as [_ Hinit].
  assert (Hbytes : byte_regs
                     (after_init (fun a => if a =? _RH_RF95_REG_42_VERSION
                                           then 18 else 0))).
  { intros a. unfold holds_byte. cbn [regs after_init].
    destruct (a =? _RH_RF95_REG_42_VERSION); lia. }
  destruct (Hinit eq_refl Hbytes)
    as (s' & Hrun & _ & _ & _ & Hbw & Hcr & Hsf & _ & Hpre & Hpower & _).
  exists s'. repeat split; assumption.
Defined.

(** * Acknowledging a packet whose id is 0 *)

(** The id [allocate_id] hands out for a destination. *)
Lemma next_id_range (s : RFM9x) (to : value) :
  valid_sent_ids s ->
  let next := match last_sent_id s !! to with
              | Some last => last + 1
              | None => 1
              end in
  1 <= (if next <? 254 then next else 1) <= 253.
Proof.
  intros Hvalid. cbv zeta.
  destruct (last_sent_id s !! to) as [last|] eqn:Hlast.
  - specialize (Hvalid to last Hlast).
    destruct (Z.ltb_spec (last + 1) 254); lia.
  - cbn. lia.
Qed.

(** The first half of [send] on a list header of four bytes whose id is
    0: the id is allocated, then the packet is loaded. *)
Lemma send_load_allocating (data : list Z) (a b d : Z) (s : RFM9x) :
  (0 < length data <= 251)%nat ->
  forallb is_byte data = true ->
  holds_byte _RH_RF95_REG_01_OP_MODE s ->
  0 <= a <= 255 -> 0 <= b <= 255 -> 0 <= d <= 255 ->
  valid_sent_ids s ->
  let next := match last_sent_id s !! Int a with
              | Some last => last + 1
              | None => 1
              end in
  let id := if next <? 254 then next else 1 in
  exists (s1 : RFM9x) (standby tx : Z),
    send_load data (List [Int a; Int b; Int 0; Int d]) s
    = (Ok (List [Int a; Int b; Int id; Int d]), s1)
    /\ xfers s1
       = (0xc0, [0x40]) :: (0x81, [tx])
           :: (0xa2, [Z.of_nat (length ([a; b; id; d] ++ data))])
           :: (0x80, [a; b; id; d] ++ data)
           :: (0x8d, [0]) :: (0x81, [standby]) :: xfers s
    /\ Z.land standby 0x07 = STANDBY_MODE
    /\ Z.land tx 0x07 = TX_MODE
    /\ holds_byte _RH_RF95_REG_01_OP_MODE s1
    /\ last_sent_id s1 = <[Int a := id]> (last_sent_id s).
Proof.
  intros Hlen Hdata Hbyte Ha Hb Hd Hvalid next id.
  pose proof (next_id_range s (Int a) Hvalid) as Hid. cbv zeta in Hid.
  fold next in Hid. fold id in Hid.
  set (s0 := with_last_sent_id s (<[Int a := id]> (last_sent_id s))).
  assert (Hpack : struct_pack (items_of (List [Int a; Int b; Int id; Int d]))
                  = Some [a; b; id; d])
    by (cbn [items_of struct_pack]; now rewrite !pack_byte_in_range by lia).
  destruct (load_fifo_run data _ _ s0 Hpack Hbyte Hdata ltac:(lia))
    as (s1 & standby & tx & Hload & Hx & Hlow1 & Hlow2 & Hbyte1).
  exists s1, standby, tx.
  split; [|split; [exact Hx|]].
  { rewrite send_load_good_length by (try reflexivity; lia).
    simpl (items_of _ !! _). unfold allocate_id.
    erewrite bind_run by (unfold bind, gets, modify, ret; reflexivity).
    exact Hload. }
  split; [exact Hlow1|]. split; [exact Hlow2|]. split; [exact Hbyte1|].
  pose proof (load_fifo_keeps last_sent_id last_sent_id_attribute_only
                data (List [Int a; Int b; Int id; Int d]) s0) as Hkeep.
  now rewrite Hload in Hkeep.
Qed.

(** X24.  The acknowledgement of a packet whose id is 0 does not carry
    id 0.  Take a chip whose registers read as bytes, [acks] on, every
    recorded sent id between 1 and 253, and a packet addressed to the
    node, not flagged as an acknowledgement, with id 0 where 0 is not the
    id last recorded for its sender and a payload other than the single
    byte 0x21; the chip raises [tx_done] in time.  The acknowledgement's
    header is built with id 0, which [send] takes for "not set": the id
    sent is [last_sent_id[from] + 1], or 1 when there is none or that
    would be 254.  The transfers of the call are those of an
    acknowledged reception, with the FIFO burst
    [from, to, id, 0x80, 0x21]; [last_sent_id[from]] is set to that id,
    and the packet itself is returned and recorded with id 0. *)
Theorem receive_packet_acknowledges_id_zero_with_fresh_id
        (s : RFM9x) (header_to header_from header_flags : Z)
        (payload : list Z)
        (start : float) (quiet rest : list float)
        (polls : list Z) (done : Z) (more : list Z) :
  presents s header_to header_from 0 header_flags payload ->
  byte_regs s ->
  acks s = true ->
  Z.land header_flags FLAGS_ACK = 0 ->
  receive_filter_address s = Some header_to ->
  0 <= header_to <= 255 -> 0 <= header_from <= 255 ->
  valid_sent_ids s ->
  last_received_id s !! header_from <> Some 0 ->
  payload <> [0x21] ->
  monotonic s = start :: quiet ++ rest ->
  irq_events s = polls ++ done :: more ->
  length polls = length quiet ->
  Forall (fun flags => Z.land flags _RH_RF95_TX_DONE = 0) polls ->
  Forall (fun now => (2 <=? now - start)%float = false) quiet ->
  Z.land done _RH_RF95_TX_DONE <> 0 ->
  let next := match last_sent_id s !! Int header_from with
              | Some last => last + 1
              | None => 1
              end in
  let id := if next <? 254 then next else 1 in
  exists (s' : RFM9x) (rx dio standby' tx standby : Z),
    receive_packet true s
    = (Ok (Some (mkPacket payload
                   (regs s _RH_RF95_REG_1A_PKT_RSSI_VALUE - 137)
                   (float_of_int (regs s _RH_RF95_REG_19_PKT_SNR_VALUE) / 4)%float)),
       s')
    /\ 1 <= id <= 253
    /\ xfers s'
       = (0xc0, [dio]) :: (0x81, [rx])
           :: (0x92, [0xFF]) :: (0x81, [standby'])
           :: (0xc0, [0x40]) :: (0x81, [tx]) :: (0xa2, [5])
           :: (0x80, [header_from; header_to; id; 0x80; 0x21])
           :: (0x8d, [0]) :: (0x81, [standby])
           :: (0x92, [0xff])
           :: (0x8d, [regs s _RH_RF95_REG_10_FIFO_RX_CURRENT_ADDR]) :: xfers s
    /\ Z.land standby 0x07 = STANDBY_MODE
    /\ Z.land tx 0x07 = TX_MODE
    /\ Z.land standby' 0x07 = STANDBY_MODE
    /\ Z.land rx 0x07 = RX_MODE
    /\ last_sent_id s' = <[Int header_from := id]> (last_sent_id s)
    /\ last_received_id s' = <[header_from := 0]> (last_received_id s)
    /\ env s' = (rest, more).
Proof.
  intros Hpresents Hbytes Hacks Hflag Hfilter Hto Hfrom Hvalid Hnew Hdata
         Hclock Hev Hlen Hclear Hquiet Hdone next id.
  destruct (receive_packet_header_step _ _ _ _ _ _ Hpresents Hbytes)
    as (o & sa & Hack & Hattr & Hmode & Hdio & ->).
  destruct (fifo_read_frame s) as (Hattr0 & Hsent0 & Henv0 & Hbyte0).
  apply attributes_inv in Hattr0 as (Hf0 & Ha0 & _).
  assert (Hvalid' : valid_sent_ids (fifo_read s))
    by (intros to i; rewrite Hsent0; apply Hvalid).
  pose proof (next_id_range s (Int header_from) Hvalid) as Hid.
  cbv zeta in Hid. fold next in Hid. fold id in Hid.
  destruct (send_load_allocating [0x21] header_from header_to FLAGS_ACK
              (fifo_read s) ltac:(simpl; lia) eq_refl
              (Hbyte0 _RH_RF95_REG_01_OP_MODE ltac:(cbv; discriminate)
                 (Hbytes _))
              Hfrom Hto ltac:(unfold FLAGS_ACK; lia) Hvalid')
    as (s1 & standby & tx & Hload & Hx1 & Hlow1 & Hlow2 & Hbyte1 & Hsent1).
  cbv zeta in Hload, Hx1, Hsent1.
  rewrite Hsent0 in Hload, Hx1, Hsent1.
  fold next in Hload, Hx1, Hsent1. fold id in Hload, Hx1, Hsent1.
  rewrite (fifo_read_eq s (Hbytes _)) in Hx1. cbn [xfers with_bus] in Hx1.
  assert (Henv1 : env s1 = env s).
  { pose proof (send_load_keeps_env [0x21]
                  (List [Int header_from; Int header_to; Int 0;
                         Int FLAGS_ACK]) (fifo_read s)) as Hkeep.
    rewrite Hload in Hkeep. cbn [snd] in Hkeep. now rewrite Hkeep. }
  unfold env in Henv1. injection Henv1 as Hclock1 Hev1.
  rewrite Hclock in Hclock1. rewrite Hev in Hev1.
  destruct (send_wait_completes 2%float s1 start quiet rest polls done more
              Hbyte1 Hclock1 Hev1 Hlen Hclear Hquiet Hdone)
    as (s2 & Hwait & _ & _ & (standby' & Hx2 & Hstandby') & Henv2).
  assert (Hsent2 : last_sent_id s2
                   = <[Int header_from := id]> (last_sent_id s)).
  { pose proof (send_wait_keeps last_sent_id last_sent_id_attribute_only
                  2%float s1) as Hkeep.
    rewrite Hwait in Hkeep. cbn [snd] in Hkeep.
    now rewrite Hkeep, Hsent1. }
  assert (Hack' : acknowledge header_from 0 header_flags (fifo_read s)
                  = (Ok tt, s2)).
  { unfold acknowledge, bind at 1 2, gets.
    rewrite Ha0, Hf0, Hacks, Hfilter, Hflag. cbn [andb Z.eqb].
    unfold send. unfold bind at 1. unfold bind at 1.
    rewrite Hload. unfold bind at 1. rewrite Hwait. reflexivity. }
  rewrite Hack' in Hack. injection Hack as <- <-.
  rewrite bool_decide_eq_false_2 by exact Hnew.
  cbv zeta. rewrite not_pure_ack by assumption.
  set (sb := with_last_received_id s2
               (<[header_from := 0]> (last_received_id s))).
  destruct (listen_bus sb Hmode Hdio) as (rx & dio & Hx3 & Hrx).
  exists (snd (listen sb)), rx, dio, standby', tx, standby.
  split; [reflexivity|]. split; [exact Hid|].
  split.
  { rewrite Hx3. subst sb. cbn [xfers with_last_received_id].
    rewrite Hx2, Hx1. reflexivity. }
  split; [exact Hlow1|]. split; [exact Hlow2|].
  split; [exact Hstandby'|]. split; [exact Hrx|].
  split; [rewrite listen_keeps_last_sent_id; exact Hsent2|].
  split.
  { pose proof (listen_keeps_attributes sb) as Hattr3.
    apply attributes_inv in Hattr3 as (_ & _ & Hl). exact Hl. }
  rewrite listen_keeps_env. exact Henv2.
Qed.

(** A packet with id 0 from node 5, whose last acknowledgement went out
    with id 253: the acknowledgement carries id 1. *)
Lemma receive_packet_acknowledges_id_zero_with_fresh_id_witness :
  let s := mkRFM9x (rx_regs [9; 5; 0; 0; 0x68]) (fun _ _ => [9; 5; 0; 0; 0x68])
                   [] [10.0; 10.5; 12.5]%float [0; _RH_RF95_TX_DONE]
                   true (Some 9) true (<[Int 5 := 253]> ∅) ∅ in
  exists (s' : RFM9x) (rx dio standby' tx standby : Z),
    receive_packet true s
    = (Ok (Some (mkPacket [0x68] (100 - 137) (float_of_int 40 / 4)%float)), s')
    /\ xfers s'
       = (0xc0, [dio]) :: (0x81, [rx])
           :: (0x92, [0xFF]) :: (0x81, [standby'])
           :: (0xc0, [0x40]) :: (0x81, [tx]) :: (0xa2, [5])
           :: (0x80, [5; 9; 1; 0x80; 0x21])
           :: (0x8d, [0]) :: (0x81, [standby])
           :: (0x92, [0xff]) :: (0x8d, [0]) :: []
    /\ last_sent_id s' !! Int 5 = Some 1
    /\ last_received_id s' = <[5 := 0]> ∅.
Proof.
  intros s.
  assert (Hvalid : valid_sent_ids s).
  { intros to id. subst s. cbn [last_sent_id].
    destruct (decide (to = Int 5)) as [->|Hne].
    - rewrite lookup_insert_eq. intros [= <-]. lia.
    - rewrite lookup_insert_ne by congruence. discriminate. }
  destruct (receive_packet_acknowledges_id_zero_with_fresh_id
              s 9 5 0 [0x68]
              10 [10.5%float] [12.5%float] [0] _RH_RF95_TX_DONE []
              ltac:(repeat split; try reflexivity; try discriminate;
                    [now left|now right])
              (byte_regs_holding [9; 5; 0; 0; 0x68] ltac:(simpl; lia))
              eq_refl eq_refl eq_refl ltac:(lia) ltac:(lia) Hvalid
              ltac:(discriminate) ltac:(discriminate)
              eq_refl eq_refl eq_refl
              ltac:(repeat constructor) ltac:(repeat constructor)
              ltac:(discriminate))
    as (s' & rx & dio & standby' & tx & standby
        & Hrun & _ & Hx & _ & _ & _ & _ & Hsent & Hseen & _).
  exists s', rx, dio, standby', tx, standby.
  split; [exact Hrun|]. split; [exact Hx|]. split; [|exact Hseen].
  rewrite Hsent. apply lookup_insert_eq.
Defined.

(** * A payload of 252 bytes *)

(** X25.  A payload of 252 bytes passes the length assertion of [send]
    but cannot be sent: with a header that packs and whose id is set, on
    a chip whose mode register reads as a byte, the 256 bytes of header
    and payload are written to the FIFO, and the write of their count,
    256, to the payload-length register is refused by the bus with
    [ValueError].  The chip is left in Standby with the FIFO loaded and
    nothing transmitted; [last_sent_id], the clock and the pending
    interrupts are as before. *)
Theorem send_252_bytes_raises
        (data : list Z) (timeout : float) (tx_header : sequence)
        (header : list Z) (s : RFM9x) :
  length data = 252%nat ->
  forallb is_byte data = true ->
  holds_byte _RH_RF95_REG_01_OP_MODE s ->
  length (items_of tx_header) = 4%nat ->
  items_of tx_header !! 2%nat <> Some (Int 0) ->
  struct_pack (items_of tx_header) = Some header ->
  exists (s' : RFM9x) (standby : Z),
    send data timeout tx_header s = (Raise ValueError, s')
    /\ xfers s'
       = (0x80, header ++ data) :: (0x8d, [0]) :: (0x81, [standby]) :: xfers s
    /\ Z.land standby 0x07 = STANDBY_MODE
    /\ regs s' _RH_RF95_REG_01_OP_MODE = standby
    /\ last_sent_id s' = last_sent_id s
    /\ env s' = env s.
Proof.
  intros Hlen Hdata Hbyte Hfour Hid Hpack.
  assert (Hload : send_load data tx_header s = load_fifo data tx_header s).
  { rewrite send_load_good_length by (try assumption; lia).
    destruct (items_of tx_header !! 2%nat) as [[[| |]|]|];
      try reflexivity. now elim Hid. }
  destruct (mode_set_run STANDBY_MODE s ltac:(unfold STANDBY_MODE; lia) Hbyte)
    as (Hidle & _ & Hlow).
  cbv zeta in Hidle, Hlow.
  set (standby := Z.lor (Z.land _ _) _) in Hidle, Hlow.
  assert (Hall : forallb is_byte (header ++ data) = true)
    by (rewrite forallb_app, (struct_pack_bytes _ _ Hpack), Hdata;
        reflexivity).
  destruct (struct_pack_four _ _ Hpack) as (a & b & c & d & ->).
  assert (Hcount : ~ 0 <= Z.of_nat (length ([a; b; c; d] ++ data)) <= 255)
    by (rewrite length_app; cbn [length]; lia).
  unfold load_fifo, idle in Hload.
  rewrite (bind_run _ _ _ _ _ Hidle) in Hload.
  rewrite (bind_run _ _ _ _ _ (_write_u8_int _ 0 _ ltac:(lia))) in Hload.
  rewrite Hpack in Hload. cbv zeta in Hload.
  assert (Hfifo : forall st,
             _write_u8 _RH_RF95_REG_00_FIFO
                       (BytesPayload ([a; b; c; d] ++ data)) st
             = (Ok tt, with_bus st (regs st)
                         ((0x80, [a; b; c; d] ++ data) :: xfers st))).
  { intros st. unfold _write_u8. cbv zeta. rewrite Hall. reflexivity. }
  rewrite (bind_run _ _ _ _ _ (Hfifo _)) in Hload.
  rewrite (bind_raise _ _ _ _ _ (_write_u8_refused _ _ _ Hcount)) in Hload.
  eexists. exists standby. split.
  { unfold send. apply bind_raise. exact Hload. }
  split; [reflexivity|]. split; [exact Hlow|].
  split; [reflexivity|]. split; reflexivity.
Qed.

Lemma send_252_bytes_raises_witness :
  exists (s' : RFM9x) (standby : Z),
    send (repeat 0x41 252) 2 (Tuple [Int 2; Int 1; Int 7; Int 0]) never_done
    = (Raise ValueError, s')
    /\ xfers s'
       = (0x80, [2; 1; 7; 0] ++ repeat 0x41 252)
           :: (0x8d, [0]) :: (0x81, [standby]) :: []
    /\ Z.land standby 0x07 = STANDBY_MODE
    /\ regs s' _RH_RF95_REG_01_OP_MODE = standby
    /\ last_sent_id s' = last_sent_id never_done
    /\ env s' = env never_done.
Proof.
  exact (send_252_bytes_raises
           (repeat 0x41 252) 2 (Tuple [Int 2; Int 1; Int 7; Int 0])
           [2; 1; 7; 0] never_done
           eq_refl eq_refl ltac:(unfold holds_byte; simpl; lia)
           eq_refl ltac:(discriminate) eq_refl).
Defined.
